(** * run.py: the regression flow of the RISC-V random instruction generator

    A shallow embedding of [run.py]: the lookup of tool profiles, the
    resolution of command templates, the four stages (gen, gcc_compile,
    iss_sim, iss_cmp) and the dispatch on [--steps].  External processes,
    the environment, the YAML loader and the random generator are the
    fields of an environment record; the script itself is a state and
    exit monad over the files, the printed lines and the processes
    started so far. *)

From Stdlib Require Import ZArith Ascii DecimalString.
From stdpp Require Import base option list strings gmap.

Local Open Scope Z_scope.

(** ** Python strings *)

Module Py.

(** [str.isspace] on one ASCII character: TAB..CR, FS..US and the space. *)
Definition isspace (c : ascii) : bool :=
  let n := Ascii.N_of_ascii c in
  ((9 <=? n) && (n <=? 13) || (28 <=? n) && (n <=? 32))%N.

(** [a + b] on strings is [a +:+ b]. *)

(** [s.startswith(p)], which is also [re.match(p, s)] for a pattern
    without special characters. *)
Fixpoint startswith (p s : string) : bool :=
  match p, s with
  | EmptyString, _ => true
  | String a p', String b s' => if Ascii.eqb a b then startswith p' s' else false
  | String _ _, EmptyString => false
  end.

(** [p in s]. *)
Fixpoint contains (p s : string) : bool :=
  startswith p s ||
  match s with
  | EmptyString => false
  | String _ s' => contains p s'
  end.

(** [re.sub(pat, repl, s)] for a pattern without special characters and a
    replacement without backslash: every occurrence, left to right, not
    overlapping; the replacement is not scanned again.  [skip] counts the
    characters of a matched occurrence still to be dropped.  A replacement
    with a backslash is a template that [re.sub] rewrites or refuses; the
    function is not meant for it, see [no_backslash] below. *)
Fixpoint sub_from (pat repl : string) (skip : nat) (s : string) : string :=
  match s with
  | EmptyString => EmptyString
  | String c s' =>
      match skip with
      | S k => sub_from pat repl k s'
      | O =>
          if startswith pat s
          then repl +:+ sub_from pat repl (Nat.pred (String.length pat)) s'
          else String c (sub_from pat repl O s')
      end
  end.

Definition re_sub (pat repl s : string) : string := sub_from pat repl O s.

(** [s.rstrip()], [s.lstrip()] and [s.strip()]. *)
Fixpoint rstrip (s : string) : string :=
  match s with
  | EmptyString => EmptyString
  | String c s' =>
      match rstrip s' with
      | EmptyString => if isspace c then EmptyString else String c EmptyString
      | r => String c r
      end
  end.

Fixpoint lstrip (s : string) : string :=
  match s with
  | EmptyString => EmptyString
  | String c s' => if isspace c then lstrip s' else s
  end.

Definition strip (s : string) : string := lstrip (rstrip s).

(** [s.upper()] on ASCII. *)
Definition upper_ascii (c : ascii) : ascii :=
  let n := Ascii.N_of_ascii c in
  if ((97 <=? n) && (n <=? 122))%N then Ascii.ascii_of_N (n - 32) else c.

Fixpoint upper (s : string) : string :=
  match s with
  | EmptyString => EmptyString
  | String c s' => String (upper_ascii c) (upper s')
  end.

(** [s.split(sep)] for a separator of one character: never empty, and
    an empty field between two separators is kept. *)
Fixpoint split (sep : ascii) (s : string) : list string :=
  match s with
  | EmptyString => [EmptyString]
  | String c s' =>
      if Ascii.eqb c sep then EmptyString :: split sep s'
      else match split sep s' with
           | h :: t => String c h :: t
           | [] => [String c EmptyString]
           end
  end.

(** [s.split()]: the maximal runs of characters that are not white space.
    [cur] is the run read so far. *)
Fixpoint split_from (cur : string) (s : string) : list string :=
  match s with
  | EmptyString => match cur with EmptyString => [] | _ => [cur] end
  | String c s' =>
      if isspace c
      then match cur with
           | EmptyString => split_from EmptyString s'
           | _ => cur :: split_from EmptyString s'
           end
      else split_from (cur +:+ String c EmptyString) s'
  end.

Definition split_ws (s : string) : list string := split_from EmptyString s.

(** ["%d" % z]. *)
Definition fmt_d (z : Z) : string := NilZero.string_of_int (Z.to_int z).

(** [" ".join(l)]. *)
Fixpoint join_sp (l : list string) : string :=
  match l with
  | [] => EmptyString
  | [w] => w
  | w :: l' => w +:+ " " +:+ join_sp l'
  end.

(** [range(0, n)]. *)
Definition range (n : Z) : list Z := map Z.of_nat (seq 0 (Z.to_nat n)).

End Py.

(** ** Data read from the YAML files *)

(** The entries of [simulator.yaml], [iss.yaml] and the test list: Python
    dictionaries with fixed keys, read by [read_yaml]. *)
Module Yaml.

Record simulator := {
  tool : string;
  compile_cmd : list string;
  sim_cmd : string }.

Record iss_setup := {
  iss : string;
  path_var : string;
  cmd : string }.

Record testcase := {
  test : string;
  uvm_test : string;
  iterations : Z }.

End Yaml.

(** ** Classes of characters *)

Fixpoint all_chars (p : ascii -> bool) (s : string) : bool :=
  match s with
  | EmptyString => true
  | String c s' => p c && all_chars p s'
  end.

Definition is_digit (c : ascii) : bool :=
  let n := Ascii.N_of_ascii c in ((48 <=? n) && (n <=? 57))%N.

Definition is_letter (c : ascii) : bool :=
  let n := Ascii.N_of_ascii c in
  ((65 <=? n) && (n <=? 90) || (97 <=? n) && (n <=? 122))%N.

(** Letters, digits and the characters [% + , - . / : = @ _]. *)
Definition safe_char (c : ascii) : bool :=
  let n := Ascii.N_of_ascii c in
  ((48 <=? n) && (n <=? 58) || (65 <=? n) && (n <=? 90)
   || (97 <=? n) && (n <=? 122) || (43 <=? n) && (n <=? 47)
   || (n =? 37) || (n =? 61) || (n =? 64) || (n =? 95))%N.

(** A path or a name that is one word for the shell, with nothing for it to
    expand or to interpret. *)
Definition plain_word (s : string) : bool :=
  negb (String.eqb s EmptyString) && all_chars safe_char s.

(** A text without a backslash.  [re.sub] reads its replacement as a
    template: a backslash in it is an escape that [re.sub] rewrites or
    refuses with [re.error], also when the pattern does not occur.  Only a
    replacement without a backslash is inserted as it is, which is what
    [Py.re_sub] does; the theorems below that substitute a text which is not
    fixed assume it of that text. *)
Definition no_backslash (s : string) : bool :=
  all_chars (fun c => negb (Ascii.N_of_ascii c =? 92)%N) s.

(** A character of ASCII; [Py.upper] is [str.upper] on such characters. *)
Definition is_ascii (c : ascii) : bool := (Ascii.N_of_ascii c <? 128)%N.

(** ** The world outside the script *)

(** What a child process does: its exit status, what it writes to the
    captured stream, whether these bytes decode as text (then [captured] is
    the text), and how long it runs. *)
Record process := {
  returncode : Z;
  captured : string;
  decodes : bool;
  seconds : Z }.

(** What [/bin/sh] is: bash, which reads [&>] and [&>>] as redirections of
    both output streams, or a shell that follows POSIX only, such as dash,
    which reads [&] as the end of a command that it runs in the background
    and the rest as a redirection with no command. *)
Inductive shell := Bash | Posix.

(** Everything the script reads and cannot decide itself. *)
Record Env := {
  environ : gmap string string;
  read_simulator_yaml : string -> list Yaml.simulator;
  read_iss_yaml : string -> list Yaml.iss_setup;
  read_testlist : string -> list Yaml.testcase;
  (** a process started from an argument vector, whose program exists *)
  spawn : list string -> process;
  (** the shell that [Popen(cmd, shell=True)] runs *)
  sh : shell;
  (** a command line given to the shell that the shell model below does
      not interpret itself *)
  spawn_shell : string -> process;
  (** the lines that the log comparison utility, run with these arguments,
      adds to the file to which both its output streams are appended *)
  compare_logs : list string -> list string;
  (** the successive results of [random.getrandbits(32)] *)
  getrandbits32 : nat -> Z }.

(** A process started by the script. *)
Inductive invocation :=
  | Popen (cmd : string)
  | CheckOutput (argv : list string) (timeout : option Z)
  | SubprocessRun (argv : list string).

(** Files are lists of lines. *)
Abbreviation files := (gmap string (list string)).

Record world := {
  fs : files;
  printed : list string;
  started : list invocation;
  drawn : nat }.

Definition nl : string := String (Ascii.ascii_of_N 10) EmptyString.

(** ** The shell *)

(** [Popen(cmd, shell=True)] hands [cmd] to [/bin/sh].  The model reads the
    few simple commands that the script issues on the report, and only in
    their plainest form: the command line has no line feed, its pieces are
    separated by blanks, and every piece is a word of safe characters, a
    text between single quotes, or one of the operators [|], [>>] and [&>>]
    standing by itself.  Every other command line is left to [spawn_shell]
    and is taken to leave the files of the model as they are.

    [rm -rf] removes every file it names; the model does not tell apart a
    name that begins with [-], which [rm] reads as options.  [grep] and
    [echo] are read only when no operand begins with [-].  The comparison
    utility is read as one process that adds its lines to the file of the
    redirection [&>>] when the shell is bash; in a shell that follows POSIX
    only it runs in the background with its streams on the pipe, the
    redirection creates the file, and the utility is taken not to write to
    the files itself. *)
Module Sh.

Definition blank (c : ascii) : bool :=
  let n := Ascii.N_of_ascii c in ((n =? 32) || (n =? 9))%N.

Definition quote (c : ascii) : bool := (Ascii.N_of_ascii c =? 39)%N.

Definition line_feed (c : ascii) : bool := (Ascii.N_of_ascii c =? 10)%N.

(** A command line without a line feed: one command, not a list. *)
Definition one_line (cmd : string) : bool :=
  all_chars (fun c => negb (line_feed c)) cmd.

(** The pieces of a command line between blanks.  [q]: inside single
    quotes, where a blank does not end the piece; the quotes stay in the
    piece.  [cur]: the piece read so far, if one has started. *)
Fixpoint pieces (q : bool) (cur : option string) (s : string) : list string :=
  match s with
  | EmptyString => match cur with Some w => [w] | None => [] end
  | String c s' =>
      if negb q && blank c
      then match cur with
           | Some w => w :: pieces false None s'
           | None => pieces false None s'
           end
      else pieces (xorb q (quote c))
             (Some (default EmptyString cur +:+ String c EmptyString)) s'
  end.

(** What a piece is: a word of safe characters, the text of a piece that is
    quoted as a whole, or anything else, of which the model knows the three
    operators only. *)
Inductive token :=
  | Word (w : string)
  | Text (t : string)
  | Op (o : string).

(** The text before a quote that ends the string. *)
Fixpoint closing (s : string) : option string :=
  match s with
  | EmptyString => None
  | String c s' =>
      if quote c
      then match s' with EmptyString => Some EmptyString | _ => None end
      else match closing s' with
           | Some t => Some (String c t)
           | None => None
           end
  end.

Definition classify (p : string) : token :=
  if plain_word p then Word p
  else match p with
       | String c s' =>
           if quote c
           then match closing s' with Some t => Text t | None => Op p end
           else Op p
       | EmptyString => Op p
       end.

Definition tokens (cmd : string) : list token := map classify (pieces false None cmd).

Definition is_word (w : string) (t : token) : bool :=
  match t with Word v => String.eqb v w | _ => false end.

Definition is_op (o : string) (t : token) : bool :=
  match t with Op v => String.eqb v o | _ => false end.

(** The words of tokens that are all words, and the texts of tokens that
    are all words or quoted texts. *)
Fixpoint words_of (ts : list token) : option (list string) :=
  match ts with
  | [] => Some []
  | Word w :: ts' =>
      match words_of ts' with Some ws => Some (w :: ws) | None => None end
  | _ => None
  end.

Fixpoint texts_of (ts : list token) : option (list string) :=
  match ts with
  | [] => Some []
  | Word w :: ts' | Text w :: ts' =>
      match texts_of ts' with Some ws => Some (w :: ws) | None => None end
  | Op _ :: _ => None
  end.

(** The first redirection [op file] among the arguments of a command: the
    arguments before it, the file, and the arguments after it. *)
Fixpoint redirection (op : string) (ts : list token)
  : option (list token * string * list token) :=
  match ts with
  | [] => None
  | t :: ts' =>
      if is_op op t
      then match ts' with
           | Word f :: after => Some ([], f, after)
           | _ => None
           end
      else match redirection op ts' with
           | Some (before, f, after) => Some (t :: before, f, after)
           | None => None
           end
  end.

(** The arguments of [grep] in [grep pat file ... | wc -l]. *)
Definition counted (args : list token) : option (string * list string) :=
  match args with
  | Word pat :: rest =>
      match rev rest with
      | l :: wc :: bar :: rfiles =>
          if is_word "-l" l && is_word "wc" wc && is_op "|" bar
          then match words_of (rev rfiles) with
               | Some names => Some (pat, names)
               | None => None
               end
          else None
      | _ => None
      end
  | _ => None
  end.

(** A file operand that no tool takes for an option. *)
Definition operand (f : string) : bool := negb (Py.startswith "-" f).

(** Arguments that [echo] writes as they are, in bash and in dash: the first
    is no option and none has a backslash. *)
Definition echoed (args : list string) : bool :=
  forallb no_backslash args
  && match args with
     | a :: _ => negb (Py.startswith "-" a)
     | [] => true
     end.

Definition append (f : string) (ls : list string) (m : files) : files :=
  <[f := default [] (m !! f) ++ ls]> m.

(** The number of lines that hold [pat]. *)
Definition count_matching (pat : string) (ls : list string) : Z :=
  Z.of_nat (length (filter (fun l => Is_true (Py.contains pat l)) ls)).

(** What [grep pat file ... | wc -l] writes: the complaints of [grep] about
    the files that do not exist, which go to the error stream and so past
    [wc], and then the number of matching lines in the files that exist. *)
Definition count_lines (m : files) (pat : string) (names : list string) : string :=
  foldr (fun f out =>
           match m !! f with
           | Some _ => out
           | None => "grep: " +:+ f +:+ ": No such file or directory" +:+ nl +:+ out
           end)
    (Py.fmt_d (foldr (fun f n =>
                        match m !! f with
                        | Some ls => count_matching pat ls + n
                        | None => n
                        end) 0 names) +:+ nl)
    names.

Section Run.
Variable E : Env.

(** A command that the model does not read: the files stay, and the pipe
    holds what the environment says, if that decodes. *)
Definition left_to_env (cmd : string) (m : files) : files * option string :=
  let p := spawn_shell E cmd in
  (m, if decodes p then Some (captured p) else None).

(** The files after the command, and the text that [communicate] reads from
    the pipe, [None] when the bytes in the pipe do not decode. *)
Definition run (cmd : string) (m : files) : files * option string :=
  if negb (one_line cmd) then left_to_env cmd m
  else
    match tokens cmd with
    | [] => (m, Some EmptyString)
    | t :: args =>
        if is_word "rm" t then
          match words_of args with
          | Some (o :: names) =>
              if String.eqb o "-rf" then (foldr delete m names, Some EmptyString)
              else left_to_env cmd m
          | _ => left_to_env cmd m
          end
        else if is_word "grep" t then
          match counted args with
          | Some (pat, f :: names) =>
              if all_chars is_letter pat && forallb operand (f :: names)
              then (m, Some (count_lines m pat (f :: names)))
              else left_to_env cmd m
          | _ => left_to_env cmd m
          end
        else if is_word "echo" t then
          match redirection ">>" args with
          | Some (before, f, after) =>
              match texts_of (before ++ after) with
              | Some ws =>
                  if echoed ws then (append f [Py.join_sp ws] m, Some EmptyString)
                  else left_to_env cmd m
              | None => left_to_env cmd m
              end
          | None => left_to_env cmd m
          end
        else if is_word "./iss_cmp" t then
          match redirection "&>>" args with
          | Some (before, f, after) =>
              match words_of (before ++ after) with
              | Some ws =>
                  match sh E, after with
                  | Bash, _ => (append f (compare_logs E ws) m, Some EmptyString)
                  | Posix, [] => left_to_env cmd (append f [] m)
                  | Posix, _ :: _ => left_to_env cmd m
                  end
              | None => left_to_env cmd m
              end
          | None => left_to_env cmd m
          end
        else left_to_env cmd m
    end.
End Run.

End Sh.

(** ** The script as a state and exit monad *)

Inductive exn :=
  | TimeoutExpired (argv : list string) (timeout : Z)
  | CalledProcessError (status : Z) (argv : list string) (out : string)
  | UnboundLocalError (var : string)
  | UnicodeDecodeError.

(** The argument of [sys.exit]: a status, or a message for the error
    stream (and then the status is 1). *)
Inductive exit_arg :=
  | Status (n : Z)
  | Message (msg : string).

Inductive result (A : Type) :=
  | Return (a : A)
  | SysExit (arg : exit_arg)
  | Raise (e : exn).
Arguments Return {A} a.
Arguments SysExit {A} arg.
Arguments Raise {A} e.

(** The exit status of the interpreter. *)
Definition exit_status {A} (r : result A) : Z :=
  match r with
  | Return _ => 0
  | SysExit (Status n) => n
  | SysExit (Message _) => 1
  | Raise _ => 1
  end.

Definition M (A : Type) : Type := world -> result A * world.

Definition ret {A} (a : A) : M A := fun w => (Return a, w).

Definition bind {A B} (m : M A) (k : A -> M B) : M B :=
  fun w =>
    match m w with
    | (Return a, w') => k a w'
    | (SysExit arg, w') => (SysExit arg, w')
    | (Raise e, w') => (Raise e, w')
    end.

Declare Scope script_scope.
Delimit Scope script_scope with script.
Bind Scope script_scope with M.
Notation "x <- m ;; k" := (bind m (fun x => k))
  (at level 100, m at level 99, k at level 200, right associativity) : script_scope.
Notation "m ;; k" := (bind m (fun _ => k))
  (at level 100, k at level 200, right associativity) : script_scope.
Local Open Scope script_scope.

Definition sys_exit {A} (arg : exit_arg) : M A := fun w => (SysExit arg, w).
Definition raise {A} (e : exn) : M A := fun w => (Raise e, w).

(** [try: m  except CalledProcessError: h]. *)
Definition except_CalledProcessError {A} (m : M A) (h : M A) : M A :=
  fun w =>
    match m w with
    | (Raise (CalledProcessError _ _ _), w') => h w'
    | r => r
    end.

Definition print (line : string) : M unit :=
  fun w => (Return tt, {| fs := fs w; printed := printed w ++ [line];
                          started := started w; drawn := drawn w |}).

Definition when (b : bool) (m : M unit) : M unit := if b then m else ret tt.

(** [for x in l: body]. *)
Fixpoint for_ {A} (l : list A) (body : A -> M unit) : M unit :=
  match l with
  | [] => ret tt
  | x :: l' => body x ;; for_ l' body
  end.

(** [for x in l: body] where the body updates a local variable. *)
Fixpoint for_with {A S} (l : list A) (body : S -> A -> M S) (s : S) : M S :=
  match l with
  | [] => ret s
  | x :: l' => s' <- body s x ;; for_with l' body s'
  end.

(** Truth of an integer flag. *)
Definition truthy (z : Z) : bool := negb (z =? 0).

(** The parsed command line. *)
Module Args.

Record t := {
  o : string;
  testlist : string;
  isa : string;
  mabi : string;
  test : string;
  seed : Z;
  iterations : Z;
  simulator : string;
  simulator_yaml : string;
  iss : string;
  iss_yaml : string;
  verbose : Z;
  co : Z;
  so : Z;
  steps : string;
  lsf_cmd : string }.

(** The defaults of the parser. *)
Definition default : t := {|
  o := "./out"; testlist := ""; isa := "rv64imc"; mabi := "lp64";
  test := "all"; seed := -1; iterations := 0; simulator := "vcs";
  simulator_yaml := ""; iss := "spike"; iss_yaml := ""; verbose := 0;
  co := 0; so := 0; steps := "all"; lsf_cmd := "" |}.

End Args.

(** The test list the script reads: the default when none is given. *)
Definition testlist_of (a : Args.t) (cwd : string) : string :=
  if String.eqb (Args.testlist a) "" then cwd +:+ "/yaml/testlist.yaml"
  else Args.testlist a.

Section Script.
Variable E : Env.

Definition start (i : invocation) (w : world) : world :=
  {| fs := fs w; printed := printed w; started := started w ++ [i];
     drawn := drawn w |}.

(** [subprocess.check_output(argv, timeout=t, universal_newlines=text)]:
    the time limit comes first, then, in text mode, the decoding of what was
    captured, and the exit status last. *)
Definition check_output (argv : list string) (timeout : option Z) (text : bool)
  : M string :=
  fun w =>
    let w' := start (CheckOutput argv timeout) w in
    let p := spawn E argv in
    match timeout with
    | Some t =>
        if t <? seconds p then (Raise (TimeoutExpired argv t), w')
        else if text && negb (decodes p) then (Raise UnicodeDecodeError, w')
        else if returncode p =? 0 then (Return (captured p), w')
        else (Raise (CalledProcessError (returncode p) argv (captured p)), w')
    | None =>
        if text && negb (decodes p) then (Raise UnicodeDecodeError, w')
        else if returncode p =? 0 then (Return (captured p), w')
        else (Raise (CalledProcessError (returncode p) argv (captured p)), w')
    end.

(** [subprocess.run(argv)]: the status is not looked at. *)
Definition subprocess_run (argv : list string) : M unit :=
  fun w => (Return tt, start (SubprocessRun argv) w).

(** [subprocess.Popen(cmd, shell=True, universal_newlines=True, ...)]
    followed by [communicate()[0]]: neither looks at the exit status, and
    [communicate] decodes what it has read from the pipe. *)
Definition popen_communicate (cmd : string) : M string :=
  fun w =>
    let '(m, out) := Sh.run E cmd (fs w) in
    let w' := {| fs := m; printed := printed w;
                 started := started w ++ [Popen cmd]; drawn := drawn w |} in
    match out with
    | Some text => (Return text, w')
    | None => (Raise UnicodeDecodeError, w')
    end.

Definition getrandbits : M Z :=
  fun w => (Return (getrandbits32 E (drawn w)),
            {| fs := fs w; printed := printed w; started := started w;
               drawn := S (drawn w) |}).

(** *** get_env_var *)
Definition get_env_var (var : string) : M string :=
  match environ E !! var with
  | Some val => ret val
  | None =>
      print ("Please set the environment variable " +:+ var) ;;
      sys_exit (Status 1)
  end.

(** *** get_generator_cmd *)
Fixpoint search_simulator (simulator : string) (yaml_data : list Yaml.simulator)
  : M (list string * string) :=
  match yaml_data with
  | [] =>
      print ("Cannot find RTL simulator " +:+ simulator) ;;
      sys_exit (Status 1)
  | entry :: rest =>
      if String.eqb (Yaml.tool entry) simulator
      then print ("Found matching simulator: " +:+ Yaml.tool entry) ;;
           ret (Yaml.compile_cmd entry, Yaml.sim_cmd entry)
      else search_simulator simulator rest
  end.

Definition get_generator_cmd (simulator simulator_yaml : string)
  : M (list string * string) :=
  print ("Processing simulator setup file : " +:+ simulator_yaml) ;;
  search_simulator simulator (read_simulator_yaml E simulator_yaml).

(** *** parse_iss_yaml *)
Fixpoint search_iss (iss isa : string) (yaml_data : list Yaml.iss_setup) : M string :=
  match yaml_data with
  | [] =>
      print ("Cannot find ISS " +:+ iss) ;;
      sys_exit (Status 1)
  | entry :: rest =>
      if String.eqb (Yaml.iss entry) iss
      then print ("Found matching ISS: " +:+ Yaml.iss entry) ;;
           let cmd := Py.rstrip (Yaml.cmd entry) in
           path <- get_env_var (Yaml.path_var entry) ;;
           let cmd := Py.re_sub "<path_var>" path cmd in
           let cmd := if String.eqb iss "ovpsim"
                      then Py.re_sub "<variant>" (Py.upper isa) cmd
                      else Py.re_sub "<variant>" isa cmd in
           ret cmd
      else search_iss iss isa rest
  end.

Definition parse_iss_yaml (iss iss_yaml isa : string) : M string :=
  print ("Processing ISS setup file : " +:+ iss_yaml) ;;
  search_iss iss isa (read_iss_yaml E iss_yaml).

(** *** get_iss_cmd *)
Definition get_iss_cmd (base_cmd elf log : string) : string :=
  let cmd := Py.re_sub "<elf>" elf base_cmd in
  cmd +:+ " &> " +:+ log.

(** *** run_cmd

    [Popen] raises no [CalledProcessError], so the handler of the source
    is never entered and the output is returned whatever the status.  The
    handler reads [ps], which is unbound when [Popen] has raised.  The call
    of [communicate] in the last line is outside the [try]: when the output
    does not decode, its exception ends the script. *)
Definition run_cmd (cmd : string) : M string :=
  except_CalledProcessError
    (popen_communicate cmd)
    (raise (UnboundLocalError "ps")).

(** *** get_seed *)
Definition get_seed (seed : Z) : M Z :=
  if 0 <=? seed then ret seed else getrandbits.

(** *** gen *)

(** The body of [for cmd in compile_cmd]; [output] is the local variable
    of that name, unbound before its first assignment. *)
Definition gen_compile_body (output_dir cwd : string) (verbose : Z)
    (output : option string) (cmd : string) : M (option string) :=
  let cmd := Py.re_sub "<out>" output_dir cmd in
  let cmd := Py.re_sub "<cwd>" cwd cmd in
  when (truthy verbose) (print ("Compile command: " +:+ cmd)) ;;
  out <- run_cmd cmd ;;
  when (truthy verbose) (print out) ;;
  ret (Some out).

(** The command line of one run of the generator. *)
Definition gen_run_cmd (lsf_cmd sim_cmd output_dir : string)
    (test : Yaml.testcase) (rand_seed : Z) : string :=
  lsf_cmd +:+ " " +:+ Py.rstrip sim_cmd
    +:+ (" +UVM_TESTNAME=" +:+ Yaml.uvm_test test)
    +:+ (" +num_of_tests=" +:+ Py.fmt_d (Yaml.iterations test))
    +:+ (" +asm_file_name=" +:+ output_dir +:+ "/asm_tests/" +:+ Yaml.test test)
    +:+ (" +ntb_random_seed=" +:+ Py.fmt_d rand_seed)
    +:+ (" -l " +:+ output_dir +:+ "/sim_" +:+ Yaml.test test +:+ ".log").

(** The body of [for test in test_list].  The handler prints the local
    variable [output], which the failed call has not assigned. *)
Definition gen_run_body (lsf_cmd sim_cmd output_dir : string) (seed verbose : Z)
    (output : option string) (test : Yaml.testcase) : M (option string) :=
  if 0 <? Yaml.iterations test then
    rand_seed <- get_seed seed ;;
    let cmd := gen_run_cmd lsf_cmd sim_cmd output_dir test rand_seed in
    print ("Run " +:+ Yaml.uvm_test test +:+ " to generate "
             +:+ Py.fmt_d (Yaml.iterations test) +:+ " assembly tests") ;;
    when (truthy verbose) (print cmd) ;;
    out <- except_CalledProcessError
             (check_output (Py.split_ws cmd) (Some 300) true)
             (match output with
              | Some o => print o ;; sys_exit (Status 1)
              | None => raise (UnboundLocalError "output")
              end) ;;
    when (truthy verbose) (print out) ;;
    ret (Some out)
  else ret output.

Definition gen (test_list : list Yaml.testcase) (simulator simulator_yaml
    output_dir : string) (sim_only compile_only : Z) (lsf_cmd : string)
    (seed : Z) (cwd : string) (verbose : Z) : M unit :=
  cmds <- get_generator_cmd simulator simulator_yaml ;;
  let '(compile_cmd, sim_cmd) := cmds in
  output <- (if truthy sim_only then ret None
             else print "Building RISC-V instruction generator" ;;
                  for_with compile_cmd
                    (gen_compile_body output_dir cwd verbose) None) ;;
  if truthy compile_only then ret tt
  else
    let sim_cmd := Py.re_sub "<out>" output_dir sim_cmd in
    let sim_cmd := Py.re_sub "<cwd>" cwd sim_cmd in
    print "Running RISC-V instruction generator" ;;
    for_with test_list
      (gen_run_body lsf_cmd sim_cmd output_dir seed verbose) output ;;
    ret tt.

(** *** gcc_compile *)

(** [print(output)] of a bytes object, for output of printable characters
    other than the quote and the backslash. *)
Definition bytes_repr (out : string) : string := "b'" +:+ out +:+ "'".

Definition asm_prefix (output_dir : string) (test : Yaml.testcase) (i : Z) : string :=
  output_dir +:+ "/asm_tests/" +:+ Yaml.test test +:+ "." +:+ Py.fmt_d i.

Definition gcc_compile (test_list : list Yaml.testcase) (output_dir isa mabi
    : string) (verbose : Z) : M unit :=
  for_ test_list (fun test =>
    for_ (Py.range (Yaml.iterations test)) (fun i =>
      let prefix := asm_prefix output_dir test i in
      let asm := prefix +:+ ".S" in
      let elf := prefix +:+ ".o" in
      let binary := prefix +:+ ".bin" in
      gcc <- get_env_var "RISCV_GCC" ;;
      let cmd := gcc +:+ " -march=" +:+ isa +:+ " -mabi=" +:+ mabi
                   +:+ " -static -mcmodel=medany              -fvisibility=hidden -nostdlib              -nostartfiles              -Tscripts/link.ld "
                   +:+ asm +:+ " -o " +:+ elf in
      print ("Compiling " +:+ asm) ;;
      when (truthy verbose) (print cmd) ;;
      out <- check_output (Py.split_ws cmd) None false ;;
      when (truthy verbose) (print (bytes_repr out)) ;;
      print ("Converting to " +:+ binary) ;;
      objcopy <- get_env_var "RISCV_OBJCOPY" ;;
      let cmd := objcopy +:+ " -O binary " +:+ elf +:+ " " +:+ binary in
      out <- check_output (Py.split_ws cmd) None false ;;
      when (truthy verbose) (print (bytes_repr out)))).

(** *** iss_sim *)

(** The command of one simulation. *)
Definition iss_sim_cmd (output_dir iss base_cmd : string)
    (test : Yaml.testcase) (i : Z) : string :=
  let log_dir := output_dir +:+ "/" +:+ iss +:+ "_sim" in
  let elf := asm_prefix output_dir test i +:+ ".o" in
  let log := log_dir +:+ "/" +:+ Yaml.test test +:+ "." +:+ Py.fmt_d i +:+ ".log" in
  get_iss_cmd base_cmd elf log.

Definition iss_sim (test_list : list Yaml.testcase) (output_dir iss_list
    iss_yaml isa : string) (verbose : Z) : M unit :=
  for_ (Py.split "," iss_list) (fun iss =>
    let log_dir := output_dir +:+ "/" +:+ iss +:+ "_sim" in
    base_cmd <- parse_iss_yaml iss iss_yaml isa ;;
    print (iss +:+ " sim log dir: " +:+ log_dir) ;;
    subprocess_run ["mkdir"; "-p"; log_dir] ;;
    for_ test_list (fun test =>
      for_ (Py.range (Yaml.iterations test)) (fun i =>
        let elf := asm_prefix output_dir test i +:+ ".o" in
        let cmd := iss_sim_cmd output_dir iss base_cmd test i in
        print ("Running ISS simulation: " +:+ elf) ;;
        run_cmd cmd ;;
        when (truthy verbose) (print cmd)))).

(** *** iss_cmp *)

(** [iss_list[0], iss_list[1] = iss_list[1], iss_list[0]] when the second
    name is spike. *)
Definition spike_first (pair : string * string) : string * string :=
  if String.eqb (snd pair) "spike" then (snd pair, fst pair) else pair.

Definition iss_log (output_dir iss : string) (test : Yaml.testcase) (i : Z) : string :=
  output_dir +:+ "/" +:+ iss +:+ "_sim/" +:+ Yaml.test test +:+ "."
    +:+ Py.fmt_d i +:+ ".log".

(** The command of one comparison. *)
Definition iss_cmp_cmd (output_dir report : string) (pair : string * string)
    (test : Yaml.testcase) (i : Z) : string :=
  "./iss_cmp " +:+ iss_log output_dir (fst pair) test i +:+ " "
    +:+ iss_log output_dir (snd pair) test i +:+ " " +:+ report
    +:+ (" &>> " +:+ report).

(** The body of the inner loop; [pair] is [iss_list], which has two
    elements here. *)
Definition iss_cmp_body (output_dir report : string) (verbose : Z)
    (test : Yaml.testcase) (pair : string * string) (i : Z)
    : M (string * string) :=
  let pair := spike_first pair in
  let elf := asm_prefix output_dir test i +:+ ".o" in
  print ("Comparing ISS sim result " +:+ fst pair +:+ "/" +:+ snd pair
           +:+ " : " +:+ elf) ;;
  run_cmd ("echo 'Test binary: " +:+ elf +:+ "' >> " +:+ report) ;;
  let cmd := iss_cmp_cmd output_dir report pair test i in
  run_cmd cmd ;;
  when (truthy verbose) (print cmd) ;;
  ret pair.

(** [("%s/iss_regr.log" % output_dir).rstrip()]. *)
Definition report_path (output_dir : string) : string :=
  Py.rstrip (output_dir +:+ "/iss_regr.log").

(** The lines after the loops: count the markers, append the summary. *)
Definition iss_cmp_summary (report : string) : M unit :=
  out <- run_cmd ("grep PASSED " +:+ report +:+ " | wc -l") ;;
  let passed_cnt := Py.strip out in
  out <- run_cmd ("grep FAILED " +:+ report +:+ " | wc -l") ;;
  let failed_cnt := Py.strip out in
  let summary := passed_cnt +:+ " PASSED, " +:+ failed_cnt +:+ " FAILED" in
  print summary ;;
  run_cmd ("echo " +:+ summary +:+ " >> " +:+ report) ;;
  print ("ISS regression report is saved to " +:+ report).

Definition iss_cmp (test_list : list Yaml.testcase) (iss output_dir : string)
    (verbose : Z) : M unit :=
  match Py.split "," iss with
  | [iss0; iss1] =>
      let report := report_path output_dir in
      run_cmd ("rm -rf " +:+ report) ;;
      for_with test_list (fun pair test =>
        for_with (Py.range (Yaml.iterations test))
          (iss_cmp_body output_dir report verbose test) pair)
        (iss0, iss1) ;;
      iss_cmp_summary report
  | _ => ret tt
  end.

(** *** The top level *)

(** Modelled from the spec: [process_regression_list] of
    [scripts/testlist_parser.py] is not part of the sources at hand.  It
    selects the whole catalog in its order for ["all"] and otherwise the
    entry with the requested name, and a positive override replaces the
    iteration count of every selected entry. *)
Definition process_regression_list (catalog : list Yaml.testcase)
    (test : string) (iterations : Z) : list Yaml.testcase :=
  let selected :=
    if String.eqb test "all" then catalog
    else take 1 (filter (fun e => Yaml.test e = test) catalog) in
  if 0 <? iterations
  then map (fun e => {| Yaml.test := Yaml.test e;
                        Yaml.uvm_test := Yaml.uvm_test e;
                        Yaml.iterations := iterations |}) selected
  else selected.

(** [args.steps == "all" or re.match(step, args.steps)]: [re.match]
    looks for the pattern at the start of the string only. *)
Definition step_requested (step steps : string) : bool :=
  String.eqb steps "all" || Py.startswith step steps.

Definition main (a : Args.t) (cwd : string) : M unit :=
  let iss_yaml :=
    if String.eqb (Args.iss_yaml a) "" then cwd +:+ "/yaml/iss.yaml"
    else Args.iss_yaml a in
  let simulator_yaml :=
    if String.eqb (Args.simulator_yaml a) "" then cwd +:+ "/yaml/simulator.yaml"
    else Args.simulator_yaml a in
  let testlist := testlist_of a cwd in
  subprocess_run ["mkdir"; "-p"; Args.o a] ;;
  subprocess_run ["mkdir"; "-p"; Args.o a +:+ "/asm_tests"] ;;
  let matched_list :=
    process_regression_list (read_testlist E testlist) (Args.test a)
      (Args.iterations a) in
  (if bool_decide (length matched_list = 0%nat)
   then sys_exit (Message ("Cannot find " +:+ Args.test a +:+ " in " +:+ testlist))
   else ret tt) ;;
  when (step_requested "gen" (Args.steps a))
    (gen matched_list (Args.simulator a) simulator_yaml (Args.o a)
       (Args.so a) (Args.co a) (Args.lsf_cmd a) (Args.seed a) cwd
       (Args.verbose a)) ;;
  when (step_requested "gcc_compile" (Args.steps a))
    (gcc_compile matched_list (Args.o a) (Args.isa a) (Args.mabi a)
       (Args.verbose a)) ;;
  when (step_requested "iss_sim" (Args.steps a))
    (iss_sim matched_list (Args.o a) (Args.iss a) iss_yaml (Args.isa a)
       (Args.verbose a)) ;;
  when (step_requested "iss_cmp" (Args.steps a))
    (iss_cmp matched_list (Args.iss a) (Args.o a) (Args.verbose a)).
End Script.

(** The world after printing some lines. *)
Definition printing (ls : list string) (w : world) : world :=
  {| fs := fs w; printed := printed w ++ ls; started := started w;
     drawn := drawn w |}.

(** The time limit of an invocation, if it has one. *)
Definition timeout_of (i : invocation) : option Z :=
  match i with
  | CheckOutput _ t => t
  | Popen _ | SubprocessRun _ => None
  end.

(** The command of an entry of [iss.yaml] after the substitutions. *)
Definition resolved_iss_cmd (iss isa path : string) (entry : Yaml.iss_setup) : string :=
  Py.re_sub "<variant>" (if String.eqb iss "ovpsim" then Py.upper isa else isa)
    (Py.re_sub "<path_var>" path (Py.rstrip (Yaml.cmd entry))).

(** The entry of [iss.yaml] that [parse_iss_yaml] stops at, and the command
    it returns when the path variable of that entry is set. *)
Definition find_iss (iss : string) (yaml_data : list Yaml.iss_setup)
  : option Yaml.iss_setup :=
  List.find (fun e => String.eqb (Yaml.iss e) iss) yaml_data.

Definition iss_base_cmd (E : Env) (iss_yaml isa iss : string) : option string :=
  match find_iss iss (read_iss_yaml E iss_yaml) with
  | Some entry =>
      match environ E !! Yaml.path_var entry with
      | Some path => Some (resolved_iss_cmd iss isa path entry)
      | None => None
      end
  | None => None
  end.

(** The simulator [iss] is set up with the command [base]: it has an entry
    in [iss.yaml], the path variable of the first such entry is set to a
    path without a backslash, and [base] is the command of that entry with
    its placeholders filled in. *)
Definition set_up (E : Env) (iss_yaml isa iss base : string) : Prop :=
  exists entry path,
    find_iss iss (read_iss_yaml E iss_yaml) = Some entry
    /\ environ E !! Yaml.path_var entry = Some path
    /\ no_backslash path = true
    /\ base = resolved_iss_cmd iss isa path entry.

(** The upper case of a text of ASCII, written out from the two alphabets:
    a small letter becomes the capital letter at the same place, every
    other character stays. *)
Definition small_letters : string := "abcdefghijklmnopqrstuvwxyz".
Definition capital_letters : string := "ABCDEFGHIJKLMNOPQRSTUVWXYZ".

Fixpoint capital_of (c : ascii) (small capital : string) : ascii :=
  match small, capital with
  | String a small', String b capital' =>
      if Ascii.eqb c a then b else capital_of c small' capital'
  | _, _ => c
  end.

Fixpoint uppercase (s : string) : string :=
  match s with
  | EmptyString => EmptyString
  | String c s' => String (capital_of c small_letters capital_letters) (uppercase s')
  end.

(** One simulation, written out: the command of the simulator with the path
    of the program in the place of [<elf>], and both output streams
    redirected to the log of the simulator, the test and the iteration. *)
Definition simulation (output_dir iss base_cmd : string) (test : Yaml.testcase)
    (i : Z) : invocation :=
  Popen (Py.re_sub "<elf>"
           (output_dir +:+ "/asm_tests/" +:+ Yaml.test test +:+ "." +:+ Py.fmt_d i
              +:+ ".o")
           base_cmd
         +:+ " &> " +:+ output_dir +:+ "/" +:+ iss +:+ "_sim/" +:+ Yaml.test test
         +:+ "." +:+ Py.fmt_d i +:+ ".log").

(** The processes of the simulation stage for the simulators [sims], each a
    name with its resolved command: for every simulator the mkdir of its log
    directory and then one simulation for every test and iteration. *)
Definition iss_sim_invocations (test_list : list Yaml.testcase)
    (output_dir : string) (sims : list (string * string)) : list invocation :=
  flat_map (fun sim =>
    SubprocessRun ["mkdir"; "-p"; output_dir +:+ "/" +:+ sim.1 +:+ "_sim"]
    :: flat_map (fun test =>
         map (simulation output_dir sim.1 sim.2 test)
           (Py.range (Yaml.iterations test)))
       test_list)
    sims.

(** The two operands of the comparisons for the simulator list [a,b]. *)
Definition operands (a b : string) : string * string :=
  if String.eqb b "spike" then ("spike", a) else (a, b).

(** The two processes of one comparison, written out: the label of the
    entry is appended to the report, and then the comparison utility is run
    on the log of [first], the log of [second] and the report, with both its
    output streams appended to the report. *)
Definition comparison (output_dir first second : string) (test : Yaml.testcase)
    (i : Z) : list invocation :=
  let stem := Yaml.test test +:+ "." +:+ Py.fmt_d i in
  let report := output_dir +:+ "/iss_regr.log" in
  [Popen ("echo 'Test binary: " +:+ output_dir +:+ "/asm_tests/" +:+ stem
            +:+ ".o' >> " +:+ report);
   Popen ("./iss_cmp " +:+ output_dir +:+ "/" +:+ first +:+ "_sim/" +:+ stem
            +:+ ".log " +:+ output_dir +:+ "/" +:+ second +:+ "_sim/" +:+ stem
            +:+ ".log " +:+ report +:+ " &>> " +:+ report)].

(** The comparisons of a run, with [first] and [second] as the operands. *)
Definition iss_cmp_invocations (test_list : list Yaml.testcase)
    (output_dir first second : string) : list invocation :=
  flat_map (fun test =>
    flat_map (comparison output_dir first second test)
      (Py.range (Yaml.iterations test)))
    test_list.

(** ** Words that the shell leaves as they are *)

(** A character that neither ends a piece of a command line nor quotes. *)
Definition word_char (c : ascii) : bool := negb (Sh.quote c) && negb (Sh.blank c).

Definition is_piece (s : string) : bool :=
  negb (String.eqb s EmptyString) && all_chars word_char s.

(** The world without the file [f]. *)
Definition without_file (f : string) (w : world) : world :=
  {| fs := delete f (fs w); printed := printed w; started := started w;
     drawn := drawn w |}.

(** The lines that one comparison appends to the report when the shell is
    bash: the label, and then what the comparison utility writes for the
    two logs and the report. *)
Definition report_entry (E : Env) (output_dir first second : string)
    (test : Yaml.testcase) (i : Z) : list string :=
  let stem := Yaml.test test +:+ "." +:+ Py.fmt_d i in
  ("Test binary: " +:+ output_dir +:+ "/asm_tests/" +:+ stem +:+ ".o")
  :: compare_logs E [output_dir +:+ "/" +:+ first +:+ "_sim/" +:+ stem +:+ ".log";
                     output_dir +:+ "/" +:+ second +:+ "_sim/" +:+ stem +:+ ".log";
                     output_dir +:+ "/iss_regr.log"].

Definition report_entries (E : Env) (test_list : list Yaml.testcase)
    (output_dir first second : string) : list string :=
  flat_map (fun test =>
    flat_map (report_entry E output_dir first second test)
      (Py.range (Yaml.iterations test)))
    test_list.

(** The lines of a file, none when it does not exist. *)
Definition lines_of (f : string) (w : world) : list string := default [] (fs w !! f).

(** Both names of a pair of simulators are plain. *)
Definition safe_pair (pair : string * string) : Prop :=
  all_chars safe_char (fst pair) = true /\ all_chars safe_char (snd pair) = true.

(** The summary line for the lines of a report. *)
Definition summary_of (ls : list string) : string :=
  Py.fmt_d (Sh.count_matching "PASSED" ls) +:+ " PASSED, "
    +:+ Py.fmt_d (Sh.count_matching "FAILED" ls) +:+ " FAILED".

(** How a computation ends: [R] holds of the value and the world when it
    returns, [F] of the exit argument or the exception and the world when it
    does not. *)
Definition ends {A} (o : result A * world) (R : A -> world -> Prop)
    (F : exit_arg + exn -> world -> Prop) : Prop :=
  match o with
  | (Return a, w') => R a w'
  | (SysExit arg, w') => F (inl arg) w'
  | (Raise e, w') => F (inr e) w'
  end.

(** The names of the four steps. *)
Definition step_names : list string := ["gen"; "gcc_compile"; "iss_sim"; "iss_cmp"].

(** The body of the loop of [iss_sim] over the simulators. *)
Definition iss_sim_body (E : Env) (test_list : list Yaml.testcase)
    (output_dir iss_yaml isa : string) (verbose : Z) (iss : string) : M unit :=
  let log_dir := output_dir +:+ "/" +:+ iss +:+ "_sim" in
  base_cmd <- parse_iss_yaml E iss iss_yaml isa ;;
  print (iss +:+ " sim log dir: " +:+ log_dir) ;;
  subprocess_run ["mkdir"; "-p"; log_dir] ;;
  for_ test_list (fun test =>
    for_ (Py.range (Yaml.iterations test)) (fun i =>
      let elf := asm_prefix output_dir test i +:+ ".o" in
      let cmd := iss_sim_cmd output_dir iss base_cmd test i in
      print ("Running ISS simulation: " +:+ elf) ;;
      run_cmd E cmd ;;
      when (truthy verbose) (print cmd))).

(** The processes of the build of the generator. *)
Definition gen_builds (output_dir cwd : string) (compile_cmd : list string)
  : list invocation :=
  map (fun cmd => Popen (Py.re_sub "<cwd>" cwd (Py.re_sub "<out>" output_dir cmd)))
    compile_cmd.

(** The seed of the run number [j] of the generator, when [first_draw]
    random numbers have been drawn before the runs. *)
Definition run_seed (E : Env) (seed : Z) (first_draw j : nat) : Z :=
  if 0 <=? seed then seed else getrandbits32 E (first_draw + j).

(** One run of the generator, written out: the words of the command line
    made of the LSF command, the command of the simulator without the white
    space at its end, and the arguments for the test, with the time limit
    300. *)
Definition generator_run (lsf_cmd sim_cmd output_dir : string)
    (test : Yaml.testcase) (rand_seed : Z) : invocation :=
  CheckOutput
    (Py.split_ws
       (lsf_cmd +:+ " " +:+ Py.rstrip sim_cmd
          +:+ " +UVM_TESTNAME=" +:+ Yaml.uvm_test test
          +:+ " +num_of_tests=" +:+ Py.fmt_d (Yaml.iterations test)
          +:+ " +asm_file_name=" +:+ output_dir +:+ "/asm_tests/" +:+ Yaml.test test
          +:+ " +ntb_random_seed=" +:+ Py.fmt_d rand_seed
          +:+ " -l " +:+ output_dir +:+ "/sim_" +:+ Yaml.test test +:+ ".log"))
    (Some 300).

(** The runs of the generator: one for every test with a positive number of
    iterations, in the order of the tests. *)
Definition gen_runs (E : Env) (lsf_cmd sim_cmd output_dir : string) (seed : Z)
    (first_draw : nat) (test_list : list Yaml.testcase) : list invocation :=
  imap (fun j test =>
          generator_run lsf_cmd sim_cmd output_dir test
            (run_seed E seed first_draw j))
    (filter (fun test => 0 < Yaml.iterations test) test_list).

(** A process of the generator stage: a command of the shell, or a run
    with the time limit 300 that has ended in time with status 0. *)
Definition gen_process_ok (E : Env) (i : invocation) : Prop :=
  match i with
  | Popen _ => True
  | CheckOutput argv t =>
      t = Some 300 /\ returncode (spawn E argv) = 0
      /\ seconds (spawn E argv) <= 300
  | SubprocessRun _ => False
  end.

(** The world has gone on from [w] by the processes [new]. *)
Definition started_since (w : world) (P : invocation -> Prop) (w' : world) : Prop :=
  exists new, started w' = started w ++ new /\ Forall P new.

(** A computation only adds to the processes started, however it ends. *)
Definition grows {A} (m : M A) : Prop :=
  forall w, exists rest, started (m w).2 = started w ++ rest.

(** A string without white space, and one that is not empty either. *)
Definition no_space (s : string) : bool :=
  all_chars (fun c => negb (Py.isspace c)) s.

Definition one_word (s : string) : bool :=
  negb (String.eqb s EmptyString) && no_space s.

(** The arguments that [gen] appends to the command of the simulator. *)
Definition gen_run_args (output_dir : string) (test : Yaml.testcase)
    (rand_seed : Z) : list string :=
  ["+UVM_TESTNAME=" +:+ Yaml.uvm_test test;
   "+num_of_tests=" +:+ Py.fmt_d (Yaml.iterations test);
   "+asm_file_name=" +:+ output_dir +:+ "/asm_tests/" +:+ Yaml.test test;
   "+ntb_random_seed=" +:+ Py.fmt_d rand_seed;
   "-l";
   output_dir +:+ "/sim_" +:+ Yaml.test test +:+ ".log"].

(** The argument vectors of the compiler and of objcopy for the files with
    the prefix [prefix]. *)
Definition gcc_argv (gcc isa mabi prefix : string) : list string :=
  Py.split_ws gcc
    ++ ["-march=" +:+ isa; "-mabi=" +:+ mabi; "-static"; "-mcmodel=medany";
        "-fvisibility=hidden"; "-nostdlib"; "-nostartfiles"; "-Tscripts/link.ld";
        prefix +:+ ".S"; "-o"; prefix +:+ ".o"].

Definition objcopy_argv (objcopy prefix : string) : list string :=
  Py.split_ws objcopy ++ ["-O"; "binary"; prefix +:+ ".o"; prefix +:+ ".bin"].

(** The processes of the compilation stage: for every test and iteration the
    compiler and then objcopy. *)
Definition gcc_compile_invocations (gcc objcopy isa mabi : string)
    (test_list : list Yaml.testcase) (output_dir : string) : list invocation :=
  flat_map (fun test =>
    flat_map (fun i =>
      [CheckOutput (gcc_argv gcc isa mabi (asm_prefix output_dir test i)) None;
       CheckOutput (objcopy_argv objcopy (asm_prefix output_dir test i)) None])
      (Py.range (Yaml.iterations test)))
    test_list.

(** A process of the compilation stage: waited for without a time limit,
    and ended with status 0. *)
Definition gcc_process_ok (E : Env) (i : invocation) : Prop :=
  match i with
  | CheckOutput argv None => returncode (spawn E argv) = 0
  | _ => False
  end.

(** How the compilation stage can end the script, from the world [w]:
    with status 1, all processes having succeeded, or with the exception of
    the process started last, all processes before it having succeeded. *)
Definition gcc_compile_failure (E : Env) (w : world) (f : exit_arg + exn)
    (w' : world) : Prop :=
  match f with
  | inl arg => arg = Status 1 /\ started_since w (gcc_process_ok E) w'
  | inr (CalledProcessError status argv out) =>
      status = returncode (spawn E argv) /\ status <> 0
      /\ exists new, started w' = started w ++ new ++ [CheckOutput argv None]
                     /\ Forall (gcc_process_ok E) new
  | inr _ => False
  end.

(** The body of the loops of [gcc_compile]. *)
Definition gcc_compile_body (E : Env) (output_dir isa mabi : string) (verbose : Z)
    (test : Yaml.testcase) (i : Z) : M unit :=
  let prefix := asm_prefix output_dir test i in
  let asm := prefix +:+ ".S" in
  let elf := prefix +:+ ".o" in
  let binary := prefix +:+ ".bin" in
  gcc <- get_env_var E "RISCV_GCC" ;;
  let cmd := gcc +:+ " -march=" +:+ isa +:+ " -mabi=" +:+ mabi
               +:+ " -static -mcmodel=medany              -fvisibility=hidden -nostdlib              -nostartfiles              -Tscripts/link.ld "
               +:+ asm +:+ " -o " +:+ elf in
  print ("Compiling " +:+ asm) ;;
  when (truthy verbose) (print cmd) ;;
  out <- check_output E (Py.split_ws cmd) None false ;;
  when (truthy verbose) (print (bytes_repr out)) ;;
  print ("Converting to " +:+ binary) ;;
  objcopy <- get_env_var E "RISCV_OBJCOPY" ;;
  let cmd := objcopy +:+ " -O binary " +:+ elf +:+ " " +:+ binary in
  out <- check_output E (Py.split_ws cmd) None false ;;
  when (truthy verbose) (print (bytes_repr out)).

(** The number of comparisons of a run. *)
Definition comparisons (test_list : list Yaml.testcase) : Z :=
  Z.of_nat (length (flat_map (fun test => Py.range (Yaml.iterations test)) test_list)).

(** ** A concrete installation *)

(** One RTL simulator with two build commands, two instruction set
    simulators, one test with two iterations.  The generator exits with
    [gen_status] after [gen_seconds]; every command given to the shell and
    not interpreted by the model exits with [sh_status]. *)
Module Demo.

Definition generator_out : string := "UVM_FATAL: generator failed".
Definition build_out : string := "build log".

Definition env (gen_status gen_seconds sh_status : Z) : Env := {|
  environ := {[ "SPIKE_PATH" := "/opt/spike"; "OVPSIM_PATH" := "/opt/ovp";
                "RISCV_GCC" := "gcc"; "RISCV_OBJCOPY" := "objcopy" ]};
  read_simulator_yaml := fun _ =>
    [ {| Yaml.tool := "vcs";
         Yaml.compile_cmd := ["vcs -o <out>/simv"; "vcs_post <cwd>"];
         Yaml.sim_cmd := "<out>/simv +x " |} ];
  read_iss_yaml := fun _ =>
    [ {| Yaml.iss := "spike"; Yaml.path_var := "SPIKE_PATH";
         Yaml.cmd := "<path_var>/spike --isa=<variant> <elf> " |};
      {| Yaml.iss := "ovpsim"; Yaml.path_var := "OVPSIM_PATH";
         Yaml.cmd := "<path_var>/ovp --variant <variant> --program <elf>" |} ];
  read_testlist := fun _ =>
    [ {| Yaml.test := "t0"; Yaml.uvm_test := "u0"; Yaml.iterations := 2 |} ];
  spawn := fun argv =>
    if bool_decide (head argv = Some "out/simv")
    then {| returncode := gen_status; captured := generator_out;
            decodes := true; seconds := gen_seconds |}
    else {| returncode := 0; captured := "ok"; decodes := true; seconds := 1 |};
  sh := Bash;
  spawn_shell := fun _ =>
    {| returncode := sh_status; captured := build_out; decodes := true;
       seconds := 1 |};
  compare_logs := fun args =>
    ["compare " +:+ Py.join_sp args; "[PASSED]: 10 matched"];
  getrandbits32 := fun n => Z.of_nat n + 100 |}.

(** The same installation with no environment variable set. *)
Definition env_without_variables : Env := {|
  environ := ∅;
  read_simulator_yaml := read_simulator_yaml (env 0 1 0);
  read_iss_yaml := read_iss_yaml (env 0 1 0);
  read_testlist := read_testlist (env 0 1 0);
  spawn := spawn (env 0 1 0);
  sh := Bash;
  spawn_shell := spawn_shell (env 0 1 0);
  compare_logs := compare_logs (env 0 1 0);
  getrandbits32 := getrandbits32 (env 0 1 0) |}.

(** The same installation where [/bin/sh] is dash. *)
Definition env_dash : Env := {|
  environ := environ (env 0 1 0);
  read_simulator_yaml := read_simulator_yaml (env 0 1 0);
  read_iss_yaml := read_iss_yaml (env 0 1 0);
  read_testlist := read_testlist (env 0 1 0);
  spawn := spawn (env 0 1 0);
  sh := Posix;
  spawn_shell := spawn_shell (env 0 1 0);
  compare_logs := compare_logs (env 0 1 0);
  getrandbits32 := getrandbits32 (env 0 1 0) |}.

(** The same installation where the output of a simulator does not decode. *)
Definition env_binary_output : Env := {|
  environ := environ (env 0 1 0);
  read_simulator_yaml := read_simulator_yaml (env 0 1 0);
  read_iss_yaml := read_iss_yaml (env 0 1 0);
  read_testlist := read_testlist (env 0 1 0);
  spawn := spawn (env 0 1 0);
  sh := Bash;
  spawn_shell := fun _ =>
    {| returncode := 0; captured := ""; decodes := false; seconds := 1 |};
  compare_logs := compare_logs (env 0 1 0);
  getrandbits32 := getrandbits32 (env 0 1 0) |}.

Definition args (iss steps : string) : Args.t := {|
  Args.o := "out"; Args.testlist := ""; Args.isa := "rv64imc";
  Args.mabi := "lp64"; Args.test := "all"; Args.seed := -1;
  Args.iterations := 0; Args.simulator := "vcs"; Args.simulator_yaml := "";
  Args.iss := iss; Args.iss_yaml := ""; Args.verbose := 0; Args.co := 0;
  Args.so := 0; Args.steps := steps; Args.lsf_cmd := "" |}.

Definition tests : list Yaml.testcase :=
  [ {| Yaml.test := "t0"; Yaml.uvm_test := "u0"; Yaml.iterations := 2 |} ].

(** A world with a report left by an earlier run. *)
Definition old_report : list string :=
  ["Test binary: out/asm_tests/old.0.o"; "[FAILED]: 3 mismatches";
   "0 PASSED, 1 FAILED"].

(** A report as the loops of the comparison stage leave it. *)
Definition compared_report : list string :=
  ["Test binary: out/asm_tests/t0.0.o"; "[PASSED]: 10 matched";
   "Test binary: out/asm_tests/t0.1.o"; "[FAILED]: 2 mismatches";
   "Test binary: out/asm_tests/t1.0.o"; "[PASSED]: 7 matched"].

Definition world_after_loops : world :=
  {| fs := {[ "out/iss_regr.log" := compared_report ]}; printed := [];
     started := []; drawn := 0 |}.

(** A world where the report lies in a directory with a blank in its name,
    beside two empty files whose names are the two halves of its path. *)
Definition world_with_blank : world :=
  {| fs := {[ "my out/iss_regr.log" := compared_report;
              "my" := []; "out/iss_regr.log" := [] ]};
     printed := []; started := []; drawn := 0 |}.

Definition empty_world : world :=
  {| fs := ∅; printed := []; started := []; drawn := 0 |}.

Definition world_with_report : world :=
  {| fs := {[ "out/iss_regr.log" := old_report ]}; printed := [];
     started := []; drawn := 0 |}.

End Demo.

(** * Properties *)

Local Open Scope script_scope.

(** ** The string functions on small inputs *)

Example re_sub_out :
  Py.re_sub "<out>" "./out" "vcs -o <out>/simv -l <out>/c.log"
    = "vcs -o ./out/simv -l ./out/c.log".
Proof. reflexivity. Qed.

Example re_sub_not_again : Py.re_sub "<a>" "<a><a>" "x<a>y" = "x<a><a>y".
Proof. reflexivity. Qed.

Example rstrip_cmd : Py.rstrip ("spike <elf> " +:+ nl) = "spike <elf>".
Proof. reflexivity. Qed.

Example strip_count : Py.strip ("      12" +:+ nl) = "12".
Proof. reflexivity. Qed.

Example split_iss :
  Py.split "," "spike,ovpsim" = ["spike"; "ovpsim"]
  /\ Py.split "," "spike" = ["spike"]
  /\ Py.split "," "" = [""]
  /\ Py.split "," "a,b," = ["a"; "b"; ""].
Proof. repeat split; reflexivity. Qed.

Example split_ws_cmd : Py.split_ws " a  b c " = ["a"; "b"; "c"].
Proof. reflexivity. Qed.

Example fmt_d_int : Py.fmt_d (-12) = "-12" /\ Py.fmt_d 0 = "0" /\ Py.fmt_d 300 = "300".
Proof. repeat split; reflexivity. Qed.

Example upper_isa : Py.upper "rv64imc" = "RV64IMC".
Proof. reflexivity. Qed.

Example range_2 : Py.range 2 = [0; 1] /\ Py.range (-1) = [].
Proof. split; reflexivity. Qed.

Example tokens_quoted :
  Sh.tokens "echo 'Test binary: out/t.0.o' >> out/iss_regr.log"
    = [Sh.Word "echo"; Sh.Text "Test binary: out/t.0.o"; Sh.Op ">>";
       Sh.Word "out/iss_regr.log"].
Proof. reflexivity. Qed.

(** A piece with a character that is not safe, outside quotes, is no word:
    the model does not read the command. *)
Example tokens_unsafe :
  Sh.tokens "rm -rf $HOME/x a'b'c" = [Sh.Word "rm"; Sh.Word "-rf"; Sh.Op "$HOME/x";
                                       Sh.Op "a'b'c"].
Proof. reflexivity. Qed.

Example grep_count :
  Sh.run (Demo.env 0 1 0) "grep PASSED out/iss_regr.log | wc -l"
    (fs Demo.world_after_loops) = (fs Demo.world_after_loops, Some ("2" +:+ nl)).
Proof. vm_compute. reflexivity. Qed.

(** With a blank in the path the shell gives two files to [grep]. *)
Example grep_count_blank :
  Sh.run (Demo.env 0 1 0) "grep PASSED my out/iss_regr.log | wc -l"
    (fs Demo.world_with_blank) = (fs Demo.world_with_blank, Some ("0" +:+ nl)).
Proof. vm_compute. reflexivity. Qed.

(** A command line with a line feed is more than one command. *)
Example line_feed_not_read :
  Sh.run (Demo.env 0 1 0) ("rm -rf out/iss_regr.log" +:+ nl +:+ "rm -rf x")
    (fs Demo.world_with_report)
  = (fs Demo.world_with_report, Some Demo.build_out).
Proof. vm_compute. reflexivity. Qed.

(** ** The monad *)

Lemma bind_Return {A B} (m : M A) (k : A -> M B) w a w1 :
  m w = (Return a, w1) -> bind m k w = k a w1.
Proof. unfold bind. by intros ->. Qed.

Lemma bind_SysExit {A B} (m : M A) (k : A -> M B) w arg w1 :
  m w = (SysExit arg, w1) -> bind m k w = (SysExit arg, w1).
Proof. unfold bind. by intros ->. Qed.

Lemma bind_Raise {A B} (m : M A) (k : A -> M B) w e w1 :
  m w = (Raise e, w1) -> bind m k w = (Raise e, w1).
Proof. unfold bind. by intros ->. Qed.

Lemma print_printing line w : print line w = (Return tt, printing [line] w).
Proof. reflexivity. Qed.

Lemma when_printing b line w :
  when b (print line) w = (Return tt, printing (if b then [line] else []) w).
Proof.
  destruct b; simpl; [done|]. unfold ret, printing.
  rewrite app_nil_r. by destruct w.
Qed.

Lemma printing_printing ls1 ls2 w :
  printing ls2 (printing ls1 w) = printing (ls1 ++ ls2) w.
Proof. unfold printing; simpl. by rewrite app_assoc. Qed.

Lemma printing_nil w : printing [] w = w.
Proof. unfold printing. rewrite app_nil_r. by destruct w. Qed.

(** [run_cmd] passes on what [communicate] does with the pipe. *)
Lemma run_cmd_outcome E cmd w :
  run_cmd E cmd w =
    (match (Sh.run E cmd (fs w)).2 with
     | Some text => Return text
     | None => Raise UnicodeDecodeError
     end,
     {| fs := (Sh.run E cmd (fs w)).1; printed := printed w;
        started := started w ++ [Popen cmd]; drawn := drawn w |}).
Proof.
  unfold run_cmd, except_CalledProcessError, popen_communicate.
  by destruct (Sh.run E cmd (fs w)) as [m [text|]].
Qed.

(** When the pipe holds text, [run_cmd] returns it whatever the command
    exits with. *)
Lemma run_cmd_Return E cmd w m text :
  Sh.run E cmd (fs w) = (m, Some text) ->
  run_cmd E cmd w =
    (Return text,
     {| fs := m; printed := printed w; started := started w ++ [Popen cmd];
        drawn := drawn w |}).
Proof. intros Hrun. by rewrite run_cmd_outcome, Hrun. Qed.

(** Where the output of every command that the model leaves to the
    environment decodes, the pipe holds text after every command. *)
Lemma run_decodes E cmd m :
  (forall c, decodes (spawn_shell E c) = true) ->
  exists text, (Sh.run E cmd m).2 = Some text.
Proof.
  intros Hdec.
  assert (Henv : forall m', exists text, (Sh.left_to_env E cmd m').2 = Some text).
  { intros m'. unfold Sh.left_to_env. simpl. rewrite Hdec. by eexists. }
  unfold Sh.run.
  repeat case_match; try apply Henv; simpl; by eexists.
Qed.

Lemma run_cmd_decodes E cmd w :
  (forall c, decodes (spawn_shell E c) = true) ->
  exists text,
    run_cmd E cmd w =
      (Return text,
       {| fs := (Sh.run E cmd (fs w)).1; printed := printed w;
          started := started w ++ [Popen cmd]; drawn := drawn w |}).
Proof.
  intros Hdec. destruct (run_decodes E cmd (fs w) Hdec) as [text Htext].
  exists text. by rewrite run_cmd_outcome, Htext.
Qed.

(** ** Strings and words *)

Lemma append_cons c s t : String c s +:+ t = String c (s +:+ t).
Proof. reflexivity. Qed.

Lemma append_nil_r s : s +:+ "" = s.
Proof. induction s as [|c s IH]; [done|]. by rewrite append_cons, IH. Qed.

Lemma append_assoc s t u : (s +:+ t) +:+ u = s +:+ t +:+ u.
Proof. induction s as [|c s IH]; [done|]. by rewrite !append_cons, IH. Qed.

Lemma all_chars_app p s t :
  all_chars p (s +:+ t) = all_chars p s && all_chars p t.
Proof.
  induction s as [|c s IH]; simpl; [done|]. by rewrite IH, andb_assoc.
Qed.

Lemma all_chars_impl (p q : ascii -> bool) s :
  (forall c, p c = true -> q c = true) ->
  all_chars p s = true -> all_chars q s = true.
Proof.
  intros Hpq. induction s as [|c s IH]; simpl; [done|].
  intros [Hc Hs]%andb_prop. rewrite (Hpq c Hc). by apply IH.
Qed.

Lemma safe_char_word c :
  safe_char c = true -> Sh.quote c = false /\ Sh.blank c = false.
Proof. destruct c as [[] [] [] [] [] [] [] []]; vm_compute; by intros. Qed.

Lemma safe_char_not_space c : safe_char c = true -> Py.isspace c = false.
Proof. destruct c as [[] [] [] [] [] [] [] []]; vm_compute; by intros. Qed.

Lemma is_digit_safe c : is_digit c = true -> safe_char c = true.
Proof. destruct c as [[] [] [] [] [] [] [] []]; vm_compute; by intros. Qed.

Lemma plain_word_inv s :
  plain_word s = true -> s <> "" /\ all_chars safe_char s = true.
Proof.
  unfold plain_word. intros [Hne Hs]%andb_prop. split; [|done].
  intros ->. done.
Qed.

Lemma plain_word_app s t :
  all_chars safe_char s = true -> plain_word t = true -> plain_word (s +:+ t) = true.
Proof.
  intros Hs [Hne Ht]%plain_word_inv. unfold plain_word.
  rewrite all_chars_app, Hs, Ht. destruct s; simpl; [|done].
  by destruct t.
Qed.

(** The decimal writing of a number has digits only. *)
Lemma string_of_uint_digits d :
  all_chars is_digit (NilEmpty.string_of_uint d) = true.
Proof. induction d; simpl; done. Qed.

Lemma fmt_d_digits z :
  0 <= z -> Py.fmt_d z <> "" /\ all_chars is_digit (Py.fmt_d z) = true.
Proof.
  intros Hz. unfold Py.fmt_d. destruct z as [|p|p]; [done| |lia].
  simpl. unfold NilZero.string_of_uint.
  destruct (Pos.to_uint p) eqn:Hp; simpl; try done;
    (split; [done|apply (string_of_uint_digits)]).
Qed.

Lemma fmt_d_plain z : 0 <= z -> plain_word (Py.fmt_d z) = true.
Proof.
  intros [Hne Hd]%fmt_d_digits. unfold plain_word.
  rewrite (all_chars_impl _ _ _ is_digit_safe Hd), andb_true_r.
  by destruct (Py.fmt_d z).
Qed.

(** [strip] removes the end of line after a word. *)
Lemma rstrip_word_nl s :
  s <> "" -> all_chars safe_char s = true -> Py.rstrip (s +:+ nl) = s.
Proof.
  induction s as [|c s IH]; [done|]. intros _ [Hc Hs]%andb_prop. simpl.
  destruct s as [|c' s'].
  - simpl. by rewrite (safe_char_not_space c Hc).
  - rewrite IH; done.
Qed.

Lemma strip_word_nl s :
  plain_word s = true -> Py.strip (s +:+ nl) = s.
Proof.
  intros [Hne Hs]%plain_word_inv. unfold Py.strip.
  rewrite rstrip_word_nl by done. destruct s as [|c s]; [done|].
  simpl in *. apply andb_prop in Hs as [Hc _].
  by rewrite (safe_char_not_space c Hc).
Qed.

(** [rstrip] leaves a string that ends in a word. *)
Lemma rstrip_app_word s t :
  plain_word t = true -> Py.rstrip (s +:+ t) = s +:+ t.
Proof.
  intros [Hne Ht]%plain_word_inv.
  assert (Hr : Py.rstrip t = t).
  { clear Hne. induction t as [|c t IH]; [done|]. simpl in *.
    apply andb_prop in Ht as [Hc Ht]. rewrite (IH Ht).
    destruct t; [|done]. by rewrite (safe_char_not_space c Hc). }
  induction s as [|c s IH]; [exact Hr|].
  rewrite append_cons. simpl. rewrite IH.
  destruct (s +:+ t) eqn:Hst; [|done].
  destruct s; [|done]. by subst.
Qed.

Lemma report_path_eq output_dir :
  report_path output_dir = output_dir +:+ "/iss_regr.log".
Proof. unfold report_path. by apply rstrip_app_word. Qed.

Lemma report_path_plain output_dir :
  all_chars safe_char output_dir = true ->
  plain_word (report_path output_dir) = true.
Proof. intros Ho. rewrite report_path_eq. by apply plain_word_app. Qed.

(** A word without blanks and quotes is read in one piece. *)
Lemma pieces_word w cur s :
  all_chars word_char w = true ->
  Sh.pieces false cur (w +:+ s)
    = Sh.pieces false (match w with
                       | EmptyString => cur
                       | _ => Some (default EmptyString cur +:+ w)
                       end) s.
Proof.
  revert cur. induction w as [|c w IH]; intros cur; [done|].
  intros [Hc Hw]%andb_prop. unfold word_char in Hc.
  apply andb_prop in Hc as [Hq%negb_true_iff Hb%negb_true_iff].
  rewrite append_cons. simpl. rewrite Hq, Hb. simpl. rewrite (IH _ Hw).
  destruct w; [done|]. f_equal. f_equal.
  unfold default at 1. simpl. by rewrite append_assoc.
Qed.

Lemma plain_is_piece w : plain_word w = true -> is_piece w = true.
Proof.
  unfold plain_word, is_piece. intros [-> Hw]%andb_prop. simpl.
  apply (all_chars_impl safe_char); [|done].
  intros c [Hq Hb]%safe_char_word. unfold word_char. by rewrite Hq, Hb.
Qed.

(** A piece and the blank after it. *)
Lemma pieces_step w s :
  is_piece w = true ->
  Sh.pieces false None (w +:+ " " +:+ s) = w :: Sh.pieces false None s.
Proof.
  unfold is_piece. intros [Hne Hw]%andb_prop.
  rewrite pieces_word by done. destruct w; [done|]. reflexivity.
Qed.

(** The last piece. *)
Lemma pieces_last w : is_piece w = true -> Sh.pieces false None w = [w].
Proof.
  unfold is_piece. intros [Hne Hw]%andb_prop.
  rewrite <- (append_nil_r w) at 1. rewrite pieces_word by done.
  destruct w; [done|]. reflexivity.
Qed.

(** A text between single quotes and the blank after it. *)
Lemma pieces_quoted t cur s :
  all_chars (fun c => negb (Sh.quote c)) t = true ->
  Sh.pieces true (Some cur) (t +:+ "' " +:+ s)
    = (cur +:+ t +:+ "'") :: Sh.pieces false None s.
Proof.
  revert cur. induction t as [|c t IH]; intros cur.
  - intros _. reflexivity.
  - intros [Hq%negb_true_iff Ht]%andb_prop.
    rewrite append_cons. simpl. rewrite Hq. simpl.
    rewrite (IH _ Ht). by rewrite append_assoc.
Qed.

Lemma pieces_quoted_step t s :
  all_chars (fun c => negb (Sh.quote c)) t = true ->
  Sh.pieces false None ("'" +:+ t +:+ "' " +:+ s)
    = ("'" +:+ t +:+ "'") :: Sh.pieces false None s.
Proof. intros Ht. exact (pieces_quoted t "'" s Ht). Qed.

Lemma classify_plain w : plain_word w = true -> Sh.classify w = Sh.Word w.
Proof. unfold Sh.classify. by intros ->. Qed.

Lemma closing_text t :
  all_chars (fun c => negb (Sh.quote c)) t = true ->
  Sh.closing (t +:+ "'") = Some t.
Proof.
  induction t as [|c t IH]; [done|].
  intros [Hq%negb_true_iff Ht]%andb_prop.
  rewrite append_cons. simpl. by rewrite Hq, (IH Ht).
Qed.

Lemma classify_quoted t :
  all_chars (fun c => negb (Sh.quote c)) t = true ->
  Sh.classify ("'" +:+ t +:+ "'") = Sh.Text t.
Proof.
  intros Ht. unfold Sh.classify.
  change ("'" +:+ t +:+ "'") with (String "'" (t +:+ "'")).
  assert (Hp : plain_word (String "'" (t +:+ "'")) = false) by reflexivity.
  rewrite Hp. simpl. by rewrite (closing_text t Ht).
Qed.

Ltac read_pieces :=
  unfold Sh.tokens;
  repeat (rewrite pieces_step by first [reflexivity | by apply plain_is_piece]);
  rewrite pieces_last by first [reflexivity | by apply plain_is_piece].

(** Safe characters are neither line feeds nor backslashes, and a word of
    them does not begin like an option when its first character is a
    digit. *)
Lemma safe_char_one_line c : safe_char c = true -> negb (Sh.line_feed c) = true.
Proof. destruct c as [[] [] [] [] [] [] [] []]; vm_compute; by intros. Qed.

Lemma safe_char_no_backslash c :
  safe_char c = true -> negb (Ascii.N_of_ascii c =? 92)%N = true.
Proof. destruct c as [[] [] [] [] [] [] [] []]; vm_compute; by intros. Qed.

Lemma safe_one_line s : all_chars safe_char s = true -> Sh.one_line s = true.
Proof. apply all_chars_impl, safe_char_one_line. Qed.

Lemma safe_no_backslash s : all_chars safe_char s = true -> no_backslash s = true.
Proof. apply all_chars_impl, safe_char_no_backslash. Qed.

Lemma one_line_app s t : Sh.one_line (s +:+ t) = Sh.one_line s && Sh.one_line t.
Proof. apply all_chars_app. Qed.

Lemma no_backslash_app s t : no_backslash (s +:+ t) = no_backslash s && no_backslash t.
Proof. apply all_chars_app. Qed.

(** ** Tool profile lookup *)

Lemma search_simulator_first simulator pre entry post w :
  Forall (fun e => Yaml.tool e <> simulator) pre ->
  Yaml.tool entry = simulator ->
  search_simulator simulator (pre ++ entry :: post) w =
    (Return (Yaml.compile_cmd entry, Yaml.sim_cmd entry),
     printing ["Found matching simulator: " +:+ simulator] w).
Proof.
  intros Hpre Hentry. induction Hpre as [|e pre Hne _ IH]; simpl.
  - rewrite Hentry, String.eqb_refl. reflexivity.
  - apply String.eqb_neq in Hne. by rewrite Hne.
Qed.

Lemma search_simulator_absent simulator yaml_data w :
  Forall (fun e => Yaml.tool e <> simulator) yaml_data ->
  search_simulator simulator yaml_data w =
    (SysExit (Status 1), printing ["Cannot find RTL simulator " +:+ simulator] w).
Proof.
  induction 1 as [|e l Hne _ IH]; simpl; [done|].
  apply String.eqb_neq in Hne. by rewrite Hne.
Qed.

Lemma get_env_var_set E var val w :
  environ E !! var = Some val -> get_env_var E var w = (Return val, w).
Proof. unfold get_env_var. by intros ->. Qed.

Lemma get_env_var_unset E var w :
  environ E !! var = None ->
  get_env_var E var w =
    (SysExit (Status 1),
     printing ["Please set the environment variable " +:+ var] w).
Proof. unfold get_env_var. by intros ->. Qed.

Lemma search_iss_first E iss isa pre entry post path w :
  Forall (fun e => Yaml.iss e <> iss) pre ->
  Yaml.iss entry = iss ->
  environ E !! Yaml.path_var entry = Some path ->
  search_iss E iss isa (pre ++ entry :: post) w =
    (Return (resolved_iss_cmd iss isa path entry),
     printing ["Found matching ISS: " +:+ iss] w).
Proof.
  intros Hpre Hentry Hpath. induction Hpre as [|e pre Hne _ IH]; simpl.
  - rewrite Hentry, String.eqb_refl.
    rewrite (bind_Return _ _ _ _ _ (print_printing _ _)).
    rewrite (bind_Return _ _ _ _ _ (get_env_var_set _ _ _ _ Hpath)).
    unfold resolved_iss_cmd. by destruct (String.eqb iss "ovpsim").
  - apply String.eqb_neq in Hne. by rewrite Hne.
Qed.

Lemma search_iss_absent E iss isa yaml_data w :
  Forall (fun e => Yaml.iss e <> iss) yaml_data ->
  search_iss E iss isa yaml_data w =
    (SysExit (Status 1), printing ["Cannot find ISS " +:+ iss] w).
Proof.
  induction 1 as [|e l Hne _ IH]; simpl; [done|].
  apply String.eqb_neq in Hne. by rewrite Hne.
Qed.

(** C4: the lookup of a tool, for the RTL simulators and for the
    instruction set simulators, goes through the entries in their order and
    returns the commands of the first entry whose name is equal to the
    requested one; when no entry has that name it prints the missing name
    and leaves the script with status 1.  The command of an instruction set
    simulator is returned with its placeholders filled in, for a path and an
    ISA without a backslash, which [re.sub] inserts as they are. *)
Theorem C4_tool_lookup E w :
  (forall simulator yaml pre entry post,
     read_simulator_yaml E yaml = pre ++ entry :: post ->
     Forall (fun e => Yaml.tool e <> simulator) pre ->
     Yaml.tool entry = simulator ->
     (get_generator_cmd E simulator yaml w).1
       = Return (Yaml.compile_cmd entry, Yaml.sim_cmd entry))
  /\ (forall simulator yaml,
        Forall (fun e => Yaml.tool e <> simulator) (read_simulator_yaml E yaml) ->
        (get_generator_cmd E simulator yaml w).1 = SysExit (Status 1)
        /\ last (printed (get_generator_cmd E simulator yaml w).2)
             = Some ("Cannot find RTL simulator " +:+ simulator))
  /\ (forall iss yaml isa pre entry post path,
        read_iss_yaml E yaml = pre ++ entry :: post ->
        Forall (fun e => Yaml.iss e <> iss) pre ->
        Yaml.iss entry = iss ->
        environ E !! Yaml.path_var entry = Some path ->
        no_backslash path = true ->
        no_backslash isa = true ->
        (parse_iss_yaml E iss yaml isa w).1
          = Return (resolved_iss_cmd iss isa path entry))
  /\ (forall iss yaml isa,
        Forall (fun e => Yaml.iss e <> iss) (read_iss_yaml E yaml) ->
        (parse_iss_yaml E iss yaml isa w).1 = SysExit (Status 1)
        /\ last (printed (parse_iss_yaml E iss yaml isa w).2)
             = Some ("Cannot find ISS " +:+ iss)).
Proof.
  repeat split.
  - intros simulator yaml pre entry post Hy Hpre Hentry.
    unfold get_generator_cmd. rewrite (bind_Return _ _ _ _ _ (print_printing _ _)).
    by rewrite Hy, (search_simulator_first _ _ _ _ _ Hpre Hentry).
  - unfold get_generator_cmd. rewrite (bind_Return _ _ _ _ _ (print_printing _ _)).
    by rewrite (search_simulator_absent _ _ _ H).
  - unfold get_generator_cmd. rewrite (bind_Return _ _ _ _ _ (print_printing _ _)).
    rewrite (search_simulator_absent _ _ _ H). simpl.
    by rewrite last_snoc.
  - intros iss yaml isa pre entry post path Hy Hpre Hentry Hpath _ _.
    unfold parse_iss_yaml. rewrite (bind_Return _ _ _ _ _ (print_printing _ _)).
    by rewrite Hy, (search_iss_first _ _ _ _ _ _ _ _ Hpre Hentry Hpath).
  - unfold parse_iss_yaml. rewrite (bind_Return _ _ _ _ _ (print_printing _ _)).
    by rewrite (search_iss_absent _ _ _ _ _ H).
  - unfold parse_iss_yaml. rewrite (bind_Return _ _ _ _ _ (print_printing _ _)).
    rewrite (search_iss_absent _ _ _ _ _ H). simpl.
    by rewrite last_snoc.
Qed.

(** The names are compared as they are written: [VCS] is not [vcs]. *)
Example lookup_is_case_sensitive :
  (get_generator_cmd (Demo.env 0 1 0) "VCS" "simulator.yaml" Demo.empty_world).1
    = SysExit (Status 1)
  /\ (get_generator_cmd (Demo.env 0 1 0) "vcs" "simulator.yaml" Demo.empty_world).1
       = Return (["vcs -o <out>/simv"; "vcs_post <cwd>"], "<out>/simv +x ").
Proof. split; reflexivity. Qed.

(** ** The case of the ISA variant *)

(** [Py.upper] is the upper case written out from the alphabets. *)
Lemma upper_ascii_capital c :
  Py.upper_ascii c = capital_of c small_letters capital_letters.
Proof. destruct c as [[] [] [] [] [] [] [] []]; reflexivity. Qed.

Lemma upper_uppercase s : Py.upper s = uppercase s.
Proof.
  induction s as [|c s IH]; [done|]. simpl. by rewrite IH, upper_ascii_capital.
Qed.

Example uppercase_isa : uppercase "rv64imc_zicsr" = "RV64IMC_ZICSR".
Proof. reflexivity. Qed.

(** C8: when the command of an instruction set simulator is resolved, for
    a path and an ISA variant of ASCII without a backslash, the placeholder
    of the variant is replaced by the variant in upper case, every small
    letter turned into its capital, if the simulator is ovpsim, and by the
    variant as it was given for every other simulator. *)
Theorem C8_variant_case E iss yaml isa pre entry post path w :
  read_iss_yaml E yaml = pre ++ entry :: post ->
  Forall (fun e => Yaml.iss e <> iss) pre ->
  Yaml.iss entry = iss ->
  environ E !! Yaml.path_var entry = Some path ->
  no_backslash path = true ->
  no_backslash isa = true ->
  all_chars is_ascii isa = true ->
  let template := Py.re_sub "<path_var>" path (Py.rstrip (Yaml.cmd entry)) in
  (iss = "ovpsim" ->
     (parse_iss_yaml E iss yaml isa w).1
       = Return (Py.re_sub "<variant>" (uppercase isa) template))
  /\ (iss <> "ovpsim" ->
        (parse_iss_yaml E iss yaml isa w).1
          = Return (Py.re_sub "<variant>" isa template)).
Proof.
  intros Hy Hpre Hentry Hpath _ _ _ template.
  assert (Hr : (parse_iss_yaml E iss yaml isa w).1
               = Return (resolved_iss_cmd iss isa path entry)).
  { unfold parse_iss_yaml. rewrite (bind_Return _ _ _ _ _ (print_printing _ _)).
    by rewrite Hy, (search_iss_first _ _ _ _ _ _ _ _ Hpre Hentry Hpath). }
  rewrite Hr. unfold resolved_iss_cmd. split.
  - intros ->. simpl. by rewrite upper_uppercase.
  - intros Hne. apply String.eqb_neq in Hne. by rewrite Hne.
Qed.

Example variant_of_ovpsim :
  (parse_iss_yaml (Demo.env 0 1 0) "ovpsim" "iss.yaml" "rv64imc" Demo.empty_world).1
    = Return "/opt/ovp/ovp --variant RV64IMC --program <elf>".
Proof. reflexivity. Qed.

Example variant_of_spike :
  (parse_iss_yaml (Demo.env 0 1 0) "spike" "iss.yaml" "rv64imc" Demo.empty_world).1
    = Return "/opt/spike/spike --isa=rv64imc <elf>".
Proof. reflexivity. Qed.

(** ** Test selection *)

(** A name other than ["all"] that no entry of the catalog bears selects
    nothing. *)
Lemma process_regression_list_absent catalog test iterations :
  test <> "all" ->
  Forall (fun e => Yaml.test e <> test) catalog ->
  process_regression_list catalog test iterations = [].
Proof.
  intros Hall Habs. unfold process_regression_list.
  apply String.eqb_neq in Hall. rewrite Hall.
  assert (Hf : filter (fun e => Yaml.test e = test) catalog = []).
  { induction Habs as [|e l Hne _ IH]; [done|].
    by rewrite filter_cons_False. }
  rewrite Hf. by destruct (0 <? iterations).
Qed.

(** C9: when the selection of tests is empty the script stops at once with a
    message that names the requested test and the test list, and with a
    status other than zero; the two calls of mkdir are the only processes it
    has started, no stage has run, nothing is printed and no file has
    changed. *)
Theorem C9_empty_selection_exits E a cwd w :
  process_regression_list (read_testlist E (testlist_of a cwd)) (Args.test a)
    (Args.iterations a) = [] ->
  exists w',
    main E a cwd w
      = (SysExit (Message ("Cannot find " +:+ Args.test a +:+ " in "
                             +:+ testlist_of a cwd)), w')
    /\ exit_status (main E a cwd w).1 <> 0
    /\ started w' = started w ++ [SubprocessRun ["mkdir"; "-p"; Args.o a];
                                  SubprocessRun ["mkdir"; "-p"; Args.o a +:+ "/asm_tests"]]
    /\ printed w' = printed w
    /\ fs w' = fs w.
Proof.
  intros Hempty. unfold main. cbv zeta.
  rewrite Hempty. simpl. unfold bind, subprocess_run, sys_exit, start; simpl.
  eexists. split; [reflexivity|]. simpl.
  repeat split; [done|]. by rewrite <- app_assoc.
Qed.

(** ** The build of the generator *)

(** The command of a build template after the substitutions. *)
Lemma gen_compile_body_Return E output_dir cwd verbose output cmd w :
  (forall c, decodes (spawn_shell E c) = true) ->
  exists out w',
    gen_compile_body E output_dir cwd verbose output cmd w = (Return (Some out), w')
    /\ started w' = started w
         ++ [Popen (Py.re_sub "<cwd>" cwd (Py.re_sub "<out>" output_dir cmd))]
    /\ drawn w' = drawn w.
Proof.
  intros Hdec. unfold gen_compile_body.
  rewrite (bind_Return _ _ _ _ _ (when_printing _ _ _)).
  edestruct (run_cmd_decodes E) as [out Hout]; [exact Hdec|].
  rewrite (bind_Return _ _ _ _ _ Hout).
  rewrite (bind_Return _ _ _ _ _ (when_printing _ _ _)).
  eexists _, _. split; [reflexivity|]. split; reflexivity.
Qed.

(** The build commands are started one after the other in the order of the
    list, and the loop comes to its end whatever their exit statuses are,
    when their output decodes. *)
Lemma gen_compile_loop_Return E output_dir cwd verbose compile_cmd output w :
  (forall c, decodes (spawn_shell E c) = true) ->
  exists output' w',
    for_with compile_cmd (gen_compile_body E output_dir cwd verbose) output w
      = (Return output', w')
    /\ started w' = started w
         ++ map (fun cmd => Popen (Py.re_sub "<cwd>" cwd (Py.re_sub "<out>" output_dir cmd)))
              compile_cmd
    /\ drawn w' = drawn w.
Proof.
  intros Hdec.
  revert output w. induction compile_cmd as [|cmd l IH]; intros output w; simpl.
  - eexists _, _. split; [reflexivity|]. by rewrite app_nil_r.
  - destruct (gen_compile_body_Return E output_dir cwd verbose output cmd w Hdec)
      as (out & w1 & Hbody & Hst & Hd).
    rewrite (bind_Return _ _ _ _ _ Hbody).
    destruct (IH (Some out) w1) as (o' & w' & Hloop & Hst' & Hd').
    eexists _, _. split; [exact Hloop|]. split; [|congruence].
    rewrite Hst', Hst, <- app_assoc. reflexivity.
Qed.

(** C1: a build command of the generator that exits with status 1 does not
    stop the script: the second build command and the generator are started
    after it, and [gen] returns. *)
Theorem C1_failed_build_does_not_abort :
  let E := Demo.env 0 1 1 in
  let r := gen E Demo.tests "vcs" "simulator.yaml" "out" 0 0 "" 7 "/cwd" 0
             Demo.empty_world in
  returncode (spawn_shell E "vcs -o out/simv") = 1
  /\ r.1 = Return tt
  /\ started r.2 =
       [Popen "vcs -o out/simv"; Popen "vcs_post /cwd";
        CheckOutput ["out/simv"; "+x"; "+UVM_TESTNAME=u0"; "+num_of_tests=2";
                     "+asm_file_name=out/asm_tests/t0"; "+ntb_random_seed=7";
                     "-l"; "out/sim_t0.log"] (Some 300)].
Proof. vm_compute. repeat split. Qed.

(** ** The runs of the generator *)

(** A run of the generator that exceeds 300 or exits with a status other
    than zero ends the script: the loop body does not return. *)
Lemma gen_run_body_failure_is_fatal E lsf_cmd sim_cmd output_dir seed verbose
    output test w :
  0 < Yaml.iterations test ->
  (forall argv, 300 < seconds (spawn E argv) \/ returncode (spawn E argv) <> 0) ->
  forall o w',
    gen_run_body E lsf_cmd sim_cmd output_dir seed verbose output test w
      <> (Return o, w').
Proof.
  intros Hit Hfail o w'. unfold gen_run_body.
  apply Z.ltb_lt in Hit. rewrite Hit.
  unfold bind at 1. destruct (get_seed E seed w) as [[rand_seed| |] w1] eqn:Hseed;
    [|done|done].
  rewrite (bind_Return _ _ _ _ _ (print_printing _ _)).
  rewrite (bind_Return _ _ _ _ _ (when_printing _ _ _)).
  unfold bind at 1, except_CalledProcessError, check_output.
  set (argv := Py.split_ws _).
  destruct (Hfail argv) as [Hto|Hrc].
  - apply Z.ltb_lt in Hto. by rewrite Hto.
  - destruct (300 <? seconds (spawn E argv)); [done|].
    destruct (decodes (spawn E argv)); simpl; [|done].
    apply Z.eqb_neq in Hrc. rewrite Hrc.
    destruct output; [|done].
    by rewrite (bind_Return _ _ _ _ _ (print_printing _ _)).
Qed.

(** C2: the generator exits with status 2 after the build has succeeded.
    The script stops with status 1, and the line it prints last is the
    output of the last build command, not the output of the generator. *)
Theorem C2_failed_generator_output_not_shown :
  let E := Demo.env 2 1 0 in
  let r := gen E Demo.tests "vcs" "simulator.yaml" "out" 0 0 "" 7 "/cwd" 0
             Demo.empty_world in
  r.1 = SysExit (Status 1)
  /\ last (started r.2) =
       Some (CheckOutput ["out/simv"; "+x"; "+UVM_TESTNAME=u0"; "+num_of_tests=2";
                          "+asm_file_name=out/asm_tests/t0"; "+ntb_random_seed=7";
                          "-l"; "out/sim_t0.log"] (Some 300))
  /\ printed r.2 =
       ["Processing simulator setup file : simulator.yaml";
        "Found matching simulator: vcs";
        "Building RISC-V instruction generator";
        "Running RISC-V instruction generator";
        "Run u0 to generate 2 assembly tests";
        Demo.build_out]
  /\ Demo.generator_out ∉ printed r.2.
Proof.
  vm_compute. repeat split.
  intros Hin. repeat (apply elem_of_cons in Hin as [Hin|Hin]; [discriminate Hin|]).
  by apply elem_of_nil in Hin.
Qed.

(** With [--so 1] nothing is built, the variable printed by the handler is
    unbound, and the script ends in an exception of its own. *)
Example failed_generator_without_build :
  (gen (Demo.env 2 1 0) Demo.tests "vcs" "simulator.yaml" "out" 1 0 "" 7 "/cwd" 0
     Demo.empty_world).1 = Raise (UnboundLocalError "output").
Proof. reflexivity. Qed.

(** A generator that runs for 301 ends the script in [TimeoutExpired], which
    no handler catches; its output is not printed either. *)
Example generator_timeout :
  let r := gen (Demo.env 0 301 0) Demo.tests "vcs" "simulator.yaml" "out" 0 0 ""
             7 "/cwd" 0 Demo.empty_world in
  r.1 = Raise (TimeoutExpired ["out/simv"; "+x"; "+UVM_TESTNAME=u0"; "+num_of_tests=2";
                               "+asm_file_name=out/asm_tests/t0"; "+ntb_random_seed=7";
                               "-l"; "out/sim_t0.log"] 300)
  /\ last (printed r.2) = Some "Run u0 to generate 2 assembly tests".
Proof. vm_compute. split; reflexivity. Qed.

(** ** The dispatch on the steps *)

Lemma step_requested_all step : step_requested step "all" = true.
Proof. reflexivity. Qed.

(** A single step name selects that step and no other. *)
Lemma step_requested_single :
  let names := ["gen"; "gcc_compile"; "iss_sim"; "iss_cmp"] in
  forall step steps, step ∈ names -> steps ∈ names ->
    step_requested step steps = bool_decide (step = steps).
Proof.
  intros names step steps Hs Ht. unfold names in *.
  repeat (apply elem_of_cons in Hs as [->|Hs]);
    repeat (apply elem_of_cons in Ht as [->|Ht]);
    try reflexivity;
    try (by apply elem_of_nil in Hs); by apply elem_of_nil in Ht.
Qed.

(** C5: for the steps [gcc_compile,iss_sim] the script compiles the two
    iterations and stops: no simulator is started, because the name
    [iss_sim] is looked for at the start of the string only. *)
Theorem C5_step_list_runs_first_step_only :
  let steps := "gcc_compile,iss_sim" in
  let r := main (Demo.env 0 1 0) (Demo.args "spike,ovpsim" steps) "/cwd"
             Demo.empty_world in
  step_requested "gcc_compile" steps = true
  /\ step_requested "iss_sim" steps = false
  /\ r.1 = Return tt
  /\ started r.2 =
       [SubprocessRun ["mkdir"; "-p"; "out"];
        SubprocessRun ["mkdir"; "-p"; "out/asm_tests"];
        CheckOutput ["gcc"; "-march=rv64imc"; "-mabi=lp64"; "-static";
                     "-mcmodel=medany"; "-fvisibility=hidden"; "-nostdlib";
                     "-nostartfiles"; "-Tscripts/link.ld"; "out/asm_tests/t0.0.S";
                     "-o"; "out/asm_tests/t0.0.o"] None;
        CheckOutput ["objcopy"; "-O"; "binary"; "out/asm_tests/t0.0.o";
                     "out/asm_tests/t0.0.bin"] None;
        CheckOutput ["gcc"; "-march=rv64imc"; "-mabi=lp64"; "-static";
                     "-mcmodel=medany"; "-fvisibility=hidden"; "-nostdlib";
                     "-nostartfiles"; "-Tscripts/link.ld"; "out/asm_tests/t0.1.S";
                     "-o"; "out/asm_tests/t0.1.o"] None;
        CheckOutput ["objcopy"; "-O"; "binary"; "out/asm_tests/t0.1.o";
                     "out/asm_tests/t0.1.bin"] None].
Proof. vm_compute. repeat split. Qed.

(** The steps [iss_cmp] alone run the comparison and nothing before it. *)
Example steps_iss_cmp_only :
  let r := main (Demo.env 0 1 0) (Demo.args "spike,ovpsim" "iss_cmp") "/cwd"
             Demo.empty_world in
  r.1 = Return tt
  /\ take 3 (started r.2) =
       [SubprocessRun ["mkdir"; "-p"; "out"];
        SubprocessRun ["mkdir"; "-p"; "out/asm_tests"];
        Popen "rm -rf out/iss_regr.log"]
  /\ fs r.2 !! "out/iss_regr.log" =
       Some ["Test binary: out/asm_tests/t0.0.o";
             "compare out/spike_sim/t0.0.log out/ovpsim_sim/t0.0.log out/iss_regr.log";
             "[PASSED]: 10 matched";
             "Test binary: out/asm_tests/t0.1.o";
             "compare out/spike_sim/t0.1.log out/ovpsim_sim/t0.1.log out/iss_regr.log";
             "[PASSED]: 10 matched";
             "2 PASSED, 0 FAILED"].
Proof. vm_compute. repeat split. Qed.

(** ** Loops *)

(** A loop whose body always returns, and starts the processes [inv x] for
    the element [x], returns and has started them for all elements in
    order. *)
Lemma for_started {A} (l : list A) (body : A -> M unit)
    (inv : A -> list invocation) :
  (forall x w, x ∈ l ->
     exists w', body x w = (Return tt, w') /\ started w' = started w ++ inv x) ->
  forall w,
    exists w', for_ l body w = (Return tt, w')
               /\ started w' = started w ++ flat_map inv l.
Proof.
  induction l as [|x l IH]; intros Hbody w; simpl.
  - exists w. split; [done|]. by rewrite app_nil_r.
  - destruct (Hbody x w) as (w1 & Hx & Hst1); [by left|].
    rewrite (bind_Return _ _ _ _ _ Hx).
    destruct (IH (fun y w Hy => Hbody y w (list_elem_of_further _ _ _ Hy)) w1)
      as (w2 & Hl & Hst2).
    exists w2. split; [done|]. by rewrite Hst2, Hst1, <- app_assoc.
Qed.

(** The same for a loop that carries a variable, when [keep] holds of the
    variable at the start and the body preserves it. *)
Lemma for_with_started {A S} (l : list A) (body : S -> A -> M S)
    (keep : S -> Prop) (inv : A -> list invocation) :
  (forall s x w, keep s ->
     exists s' w', body s x w = (Return s', w') /\ keep s'
                   /\ started w' = started w ++ inv x) ->
  forall s w, keep s ->
    exists s' w', for_with l body s w = (Return s', w') /\ keep s'
                  /\ started w' = started w ++ flat_map inv l.
Proof.
  intros Hbody. induction l as [|x l IH]; intros s w Hs; simpl.
  - exists s, w. repeat split; [done|]. by rewrite app_nil_r.
  - destruct (Hbody s x w Hs) as (s1 & w1 & Hx & Hs1 & Hst1).
    rewrite (bind_Return _ _ _ _ _ Hx).
    destruct (IH s1 w1 Hs1) as (s2 & w2 & Hl & Hs2 & Hst2).
    exists s2, w2. repeat split; [done..|]. by rewrite Hst2, Hst1, <- app_assoc.
Qed.

Lemma flat_map_one_by_one {A B} (g : A -> list B) (l : list A) :
  flat_map (fun x => flat_map g [x]) l = flat_map g l.
Proof.
  induction l as [|x l IH]; simpl; [done|].
  rewrite app_nil_r. f_equal. exact IH.
Qed.

Lemma flat_map_singletons {A B} (f : A -> B) (l : list A) :
  flat_map (fun x => [f x]) l = map f l.
Proof. induction l as [|x l IH]; simpl; [done|]. by rewrite IH. Qed.

(** How computations end. *)
Lemma ends_bind {A B} (m : M A) (k : A -> M B) w
    (R : A -> world -> Prop) (R' : B -> world -> Prop) F :
  ends (m w) R F ->
  (forall a w', R a w' -> ends (k a w') R' F) ->
  ends (bind m k w) R' F.
Proof.
  unfold ends, bind. destruct (m w) as [[a|arg|e] w']; [|done..].
  intros HR Hk. by apply Hk.
Qed.

Lemma ends_weaken {A} (o : result A * world) (R R' : A -> world -> Prop)
    (F F' : exit_arg + exn -> world -> Prop) :
  ends o R F ->
  (forall a w, R a w -> R' a w) -> (forall f w, F f w -> F' f w) ->
  ends o R' F'.
Proof. unfold ends. destruct o as [[a|arg|e] w']; auto. Qed.

Lemma ends_Return {A} (a : A) w (R : A -> world -> Prop) F :
  R a w -> ends (Return a, w) R F.
Proof. done. Qed.

(** A loop with an invariant, whose body may end the script. *)
Lemma for_ends {A} (l : list A) (body : A -> M unit)
    (I : list A -> world -> Prop) F :
  (forall pre x w, x ∈ l -> I pre w ->
     ends (body x w) (fun _ w' => I (pre ++ [x]) w') F) ->
  forall w, I [] w -> ends (for_ l body w) (fun _ w' => I l w') F.
Proof.
  intros Hbody.
  assert (Hgen : forall rest pre w, (forall x, x ∈ rest -> x ∈ l) -> I pre w ->
            ends (for_ rest body w) (fun _ w' => I (pre ++ rest) w') F).
  { induction rest as [|x rest IH]; intros pre w Hsub Hpre; simpl.
    - unfold ret. simpl. by rewrite app_nil_r.
    - eapply ends_bind; [apply (Hbody pre); [apply Hsub; by left|done]|].
      intros [] w1 H1. simpl in H1.
      eapply ends_weaken; [apply (IH (pre ++ [x]) w1); [|done]| |done].
      + intros y Hy. apply Hsub. by right.
      + intros [] w2. by rewrite <- app_assoc. }
  intros w H0. by apply (Hgen l [] w).
Qed.

Lemma for_with_ends {A S} (l : list A) (body : S -> A -> M S)
    (I : list A -> S -> world -> Prop) F :
  (forall pre x s w, x ∈ l -> I pre s w ->
     ends (body s x w) (fun s' w' => I (pre ++ [x]) s' w') F) ->
  forall s w, I [] s w -> ends (for_with l body s w) (fun s' w' => I l s' w') F.
Proof.
  intros Hbody.
  assert (Hgen : forall rest pre s w, (forall x, x ∈ rest -> x ∈ l) -> I pre s w ->
            ends (for_with rest body s w) (fun s' w' => I (pre ++ rest) s' w') F).
  { induction rest as [|x rest IH]; intros pre s w Hsub Hpre; simpl.
    - unfold ret. simpl. by rewrite app_nil_r.
    - eapply ends_bind; [apply (Hbody pre); [apply Hsub; by left|done]|].
      intros s1 w1 H1. simpl in H1.
      eapply ends_weaken; [apply (IH (pre ++ [x]) s1 w1); [|done]| |done].
      + intros y Hy. apply Hsub. by right.
      + intros s2 w2. by rewrite <- app_assoc. }
  intros s w H0. by apply (Hgen l [] s w).
Qed.

Lemma for_app {A} (l1 l2 : list A) (body : A -> M unit) w :
  for_ (l1 ++ l2) body w = bind (for_ l1 body) (fun _ => for_ l2 body) w.
Proof.
  revert w. induction l1 as [|x l1 IH]; intros w; simpl; [done|].
  unfold bind in *. destruct (body x w) as [[[]|arg|e] w1]; [|done..].
  apply IH.
Qed.

(** ** The simulation stage *)

Lemma search_iss_found E iss isa yaml_data entry path w :
  find_iss iss yaml_data = Some entry ->
  environ E !! Yaml.path_var entry = Some path ->
  search_iss E iss isa yaml_data w =
    (Return (resolved_iss_cmd iss isa path entry),
     printing ["Found matching ISS: " +:+ iss] w).
Proof.
  unfold find_iss. intros Hfind Hpath.
  induction yaml_data as [|e l IH]; [done|]. simpl in Hfind.
  destruct (String.eqb (Yaml.iss e) iss) eqn:He.
  - injection Hfind as ->. apply String.eqb_eq in He.
    exact (search_iss_first E iss isa [] entry l path w (Forall_nil_2 _) He Hpath).
  - simpl. rewrite He. by apply IH.
Qed.

Lemma parse_iss_yaml_Return E iss iss_yaml isa base_cmd w :
  iss_base_cmd E iss_yaml isa iss = Some base_cmd ->
  exists w', parse_iss_yaml E iss iss_yaml isa w = (Return base_cmd, w')
             /\ started w' = started w.
Proof.
  unfold iss_base_cmd, parse_iss_yaml. intros Hb.
  destruct (find_iss iss (read_iss_yaml E iss_yaml)) as [entry|] eqn:Hfind; [|done].
  destruct (environ E !! Yaml.path_var entry) as [path|] eqn:Hpath; [|done].
  injection Hb as <-.
  rewrite (bind_Return _ _ _ _ _ (print_printing _ _)).
  rewrite (search_iss_found _ _ _ _ _ _ _ Hfind Hpath). by eexists.
Qed.

Lemma set_up_base_cmd E iss_yaml isa iss base :
  set_up E iss_yaml isa iss base -> iss_base_cmd E iss_yaml isa iss = Some base.
Proof.
  intros (entry & path & Hfind & Hpath & _ & ->). unfold iss_base_cmd.
  by rewrite Hfind, Hpath.
Qed.

Lemma iss_sim_unfold E test_list output_dir iss_list iss_yaml isa verbose :
  iss_sim E test_list output_dir iss_list iss_yaml isa verbose
    = for_ (Py.split "," iss_list)
        (iss_sim_body E test_list output_dir iss_yaml isa verbose).
Proof. reflexivity. Qed.

(** The command that the stage builds is the command written out. *)
Lemma iss_sim_cmd_simulation output_dir iss base_cmd test i :
  Popen (iss_sim_cmd output_dir iss base_cmd test i)
    = simulation output_dir iss base_cmd test i.
Proof.
  unfold iss_sim_cmd, get_iss_cmd, simulation, asm_prefix.
  by rewrite !append_assoc.
Qed.

(** The simulations of one simulator: all of them are started, whatever they
    exit with, when their output decodes. *)
Lemma iss_sim_body_Return E test_list output_dir iss_yaml isa verbose iss base_cmd w :
  iss_base_cmd E iss_yaml isa iss = Some base_cmd ->
  (forall cmd, decodes (spawn_shell E cmd) = true) ->
  exists w',
    iss_sim_body E test_list output_dir iss_yaml isa verbose iss w = (Return tt, w')
    /\ started w' = started w
         ++ iss_sim_invocations test_list output_dir [(iss, base_cmd)].
Proof.
  intros Hb Hdec. unfold iss_sim_body. cbv zeta.
  destruct (parse_iss_yaml_Return E iss iss_yaml isa base_cmd w Hb)
    as (w1 & Hparse & Hst1).
  rewrite (bind_Return _ _ _ _ _ Hparse).
  rewrite (bind_Return _ _ _ _ _ (print_printing _ _)).
  unfold bind at 1, subprocess_run.
  match goal with |- context [for_ test_list ?body ?w0] =>
    destruct (for_started test_list body
                (fun test =>
                   map (simulation output_dir iss base_cmd test)
                     (Py.range (Yaml.iterations test)))) with w0
      as (w2 & Hrun & Hst2)
  end.
  - intros test w3 _.
    match goal with |- context [for_ (Py.range _) ?body ?w0] =>
      destruct (for_started (Py.range (Yaml.iterations test)) body
                  (fun i => [simulation output_dir iss base_cmd test i]))
        with w0 as (w4 & Hrun & Hst4)
    end.
    + intros i w4 _. cbv zeta.
      rewrite (bind_Return _ _ _ _ _ (print_printing _ _)).
      edestruct (run_cmd_decodes E) as [out Hout]; [exact Hdec|].
      rewrite (bind_Return _ _ _ _ _ Hout).
      rewrite when_printing. eexists. split; [reflexivity|]. simpl.
      by rewrite iss_sim_cmd_simulation.
    + exists w4. split; [exact Hrun|]. rewrite Hst4.
      by rewrite flat_map_singletons.
  - exists w2. split; [exact Hrun|]. rewrite Hst2. simpl.
    rewrite Hst1, <- app_assoc. simpl. by rewrite app_nil_r.
Qed.

(** The loop over simulators that are all set up. *)
Lemma iss_sim_loop_Return E test_list output_dir iss_yaml isa verbose names bases w :
  Forall2 (fun iss base => iss_base_cmd E iss_yaml isa iss = Some base) names bases ->
  (forall cmd, decodes (spawn_shell E cmd) = true) ->
  exists w',
    for_ names (iss_sim_body E test_list output_dir iss_yaml isa verbose) w
      = (Return tt, w')
    /\ started w' = started w
         ++ iss_sim_invocations test_list output_dir (zip names bases).
Proof.
  intros Hall Hdec. revert w.
  induction Hall as [|iss base names bases Hb _ IH]; intros w; simpl.
  - exists w. split; [done|]. by rewrite app_nil_r.
  - destruct (iss_sim_body_Return E test_list output_dir iss_yaml isa verbose iss
                base w Hb Hdec) as (w1 & Hbody & Hst1).
    rewrite (bind_Return _ _ _ _ _ Hbody).
    destruct (IH w1) as (w2 & Hloop & Hst2).
    exists w2. split; [exact Hloop|].
    rewrite Hst2, Hst1. simpl. rewrite app_nil_r, <- app_assoc. reflexivity.
Qed.

Lemma iss_sim_invocations_no_timeout test_list output_dir sims :
  Forall (fun i => timeout_of i = None)
    (iss_sim_invocations test_list output_dir sims).
Proof.
  unfold iss_sim_invocations.
  apply Forall_forall. intros i Hi. apply list_elem_of_In in Hi.
  apply in_flat_map in Hi as (sim & _ & [<-|Hi]); [done|].
  apply in_flat_map in Hi as (test & _ & Hi).
  apply in_map_iff in Hi as (k & <- & _). done.
Qed.

Lemma Forall2_set_up_base_cmd E iss_yaml isa names bases :
  Forall2 (set_up E iss_yaml isa) names bases ->
  Forall2 (fun iss base => iss_base_cmd E iss_yaml isa iss = Some base) names bases.
Proof.
  induction 1 as [|iss base names bases H _ IH]; constructor; [|done].
  by apply set_up_base_cmd.
Qed.

(** C3: when every named simulator is set up, with the command [base] of
    the list [bases] at its place, the texts that [re.sub] inserts have no
    backslash and the output of the commands decodes, the simulation stage
    returns whatever the simulations exit with: it has started, for every
    simulator in the order of the list, the mkdir of the log directory and
    then one simulation for every test and iteration, each with the program
    of that test and iteration and the redirection to its log, and none of
    these processes has a time limit. *)
Theorem C3_simulation_failures_do_not_abort E test_list output_dir iss_list
    iss_yaml isa verbose bases w :
  Forall2 (set_up E iss_yaml isa) (Py.split "," iss_list) bases ->
  no_backslash output_dir = true ->
  Forall (fun test => no_backslash (Yaml.test test) = true) test_list ->
  no_backslash isa = true ->
  (forall cmd, decodes (spawn_shell E cmd) = true) ->
  let invs := iss_sim_invocations test_list output_dir
                (zip (Py.split "," iss_list) bases) in
  exists w',
    iss_sim E test_list output_dir iss_list iss_yaml isa verbose w = (Return tt, w')
    /\ started w' = started w ++ invs
    /\ Forall (fun i => timeout_of i = None) invs.
Proof.
  intros Hknown _ _ _ Hdec invs. rewrite iss_sim_unfold.
  destruct (iss_sim_loop_Return E test_list output_dir iss_yaml isa verbose
              (Py.split "," iss_list) bases w
              (Forall2_set_up_base_cmd _ _ _ _ _ Hknown) Hdec)
    as (w' & Hrun & Hst).
  exists w'. split; [exact Hrun|]. split; [exact Hst|].
  apply iss_sim_invocations_no_timeout.
Qed.

(** A simulation whose output does not decode ends the stage: the
    exception of [communicate] is caught nowhere, and the simulations after
    it are not started. *)
Example undecodable_output_ends_the_stage :
  let r := iss_sim Demo.env_binary_output Demo.tests "out" "ovpsim,spike" "iss.yaml"
             "rv64imc" 0 Demo.empty_world in
  r.1 = Raise UnicodeDecodeError
  /\ started r.2
     = [SubprocessRun ["mkdir"; "-p"; "out/ovpsim_sim"];
        Popen "/opt/ovp/ovp --variant RV64IMC --program out/asm_tests/t0.0.o &> out/ovpsim_sim/t0.0.log"].
Proof. vm_compute. split; reflexivity. Qed.

(** ** The comparison stage *)

Lemma spike_first_idemp pair : spike_first (spike_first pair) = spike_first pair.
Proof.
  destruct pair as [a b]. unfold spike_first; simpl.
  destruct (String.eqb b "spike") eqn:Hb; simpl; [|by rewrite Hb].
  destruct (String.eqb a "spike") eqn:Ha; simpl; [|done].
  apply String.eqb_eq in Ha, Hb. by subst.
Qed.

Lemma spike_first_second a : spike_first (a, "spike") = ("spike", a).
Proof. reflexivity. Qed.

Lemma spike_first_other a b : b <> "spike" -> spike_first (a, b) = (a, b).
Proof. intros Hb. apply String.eqb_neq in Hb. unfold spike_first; simpl. by rewrite Hb. Qed.

Lemma spike_first_operands a b : spike_first (a, b) = operands a b.
Proof.
  unfold spike_first, operands. simpl.
  destruct (String.eqb b "spike") eqn:Hb; [|done].
  apply String.eqb_eq in Hb. by subst.
Qed.

(** The two commands that the stage builds for a comparison are the
    commands written out. *)
Lemma iss_cmp_body_comparison output_dir first second test i :
  [Popen ("echo 'Test binary: " +:+ (asm_prefix output_dir test i +:+ ".o")
            +:+ "' >> " +:+ report_path output_dir);
   Popen (iss_cmp_cmd output_dir (report_path output_dir) (first, second) test i)]
  = comparison output_dir first second test i.
Proof.
  unfold comparison, iss_cmp_cmd, iss_log, asm_prefix. simpl.
  rewrite report_path_eq. by rewrite !append_assoc.
Qed.

Lemma iss_cmp_body_Return E output_dir verbose test pair i w :
  (forall cmd, decodes (spawn_shell E cmd) = true) ->
  exists w',
    iss_cmp_body E output_dir (report_path output_dir) verbose test pair i w
      = (Return (spike_first pair), w')
    /\ started w' = started w
         ++ comparison output_dir (spike_first pair).1 (spike_first pair).2 test i.
Proof.
  intros Hdec. unfold iss_cmp_body. cbv zeta.
  rewrite (bind_Return _ _ _ _ _ (print_printing _ _)).
  edestruct (run_cmd_decodes E) as [out1 Hout1]; [exact Hdec|].
  rewrite (bind_Return _ _ _ _ _ Hout1).
  edestruct (run_cmd_decodes E) as [out2 Hout2]; [exact Hdec|].
  rewrite (bind_Return _ _ _ _ _ Hout2).
  rewrite (bind_Return _ _ _ _ _ (when_printing _ _ _)).
  eexists. split; [reflexivity|]. simpl. rewrite <- app_assoc. simpl.
  f_equal. rewrite <- iss_cmp_body_comparison. by destruct (spike_first pair).
Qed.

(** The loops of the comparison stage: every comparison has the operands
    [spike_first pair]. *)
Lemma iss_cmp_loops_Return E test_list output_dir verbose pair w :
  (forall cmd, decodes (spawn_shell E cmd) = true) ->
  exists pair' w',
    for_with test_list (fun pair test =>
      for_with (Py.range (Yaml.iterations test))
        (iss_cmp_body E output_dir (report_path output_dir) verbose test) pair)
      pair w = (Return pair', w')
    /\ started w' = started w
         ++ iss_cmp_invocations test_list output_dir
              (spike_first pair).1 (spike_first pair).2.
Proof.
  intros Hdec.
  destruct (for_with_started test_list
              (fun pair test =>
                 for_with (Py.range (Yaml.iterations test))
                   (iss_cmp_body E output_dir (report_path output_dir) verbose test)
                   pair)
              (fun s => spike_first s = spike_first pair)
              (fun test =>
                 flat_map (comparison output_dir (spike_first pair).1
                             (spike_first pair).2 test)
                   (Py.range (Yaml.iterations test)))) with pair w
    as (pair' & w' & Hrun & _ & Hst); [|done|by exists pair', w'].
  intros s test w0 Hs.
  apply (for_with_started (Py.range (Yaml.iterations test))
           (iss_cmp_body E output_dir (report_path output_dir) verbose test)
           (fun s => spike_first s = spike_first pair)); [|done].
  intros s1 i w1 Hs1.
  destruct (iss_cmp_body_Return E output_dir verbose test s1 i w1 Hdec)
    as (w2 & Hbody & Hst).
  exists (spike_first s1), w2. split; [done|]. split.
  - by rewrite spike_first_idemp.
  - by rewrite Hst, Hs1.
Qed.

(** The summary returns after two counts and one append. *)
Lemma iss_cmp_summary_Return E report w :
  (forall cmd, decodes (spawn_shell E cmd) = true) ->
  exists summary w',
    iss_cmp_summary E report w = (Return tt, w')
    /\ started w' = started w
         ++ [Popen ("grep PASSED " +:+ report +:+ " | wc -l");
             Popen ("grep FAILED " +:+ report +:+ " | wc -l");
             Popen ("echo " +:+ summary +:+ " >> " +:+ report)].
Proof.
  intros Hdec. unfold iss_cmp_summary.
  edestruct (run_cmd_decodes E) as [out1 Hout1]; [exact Hdec|].
  rewrite (bind_Return _ _ _ _ _ Hout1).
  edestruct (run_cmd_decodes E) as [out2 Hout2]; [exact Hdec|].
  rewrite (bind_Return _ _ _ _ _ Hout2).
  cbv zeta.
  rewrite (bind_Return _ _ _ _ _ (print_printing _ _)).
  edestruct (run_cmd_decodes E) as [out3 Hout3]; [exact Hdec|].
  rewrite (bind_Return _ _ _ _ _ Hout3).
  rewrite print_printing.
  eexists _, _. split; [reflexivity|]. simpl.
  rewrite <- !app_assoc. reflexivity.
Qed.

(** With two names the stage returns; its processes are the removal of the
    report, the comparisons with the operands [operands a b], and the
    three commands of the summary. *)
Lemma iss_cmp_two_Return E test_list iss output_dir verbose w a b :
  Py.split "," iss = [a; b] ->
  (forall cmd, decodes (spawn_shell E cmd) = true) ->
  exists summary w',
    iss_cmp E test_list iss output_dir verbose w = (Return tt, w')
    /\ started w' = started w
         ++ [Popen ("rm -rf " +:+ output_dir +:+ "/iss_regr.log")]
         ++ iss_cmp_invocations test_list output_dir (operands a b).1 (operands a b).2
         ++ [Popen ("grep PASSED " +:+ output_dir +:+ "/iss_regr.log | wc -l");
             Popen ("grep FAILED " +:+ output_dir +:+ "/iss_regr.log | wc -l");
             Popen ("echo " +:+ summary +:+ " >> " +:+ output_dir +:+ "/iss_regr.log")].
Proof.
  intros Hsplit Hdec. unfold iss_cmp. rewrite Hsplit. cbv zeta.
  edestruct (run_cmd_decodes E) as [out Hout]; [exact Hdec|].
  rewrite (bind_Return _ _ _ _ _ Hout).
  edestruct (iss_cmp_loops_Return E test_list output_dir verbose (a, b))
    as (pair' & w1 & Hloops & Hst1); [exact Hdec|].
  rewrite (bind_Return _ _ _ _ _ Hloops).
  destruct (iss_cmp_summary_Return E (report_path output_dir) w1 Hdec)
    as (summary & w2 & Hsum & Hst2).
  exists summary, w2. split; [exact Hsum|].
  rewrite Hst2, Hst1. simpl. rewrite spike_first_operands, report_path_eq.
  rewrite <- !app_assoc. simpl. by rewrite !append_assoc.
Qed.

(** C6: the comparison stage does nothing unless the simulator list has
    exactly two names.  With two names [a] and [b], and output that decodes,
    it returns after the removal of the report, the comparisons and the
    three commands of the summary, and every comparison is the command
    [./iss_cmp] with the log of [first], the log of [second] and the report,
    in this order: [first] is spike and [second] is [a] when [b] is spike,
    and they are [a] and [b] in the given order when [b] is not spike, so in
    particular when neither is spike. *)
Theorem C6_comparison_pair_order E test_list iss output_dir verbose w :
  (length (Py.split "," iss) <> 2%nat ->
     iss_cmp E test_list iss output_dir verbose w = (Return tt, w))
  /\ (forall a b, Py.split "," iss = [a; b] ->
        (forall cmd, decodes (spawn_shell E cmd) = true) ->
        exists first second summary w',
          iss_cmp E test_list iss output_dir verbose w = (Return tt, w')
          /\ started w' = started w
               ++ [Popen ("rm -rf " +:+ output_dir +:+ "/iss_regr.log")]
               ++ iss_cmp_invocations test_list output_dir first second
               ++ [Popen ("grep PASSED " +:+ output_dir +:+ "/iss_regr.log | wc -l");
                   Popen ("grep FAILED " +:+ output_dir +:+ "/iss_regr.log | wc -l");
                   Popen ("echo " +:+ summary +:+ " >> " +:+ output_dir
                            +:+ "/iss_regr.log")]
          /\ (b = "spike" -> first = "spike" /\ second = a)
          /\ (b <> "spike" -> first = a /\ second = b)).
Proof.
  split.
  - intros Hlen. unfold iss_cmp.
    destruct (Py.split "," iss) as [|x [|y [|z l]]]; done.
  - intros a b Hsplit Hdec.
    destruct (iss_cmp_two_Return E test_list iss output_dir verbose w a b Hsplit Hdec)
      as (summary & w' & Hrun & Hst).
    exists (operands a b).1, (operands a b).2, summary, w'.
    split; [exact Hrun|]. split; [exact Hst|]. unfold operands. split.
    + intros ->. done.
    + intros Hb. apply String.eqb_neq in Hb. by rewrite Hb.
Qed.

(** ** The commands of the comparison stage in the shell *)

Lemma plain_one_line s : plain_word s = true -> Sh.one_line s = true.
Proof. intros [_ Hs]%plain_word_inv. by apply safe_one_line. Qed.

Lemma plain_no_backslash s : plain_word s = true -> no_backslash s = true.
Proof. intros [_ Hs]%plain_word_inv. by apply safe_no_backslash. Qed.

Ltac one_line :=
  rewrite ?one_line_app;
  repeat (apply andb_true_intro; split);
  first [reflexivity | by apply plain_one_line | by apply safe_one_line | done].

(** A command of one line is read by its tokens. *)
Lemma run_one_line E cmd m :
  Sh.one_line cmd = true ->
  Sh.run E cmd m
  = match Sh.tokens cmd with
    | [] => (m, Some EmptyString)
    | t :: args =>
        if Sh.is_word "rm" t then
          match Sh.words_of args with
          | Some (o :: names) =>
              if String.eqb o "-rf" then (foldr delete m names, Some EmptyString)
              else Sh.left_to_env E cmd m
          | _ => Sh.left_to_env E cmd m
          end
        else if Sh.is_word "grep" t then
          match Sh.counted args with
          | Some (pat, f :: names) =>
              if all_chars is_letter pat && forallb Sh.operand (f :: names)
              then (m, Some (Sh.count_lines m pat (f :: names)))
              else Sh.left_to_env E cmd m
          | _ => Sh.left_to_env E cmd m
          end
        else if Sh.is_word "echo" t then
          match Sh.redirection ">>" args with
          | Some (before, f, after) =>
              match Sh.texts_of (before ++ after) with
              | Some ws =>
                  if Sh.echoed ws
                  then (Sh.append f [Py.join_sp ws] m, Some EmptyString)
                  else Sh.left_to_env E cmd m
              | None => Sh.left_to_env E cmd m
              end
          | None => Sh.left_to_env E cmd m
          end
        else if Sh.is_word "./iss_cmp" t then
          match Sh.redirection "&>>" args with
          | Some (before, f, after) =>
              match Sh.words_of (before ++ after) with
              | Some ws =>
                  match sh E, after with
                  | Bash, _ => (Sh.append f (compare_logs E ws) m, Some EmptyString)
                  | Posix, [] => Sh.left_to_env E cmd (Sh.append f [] m)
                  | Posix, _ :: _ => Sh.left_to_env E cmd m
                  end
              | None => Sh.left_to_env E cmd m
              end
          | None => Sh.left_to_env E cmd m
          end
        else Sh.left_to_env E cmd m
    end.
Proof. unfold Sh.run. by intros ->. Qed.

Lemma tokens_rm r :
  plain_word r = true ->
  Sh.tokens ("rm -rf " +:+ r) = [Sh.Word "rm"; Sh.Word "-rf"; Sh.Word r].
Proof.
  intros Hr. change ("rm -rf " +:+ r) with ("rm" +:+ " " +:+ "-rf" +:+ " " +:+ r).
  read_pieces. simpl. by rewrite (classify_plain r).
Qed.

Lemma tokens_grep pat r :
  plain_word pat = true -> plain_word r = true ->
  Sh.tokens ("grep " +:+ pat +:+ " " +:+ r +:+ " | wc -l")
    = [Sh.Word "grep"; Sh.Word pat; Sh.Word r; Sh.Op "|"; Sh.Word "wc"; Sh.Word "-l"].
Proof.
  intros Hp Hr.
  change ("grep " +:+ pat +:+ " " +:+ r +:+ " | wc -l")
    with ("grep" +:+ " " +:+ pat +:+ " " +:+ r +:+ " " +:+ "|" +:+ " " +:+ "wc"
            +:+ " " +:+ "-l").
  read_pieces. simpl. by rewrite (classify_plain pat), (classify_plain r).
Qed.

Lemma tokens_echo_summary p f r :
  plain_word p = true -> plain_word f = true -> plain_word r = true ->
  Sh.tokens ("echo " +:+ (p +:+ " PASSED, " +:+ f +:+ " FAILED") +:+ " >> " +:+ r)
    = [Sh.Word "echo"; Sh.Word p; Sh.Word "PASSED,"; Sh.Word f; Sh.Word "FAILED";
       Sh.Op ">>"; Sh.Word r].
Proof.
  intros Hp Hf Hr. rewrite !append_assoc.
  change ("echo " +:+ p +:+ " PASSED, " +:+ f +:+ " FAILED" +:+ " >> " +:+ r)
    with ("echo" +:+ " " +:+ p +:+ " " +:+ "PASSED," +:+ " " +:+ f +:+ " "
            +:+ "FAILED" +:+ " " +:+ ">>" +:+ " " +:+ r).
  read_pieces. simpl.
  by rewrite (classify_plain p), (classify_plain f), (classify_plain r).
Qed.

Lemma sh_rm E r m :
  plain_word r = true ->
  Sh.run E ("rm -rf " +:+ r) m = (delete r m, Some "").
Proof.
  intros Hr. rewrite run_one_line by one_line. by rewrite tokens_rm.
Qed.

Lemma sh_grep_count E pat r m ls :
  plain_word pat = true -> all_chars is_letter pat = true ->
  plain_word r = true -> Py.startswith "-" r = false ->
  m !! r = Some ls ->
  Sh.run E ("grep " +:+ pat +:+ " " +:+ r +:+ " | wc -l") m
    = (m, Some (Py.fmt_d (Sh.count_matching pat ls) +:+ nl)).
Proof.
  intros Hp Hl Hr Hd Hm. rewrite run_one_line by one_line.
  rewrite tokens_grep by done. simpl.
  unfold Sh.operand. rewrite Hl, Hd. simpl.
  unfold Sh.count_lines. simpl. by rewrite Hm, Z.add_0_r.
Qed.

Lemma sh_echo_summary E p f r m :
  plain_word p = true -> plain_word f = true -> plain_word r = true ->
  Py.startswith "-" p = false ->
  Sh.run E ("echo " +:+ (p +:+ " PASSED, " +:+ f +:+ " FAILED") +:+ " >> " +:+ r) m
    = (Sh.append r [p +:+ " PASSED, " +:+ f +:+ " FAILED"] m, Some "").
Proof.
  intros Hp Hf Hr Hd.
  rewrite run_one_line by (rewrite !append_assoc; one_line).
  rewrite tokens_echo_summary by done. simpl. unfold Sh.echoed. simpl.
  simpl in Hd.
  rewrite (plain_no_backslash p Hp), (plain_no_backslash f Hf), Hd. reflexivity.
Qed.

Lemma count_matching_nonneg pat ls : 0 <= Sh.count_matching pat ls.
Proof. unfold Sh.count_matching. lia. Qed.

Lemma is_digit_no_dash c : is_digit c = true -> Ascii.eqb "-" c = false.
Proof. destruct c as [[] [] [] [] [] [] [] []]; vm_compute; by intros. Qed.

Lemma fmt_d_no_dash z : 0 <= z -> Py.startswith "-" (Py.fmt_d z) = false.
Proof.
  intros [Hne Hd]%fmt_d_digits. destruct (Py.fmt_d z) as [|c s]; [done|].
  change (is_digit c && all_chars is_digit s = true) in Hd.
  apply andb_prop in Hd as [Hc _].
  change (Py.startswith "-" (String c s))
    with (if Ascii.eqb "-" c then Py.startswith "" s else false).
  by rewrite (is_digit_no_dash c Hc).
Qed.

(** The next command is [run_cmd] of a command whose effect [H] gives. *)
Ltac run_cmd_with H :=
  match goal with
  | |- context [bind (run_cmd ?E ?c) _ ?w0] =>
      rewrite (bind_Return _ _ w0 _ _ (run_cmd_Return E c w0 _ _ H))
  end.

(** The summary of a report with the lines [lines]. *)
Lemma iss_cmp_summary_report E report lines w :
  plain_word report = true ->
  Py.startswith "-" report = false ->
  fs w !! report = Some lines ->
  exists w',
    iss_cmp_summary E report w = (Return tt, w')
    /\ printed w' = printed w
         ++ [summary_of lines; "ISS regression report is saved to " +:+ report]
    /\ fs w' = <[report := lines ++ [summary_of lines]]> (fs w).
Proof.
  intros Hr Hd Hfs. unfold summary_of.
  set (P := Sh.count_matching "PASSED" lines).
  set (F := Sh.count_matching "FAILED" lines).
  assert (HwP : plain_word (Py.fmt_d P) = true)
    by apply fmt_d_plain, count_matching_nonneg.
  assert (HwF : plain_word (Py.fmt_d F) = true)
    by apply fmt_d_plain, count_matching_nonneg.
  assert (HdP : Py.startswith "-" (Py.fmt_d P) = false)
    by apply fmt_d_no_dash, count_matching_nonneg.
  assert (HgP : Sh.run E ("grep PASSED " +:+ report +:+ " | wc -l") (fs w)
                = (fs w, Some (Py.fmt_d P +:+ nl)))
    by exact (sh_grep_count E "PASSED" report (fs w) lines eq_refl eq_refl Hr Hd Hfs).
  assert (HgF : Sh.run E ("grep FAILED " +:+ report +:+ " | wc -l") (fs w)
                = (fs w, Some (Py.fmt_d F +:+ nl)))
    by exact (sh_grep_count E "FAILED" report (fs w) lines eq_refl eq_refl Hr Hd Hfs).
  unfold iss_cmp_summary.
  rewrite (bind_Return _ _ _ _ _ (run_cmd_Return _ _ _ _ _ HgP)).
  run_cmd_with HgF.
  cbv zeta. rewrite !strip_word_nl by done.
  rewrite (bind_Return _ _ _ _ _ (print_printing _ _)).
  run_cmd_with (sh_echo_summary E _ _ report (fs w) HwP HwF Hr HdP).
  rewrite print_printing. eexists. split; [reflexivity|]. simpl.
  split.
  - by rewrite <- app_assoc.
  - unfold Sh.append. by rewrite Hfs.
Qed.

(** C7, for a report whose path is one plain word that does not begin with
    [-]: when the report holds [P] lines with PASSED and [F] lines with
    FAILED, the lines after the loops of [iss_cmp] print the summary
    [P PASSED, F FAILED] and append it to the report as its last line. *)
Theorem C7_summary_counts E report lines P F w :
  plain_word report = true ->
  Py.startswith "-" report = false ->
  fs w !! report = Some lines ->
  Sh.count_matching "PASSED" lines = P ->
  Sh.count_matching "FAILED" lines = F ->
  let summary := Py.fmt_d P +:+ " PASSED, " +:+ Py.fmt_d F +:+ " FAILED" in
  exists w',
    iss_cmp_summary E report w = (Return tt, w')
    /\ printed w' = printed w
         ++ [summary; "ISS regression report is saved to " +:+ report]
    /\ fs w' = <[report := lines ++ [summary]]> (fs w).
Proof.
  intros Hr Hd Hfs HP HF summary.
  destruct (iss_cmp_summary_report E report lines w Hr Hd Hfs)
    as (w' & Hrun & Hprinted & Hfiles).
  assert (Hsum : summary_of lines = summary).
  { unfold summary_of, summary. by rewrite HP, HF. }
  rewrite Hsum in Hprinted, Hfiles.
  exists w'. split; [exact Hrun|]. split; [exact Hprinted|exact Hfiles].
Qed.

(** C7 as it is stated fails for a report in a directory with a blank in its
    name: the shell takes the two halves of the path for two files, so the
    lines are counted in these, here two empty files, and the summary is
    appended to the first of them.  The report holds two lines with PASSED
    and one with FAILED; the summary says 0 and 0, and the report does not
    get it. *)
Lemma C7_counterexample :
  let report := "my out/iss_regr.log" in
  let r := iss_cmp_summary (Demo.env 0 1 0) report Demo.world_with_blank in
  fs Demo.world_with_blank !! report = Some Demo.compared_report
  /\ Sh.count_matching "PASSED" Demo.compared_report = 2
  /\ Sh.count_matching "FAILED" Demo.compared_report = 1
  /\ r.1 = Return tt
  /\ printed r.2 = ["0 PASSED, 0 FAILED";
                    "ISS regression report is saved to my out/iss_regr.log"]
  /\ fs r.2 !! report = Some Demo.compared_report
  /\ fs r.2 !! "my" = Some ["0 PASSED, 0 FAILED out/iss_regr.log"].
Proof. vm_compute. repeat split. Qed.

(** ** The report of an earlier run *)

Lemma run_cmd_rm_report E report w :
  plain_word report = true ->
  run_cmd E ("rm -rf " +:+ report) w
    = (Return "",
       {| fs := delete report (fs w); printed := printed w;
          started := started w ++ [Popen ("rm -rf " +:+ report)];
          drawn := drawn w |}).
Proof. intros Hr. exact (run_cmd_Return E _ w _ _ (sh_rm E report (fs w) Hr)). Qed.

(** The processes started are never taken back. *)
Lemma grows_ret {A} (a : A) : grows (ret a).
Proof. intros w. exists []. by rewrite app_nil_r. Qed.

Lemma grows_print line : grows (print line).
Proof. intros w. exists []. simpl. by rewrite app_nil_r. Qed.

Lemma grows_bind {A B} (m : M A) (k : A -> M B) :
  grows m -> (forall a, grows (k a)) -> grows (bind m k).
Proof.
  intros Hm Hk w. unfold bind. destruct (Hm w) as [r1 H1].
  destruct (m w) as [[a|arg|e] w1]; simpl in H1; try by exists r1.
  destruct (Hk a w1) as [r2 H2]. exists (r1 ++ r2).
  by rewrite H2, H1, <- app_assoc.
Qed.

Lemma grows_when b (m : M unit) : grows m -> grows (when b m).
Proof. destruct b; [done|]. intros _. apply grows_ret. Qed.

Lemma grows_for_with {A S} (l : list A) (body : S -> A -> M S) s :
  (forall s x, grows (body s x)) -> grows (for_with l body s).
Proof.
  intros Hbody. revert s. induction l as [|x l IH]; intros s; simpl.
  - apply grows_ret.
  - apply grows_bind; [apply Hbody|]. intros s'. apply IH.
Qed.

Lemma grows_for {A} (l : list A) (body : A -> M unit) :
  (forall x, grows (body x)) -> grows (for_ l body).
Proof.
  intros Hbody. induction l as [|x l IH]; simpl.
  - apply grows_ret.
  - apply grows_bind; [apply Hbody|]. intros _. apply IH.
Qed.

Lemma grows_run_cmd E cmd : grows (run_cmd E cmd).
Proof. intros w. rewrite run_cmd_outcome. simpl. by eexists. Qed.

Lemma grows_iss_cmp_body E output_dir report verbose test pair i :
  grows (iss_cmp_body E output_dir report verbose test pair i).
Proof.
  unfold iss_cmp_body. cbv zeta.
  repeat first [ apply grows_bind; [|intros ?] | apply grows_print
               | apply grows_run_cmd | apply grows_when | apply grows_ret ].
Qed.

Lemma grows_iss_cmp_summary E report : grows (iss_cmp_summary E report).
Proof.
  unfold iss_cmp_summary.
  repeat first [ apply grows_bind; [|intros ?] | apply grows_print
               | apply grows_run_cmd | apply grows_when | apply grows_ret ].
Qed.

(** C10, with two simulators: the comparison stage first removes the report,
    before any other process of the stage, and then goes on exactly as it
    does in the world where the report of the earlier run does not exist:
    its result, the lines it prints and the report it leaves do not depend
    on what the report held before. *)
Theorem C10_report_starts_afresh E test_list iss output_dir verbose w a b :
  all_chars safe_char output_dir = true ->
  Py.split "," iss = [a; b] ->
  let report := report_path output_dir in
  (exists rest,
     started (iss_cmp E test_list iss output_dir verbose w).2
       = started w ++ Popen ("rm -rf " +:+ report) :: rest)
  /\ iss_cmp E test_list iss output_dir verbose w
       = iss_cmp E test_list iss output_dir verbose (without_file report w).
Proof.
  intros Ho Hsplit report.
  assert (Hr : plain_word report = true) by by apply report_path_plain.
  split.
  - unfold iss_cmp. rewrite Hsplit. cbv zeta. fold report.
    rewrite (bind_Return _ _ _ _ _ (run_cmd_rm_report E report w Hr)).
    match goal with |- context [bind ?m ?k ?w0] =>
      destruct (grows_bind m k) with w0 as [rest Hrest]
    end.
    + apply grows_for_with. intros s test. apply grows_for_with.
      intros s' i. apply grows_iss_cmp_body.
    + intros _. apply grows_iss_cmp_summary.
    + exists rest. rewrite Hrest. simpl. by rewrite <- app_assoc.
  - unfold iss_cmp. rewrite Hsplit. cbv zeta. fold report.
    rewrite (bind_Return _ _ _ _ _ (run_cmd_rm_report E report w Hr)).
    rewrite (bind_Return _ _ _ _ _
               (run_cmd_rm_report E report (without_file report w) Hr)).
    simpl. by rewrite delete_delete_eq.
Qed.

(** C10 as it is stated fails with one simulator, the default of [--iss]:
    the stage returns before the removal, and the report of the earlier run
    is still there with its lines and its summary. *)
Lemma C10_counterexample :
  let r := main (Demo.env 0 1 0) (Demo.args "spike" "iss_cmp") "/cwd"
             Demo.world_with_report in
  r.1 = Return tt
  /\ ~ (Popen "rm -rf out/iss_regr.log" ∈ started r.2)
  /\ fs r.2 !! "out/iss_regr.log" = Some Demo.old_report
  /\ fs r.2 !! "out/iss_regr.log" <> None.
Proof.
  vm_compute. repeat split; [|done].
  intros Hin. repeat (apply elem_of_cons in Hin as [Hin|Hin]; [discriminate Hin|]).
  by apply elem_of_nil in Hin.
Qed.


(** ** The contents of the report *)

(** A loop with an invariant over the elements done so far. *)
Lemma for_with_invariant {A S} (l : list A) (body : S -> A -> M S)
    (I : list A -> S -> world -> Prop) :
  (forall pre x s w, I pre s w -> x ∈ l ->
     exists s' w', body s x w = (Return s', w') /\ I (pre ++ [x]) s' w') ->
  forall s w, I [] s w ->
    exists s' w', for_with l body s w = (Return s', w') /\ I l s' w'.
Proof.
  intros Hbody.
  assert (Hgen : forall rest pre s w, (forall x, x ∈ rest -> x ∈ l) -> I pre s w ->
            exists s' w', for_with rest body s w = (Return s', w')
                          /\ I (pre ++ rest) s' w').
  { induction rest as [|x rest IH]; intros pre s w Hsub Hpre; simpl.
    - exists s, w. by rewrite app_nil_r.
    - destruct (Hbody pre x s w Hpre) as (s1 & w1 & Hx & H1); [apply Hsub; by left|].
      rewrite (bind_Return _ _ _ _ _ Hx).
      destruct (IH (pre ++ [x]) s1 w1) as (s2 & w2 & Hrest & H2); [|done|].
      + intros y Hy. apply Hsub. by right.
      + exists s2, w2. split; [done|]. by rewrite <- app_assoc in H2. }
  intros s w H0. by apply (Hgen l [] s w).
Qed.

Lemma range_nonneg n i : i ∈ Py.range n -> 0 <= i.
Proof.
  unfold Py.range. intros Hi. apply list_elem_of_In, in_map_iff in Hi as (k & <- & _).
  lia.
Qed.

Lemma all_chars_safe_fmt_d z : 0 <= z -> all_chars safe_char (Py.fmt_d z) = true.
Proof. intros Hz. by apply plain_word_inv, fmt_d_plain. Qed.

Lemma safe_char_not_quote c : safe_char c = true -> negb (Sh.quote c) = true.
Proof. intros [-> _]%safe_char_word. done. Qed.

Lemma iss_log_plain output_dir iss test i :
  all_chars safe_char output_dir = true ->
  all_chars safe_char iss = true ->
  all_chars safe_char (Yaml.test test) = true ->
  0 <= i ->
  plain_word (iss_log output_dir iss test i) = true.
Proof.
  intros Ho Hi Ht Hz. unfold iss_log.
  repeat (apply plain_word_app; [done|]).
  apply plain_word_app; [by apply all_chars_safe_fmt_d|done].
Qed.

(** The log that the stage names is the path written out. *)
Lemma iss_log_eq output_dir iss test i :
  iss_log output_dir iss test i
    = output_dir +:+ "/" +:+ iss +:+ "_sim/"
        +:+ (Yaml.test test +:+ "." +:+ Py.fmt_d i) +:+ ".log".
Proof. unfold iss_log. by rewrite !append_assoc. Qed.

Lemma elf_safe output_dir test i :
  all_chars safe_char output_dir = true ->
  all_chars safe_char (Yaml.test test) = true ->
  0 <= i ->
  all_chars safe_char (asm_prefix output_dir test i +:+ ".o") = true.
Proof.
  intros Ho Ht Hz. unfold asm_prefix. rewrite !all_chars_app, Ho, Ht.
  by rewrite (all_chars_safe_fmt_d i Hz).
Qed.

Lemma elf_no_quote output_dir test i :
  all_chars safe_char output_dir = true ->
  all_chars safe_char (Yaml.test test) = true ->
  0 <= i ->
  all_chars (fun c => negb (Sh.quote c))
    ("Test binary: " +:+ (asm_prefix output_dir test i +:+ ".o")) = true.
Proof.
  intros Ho Ht Hz. rewrite all_chars_app. apply andb_true_intro. split; [done|].
  apply (all_chars_impl safe_char); [apply safe_char_not_quote|].
  by apply elf_safe.
Qed.

Lemma tokens_echo_quoted t r :
  all_chars (fun c => negb (Sh.quote c)) t = true ->
  plain_word r = true ->
  Sh.tokens ("echo '" +:+ t +:+ "' >> " +:+ r)
    = [Sh.Word "echo"; Sh.Text t; Sh.Op ">>"; Sh.Word r].
Proof.
  intros Ht Hr.
  change ("echo '" +:+ t +:+ "' >> " +:+ r)
    with ("echo" +:+ " " +:+ "'" +:+ t +:+ "' " +:+ ">>" +:+ " " +:+ r).
  unfold Sh.tokens. rewrite pieces_step by reflexivity.
  rewrite pieces_quoted_step by done.
  rewrite pieces_step by reflexivity.
  rewrite pieces_last by by apply plain_is_piece.
  simpl. by rewrite (classify_quoted t Ht), (classify_plain r Hr).
Qed.

Lemma sh_echo_quoted E t r m :
  all_chars (fun c => negb (Sh.quote c)) t = true ->
  Sh.one_line t = true ->
  no_backslash t = true ->
  Py.startswith "-" t = false ->
  plain_word r = true ->
  Sh.run E ("echo '" +:+ t +:+ "' >> " +:+ r) m = (Sh.append r [t] m, Some "").
Proof.
  intros Ht Hl Hb Hd Hr. rewrite run_one_line by one_line.
  rewrite tokens_echo_quoted by done. simpl. unfold Sh.echoed. simpl.
  simpl in Hd. by rewrite Hb, Hd.
Qed.

Lemma tokens_iss_cmp l0 l1 r :
  plain_word l0 = true -> plain_word l1 = true -> plain_word r = true ->
  Sh.tokens ("./iss_cmp " +:+ l0 +:+ " " +:+ l1 +:+ " " +:+ r +:+ (" &>> " +:+ r))
    = [Sh.Word "./iss_cmp"; Sh.Word l0; Sh.Word l1; Sh.Word r; Sh.Op "&>>";
       Sh.Word r].
Proof.
  intros H0 H1 Hr.
  change ("./iss_cmp " +:+ l0 +:+ " " +:+ l1 +:+ " " +:+ r +:+ (" &>> " +:+ r))
    with ("./iss_cmp" +:+ " " +:+ l0 +:+ " " +:+ l1 +:+ " " +:+ r +:+ " "
            +:+ "&>>" +:+ " " +:+ r).
  read_pieces. simpl.
  by rewrite (classify_plain l0), (classify_plain l1), !(classify_plain r).
Qed.

(** In bash the comparison utility writes to the report. *)
Lemma sh_iss_cmp E l0 l1 r m :
  sh E = Bash ->
  plain_word l0 = true -> plain_word l1 = true -> plain_word r = true ->
  Sh.run E ("./iss_cmp " +:+ l0 +:+ " " +:+ l1 +:+ " " +:+ r +:+ (" &>> " +:+ r)) m
    = (Sh.append r (compare_logs E [l0; l1; r]) m, Some "").
Proof.
  intros Hsh H0 H1 Hr. rewrite run_one_line by one_line.
  rewrite tokens_iss_cmp by done. simpl. by rewrite Hsh.
Qed.

(** In a shell that follows POSIX only the report gets nothing from the
    utility, and the pipe is left to the environment. *)
Lemma sh_iss_cmp_posix E l0 l1 r m :
  sh E = Posix ->
  plain_word l0 = true -> plain_word l1 = true -> plain_word r = true ->
  Sh.run E ("./iss_cmp " +:+ l0 +:+ " " +:+ l1 +:+ " " +:+ r +:+ (" &>> " +:+ r)) m
    = Sh.left_to_env E
        ("./iss_cmp " +:+ l0 +:+ " " +:+ l1 +:+ " " +:+ r +:+ (" &>> " +:+ r))
        (Sh.append r [] m).
Proof.
  intros Hsh H0 H1 Hr. rewrite run_one_line by one_line.
  rewrite tokens_iss_cmp by done. simpl. by rewrite Hsh.
Qed.

Lemma lines_of_append f ls w m :
  fs w = Sh.append f ls m ->
  lines_of f w = default [] (m !! f) ++ ls.
Proof.
  intros Hfs. unfold lines_of, Sh.append in *.
  by rewrite Hfs, lookup_insert_eq.
Qed.

Lemma safe_pair_spike_first pair : safe_pair pair -> safe_pair (spike_first pair).
Proof.
  intros [H1 H2]. unfold spike_first. destruct (String.eqb pair.2 "spike"); by split.
Qed.

(** One comparison appends its entry to the report, in bash. *)
Lemma iss_cmp_body_report E output_dir verbose test pair i w :
  sh E = Bash ->
  all_chars safe_char output_dir = true ->
  all_chars safe_char (Yaml.test test) = true ->
  safe_pair pair ->
  0 <= i ->
  exists w',
    iss_cmp_body E output_dir (report_path output_dir) verbose test pair i w
      = (Return (spike_first pair), w')
    /\ lines_of (report_path output_dir) w'
         = lines_of (report_path output_dir) w
             ++ report_entry E output_dir (spike_first pair).1 (spike_first pair).2
                  test i.
Proof.
  intros Hsh Ho Ht Hpair Hz.
  destruct (safe_pair_spike_first pair Hpair) as [Hp1 Hp2].
  assert (Hr : plain_word (report_path output_dir) = true)
    by by apply report_path_plain.
  pose proof (elf_safe output_dir test i Ho Ht Hz) as Helf.
  unfold iss_cmp_body. cbv zeta.
  rewrite (bind_Return _ _ _ _ _ (print_printing _ _)).
  run_cmd_with (sh_echo_quoted E
                  ("Test binary: " +:+ (asm_prefix output_dir test i +:+ ".o"))
                  (report_path output_dir) (fs w)
                  (elf_no_quote output_dir test i Ho Ht Hz)
                  ltac:(rewrite one_line_app; by rewrite (safe_one_line _ Helf))
                  ltac:(rewrite no_backslash_app;
                        by rewrite (safe_no_backslash _ Helf))
                  eq_refl Hr).
  unfold iss_cmp_cmd.
  match goal with |- context [bind (run_cmd E _) _ ?w0] =>
    rewrite (bind_Return _ _ w0 _ _
               (run_cmd_Return E _ w0 _ _
                  (sh_iss_cmp E _ _ (report_path output_dir) (fs w0) Hsh
                     (iss_log_plain output_dir _ test i Ho Hp1 Ht Hz)
                     (iss_log_plain output_dir _ test i Ho Hp2 Ht Hz) Hr)))
  end.
  rewrite (bind_Return _ _ _ _ _ (when_printing _ _ _)).
  eexists. split; [reflexivity|]. simpl.
  unfold lines_of at 1. simpl. unfold Sh.append at 1.
  rewrite lookup_insert_eq. unfold Sh.append. rewrite lookup_insert_eq.
  simpl. unfold report_entry, lines_of.
  rewrite !iss_log_eq, report_path_eq. unfold asm_prefix.
  rewrite <- app_assoc. simpl. by rewrite !append_assoc.
Qed.

(** The loops append the entries of all tests and iterations. *)
Lemma iss_cmp_loops_report E test_list output_dir verbose pair w :
  sh E = Bash ->
  all_chars safe_char output_dir = true ->
  Forall (fun test => all_chars safe_char (Yaml.test test) = true) test_list ->
  safe_pair pair ->
  exists pair' w',
    for_with test_list (fun pair test =>
      for_with (Py.range (Yaml.iterations test))
        (iss_cmp_body E output_dir (report_path output_dir) verbose test) pair)
      pair w = (Return pair', w')
    /\ lines_of (report_path output_dir) w'
         = lines_of (report_path output_dir) w
             ++ report_entries E test_list output_dir (spike_first pair).1
                  (spike_first pair).2.
Proof.
  intros Hsh Ho Htests Hpair.
  destruct (for_with_invariant test_list
              (fun pair test =>
                 for_with (Py.range (Yaml.iterations test))
                   (iss_cmp_body E output_dir (report_path output_dir) verbose test) pair)
              (fun pre s w' =>
                 spike_first s = spike_first pair /\ safe_pair s
                 /\ lines_of (report_path output_dir) w'
                    = lines_of (report_path output_dir) w
                        ++ report_entries E pre output_dir (spike_first pair).1
                             (spike_first pair).2))
    with pair w as (pair' & w' & Hrun & _ & _ & Hlines).
  - intros pre test s w0 (Hs & Hsafe & Hlines) Hin.
    rewrite Forall_forall in Htests. pose proof (Htests test Hin) as Ht.
    destruct (for_with_invariant (Py.range (Yaml.iterations test))
                (iss_cmp_body E output_dir (report_path output_dir) verbose test)
                (fun done s1 w1 =>
                   spike_first s1 = spike_first pair /\ safe_pair s1
                   /\ lines_of (report_path output_dir) w1
                      = lines_of (report_path output_dir) w0
                          ++ flat_map (report_entry E output_dir (spike_first pair).1
                                         (spike_first pair).2 test)
                               done))
      with s w0 as (s' & w1 & Hrun & Hs' & Hsafe' & Hlines').
    + intros done i s1 w1 (Hs1 & Hsafe1 & Hl1) Hi.
      destruct (iss_cmp_body_report E output_dir verbose test s1 i w1 Hsh Ho Ht Hsafe1
                  (range_nonneg _ _ Hi)) as (w2 & Hbody & Hl2).
      exists (spike_first s1), w2. split; [exact Hbody|].
      split; [by rewrite spike_first_idemp|].
      split; [by apply safe_pair_spike_first|].
      rewrite Hl2, Hl1, Hs1, flat_map_app. simpl.
      by rewrite app_nil_r, <- app_assoc.
    + split; [done|]. split; [done|]. simpl. by rewrite app_nil_r.
    + exists s', w1. split; [exact Hrun|]. split; [done|]. split; [done|].
      rewrite Hlines', Hlines. unfold report_entries. rewrite flat_map_app.
      simpl. by rewrite app_nil_r, <- app_assoc.
  - split; [done|]. split; [done|]. unfold report_entries. simpl.
    by rewrite app_nil_r.
  - by exists pair', w'.
Qed.

Lemma report_path_no_dash output_dir :
  Py.startswith "-" output_dir = false ->
  Py.startswith "-" (report_path output_dir) = false.
Proof.
  rewrite report_path_eq. destruct output_dir as [|c o]; [done|].
  by rewrite append_cons.
Qed.

(** The report and the lines printed at the end of the stage, in bash. *)
Lemma iss_cmp_report_and_summary E test_list iss output_dir verbose w a b :
  sh E = Bash ->
  all_chars safe_char output_dir = true ->
  Py.startswith "-" output_dir = false ->
  Forall (fun test => all_chars safe_char (Yaml.test test) = true) test_list ->
  safe_pair (a, b) ->
  Py.split "," iss = [a; b] ->
  let entries := report_entries E test_list output_dir (operands a b).1
                   (operands a b).2 in
  entries <> [] ->
  exists w',
    iss_cmp E test_list iss output_dir verbose w = (Return tt, w')
    /\ fs w' !! (output_dir +:+ "/iss_regr.log")
         = Some (entries ++ [summary_of entries])
    /\ exists printed_before,
         printed w' = printed_before
           ++ [summary_of entries;
               "ISS regression report is saved to " +:+ output_dir
                 +:+ "/iss_regr.log"].
Proof.
  intros Hsh Ho Hd Htests Hpair Hsplit entries Hne.
  assert (Hr : plain_word (report_path output_dir) = true)
    by by apply report_path_plain.
  pose proof (report_path_no_dash output_dir Hd) as Hrd.
  rewrite <- !report_path_eq.
  unfold iss_cmp. rewrite Hsplit. cbv zeta.
  rewrite (bind_Return _ _ _ _ _ (run_cmd_rm_report E _ w Hr)).
  match goal with |- context [bind _ _ ?w0] => set (w1 := w0) end.
  destruct (iss_cmp_loops_report E test_list output_dir verbose (a, b) w1 Hsh Ho
              Htests Hpair) as (pair' & w2 & Hloops & Hlines).
  rewrite (bind_Return _ _ _ _ _ Hloops).
  assert (H1 : lines_of (report_path output_dir) w1 = []).
  { unfold lines_of, w1. simpl. by rewrite lookup_delete_eq. }
  rewrite H1, spike_first_operands in Hlines. simpl in Hlines.
  fold entries in Hlines.
  assert (Hfs : fs w2 !! report_path output_dir = Some entries).
  { unfold lines_of in Hlines.
    destruct (fs w2 !! report_path output_dir) as [ls|]; simpl in Hlines; by subst. }
  destruct (iss_cmp_summary_report E (report_path output_dir) entries w2 Hr Hrd Hfs)
    as (w3 & Hsum & Hprinted & Hfiles).
  exists w3. split; [exact Hsum|]. split.
  - by rewrite Hfiles, lookup_insert_eq.
  - by exists (printed w2).
Qed.

(** X15: in bash, with two plain simulator names, plain test names, a plain
    output directory that does not begin with [-] and at least one
    comparison, the report after the stage holds the entries of this run,
    for every test and iteration the label and then the lines of the
    comparison utility for the logs of the two operands, and, as its last
    line, the summary of these entries; what the report held before the
    stage does not occur in it. *)
Theorem iss_cmp_report_contents E test_list iss output_dir verbose w a b :
  sh E = Bash ->
  all_chars safe_char output_dir = true ->
  Py.startswith "-" output_dir = false ->
  Forall (fun test => all_chars safe_char (Yaml.test test) = true) test_list ->
  safe_pair (a, b) ->
  Py.split "," iss = [a; b] ->
  let entries := report_entries E test_list output_dir (operands a b).1
                   (operands a b).2 in
  entries <> [] ->
  exists w',
    iss_cmp E test_list iss output_dir verbose w = (Return tt, w')
    /\ fs w' !! (output_dir +:+ "/iss_regr.log")
         = Some (entries ++ [summary_of entries]).
Proof.
  intros Hsh Ho Hd Htests Hpair Hsplit entries Hne.
  destruct (iss_cmp_report_and_summary E test_list iss output_dir verbose w a b
              Hsh Ho Hd Htests Hpair Hsplit Hne) as (w' & Hrun & Hfs & _).
  by exists w'.
Qed.

(** With two simulators the report of the earlier run is gone after the
    stage: the report holds the entries and the summary of this run. *)
Example report_after_second_run :
  fs (iss_cmp (Demo.env 0 1 0) Demo.tests "ovpsim,spike" "out" 0
        Demo.world_with_report).2 !! "out/iss_regr.log"
  = Some ["Test binary: out/asm_tests/t0.0.o";
          "compare out/spike_sim/t0.0.log out/ovpsim_sim/t0.0.log out/iss_regr.log";
          "[PASSED]: 10 matched";
          "Test binary: out/asm_tests/t0.1.o";
          "compare out/spike_sim/t0.1.log out/ovpsim_sim/t0.1.log out/iss_regr.log";
          "[PASSED]: 10 matched";
          "2 PASSED, 0 FAILED"].
Proof. vm_compute. reflexivity. Qed.

(** Where [/bin/sh] is dash the lines of the utility go to the pipe and not
    to the report, which holds the labels only. *)
Example report_under_dash :
  fs (iss_cmp Demo.env_dash Demo.tests "ovpsim,spike" "out" 0
        Demo.world_with_report).2 !! "out/iss_regr.log"
  = Some ["Test binary: out/asm_tests/t0.0.o";
          "Test binary: out/asm_tests/t0.1.o";
          "0 PASSED, 0 FAILED"].
Proof. vm_compute. reflexivity. Qed.

(** ** The theorems at the concrete installation *)

Lemma C3_witness :
  exists w',
    iss_sim (Demo.env 0 1 1) Demo.tests "out" "ovpsim,spike" "iss.yaml" "rv64imc"
      0 Demo.empty_world = (Return tt, w')
    /\ started w'
       = [SubprocessRun ["mkdir"; "-p"; "out/ovpsim_sim"];
          Popen "/opt/ovp/ovp --variant RV64IMC --program out/asm_tests/t0.0.o &> out/ovpsim_sim/t0.0.log";
          Popen "/opt/ovp/ovp --variant RV64IMC --program out/asm_tests/t0.1.o &> out/ovpsim_sim/t0.1.log";
          SubprocessRun ["mkdir"; "-p"; "out/spike_sim"];
          Popen "/opt/spike/spike --isa=rv64imc out/asm_tests/t0.0.o &> out/spike_sim/t0.0.log";
          Popen "/opt/spike/spike --isa=rv64imc out/asm_tests/t0.1.o &> out/spike_sim/t0.1.log"]
    /\ Forall (fun i => timeout_of i = None)
         (iss_sim_invocations Demo.tests "out"
            [("ovpsim", "/opt/ovp/ovp --variant RV64IMC --program <elf>");
             ("spike", "/opt/spike/spike --isa=rv64imc <elf>")]).
Proof.
  refine (C3_simulation_failures_do_not_abort (Demo.env 0 1 1) Demo.tests "out"
            "ovpsim,spike" "iss.yaml" "rv64imc" 0
            ["/opt/ovp/ovp --variant RV64IMC --program <elf>";
             "/opt/spike/spike --isa=rv64imc <elf>"]
            Demo.empty_world _ _ _ _ _).
  - change (Py.split "," "ovpsim,spike") with ["ovpsim"; "spike"].
    constructor; [|constructor; [|constructor]].
    + exists {| Yaml.iss := "ovpsim"; Yaml.path_var := "OVPSIM_PATH";
                Yaml.cmd := "<path_var>/ovp --variant <variant> --program <elf>" |},
        "/opt/ovp".
      repeat split; vm_compute; reflexivity.
    + exists {| Yaml.iss := "spike"; Yaml.path_var := "SPIKE_PATH";
                Yaml.cmd := "<path_var>/spike --isa=<variant> <elf> " |},
        "/opt/spike".
      repeat split; vm_compute; reflexivity.
  - reflexivity.
  - by repeat constructor.
  - reflexivity.
  - intros cmd. reflexivity.
Defined.

Lemma C4_witness :
  (get_generator_cmd (Demo.env 0 1 0) "vcs" "simulator.yaml" Demo.empty_world).1
    = Return (["vcs -o <out>/simv"; "vcs_post <cwd>"], "<out>/simv +x ")
  /\ (parse_iss_yaml (Demo.env 0 1 0) "nosim" "iss.yaml" "rv64imc" Demo.empty_world).1
       = SysExit (Status 1).
Proof.
  destruct (C4_tool_lookup (Demo.env 0 1 0) Demo.empty_world)
    as (Hfirst & _ & _ & Habsent).
  split.
  - apply (Hfirst "vcs" "simulator.yaml" []
             {| Yaml.tool := "vcs";
                Yaml.compile_cmd := ["vcs -o <out>/simv"; "vcs_post <cwd>"];
                Yaml.sim_cmd := "<out>/simv +x " |} []); [reflexivity|constructor|reflexivity].
  - apply (Habsent "nosim" "iss.yaml" "rv64imc"). by repeat constructor.
Defined.

Lemma C6_witness :
  Py.split "," "ovpsim,spike" = ["ovpsim"; "spike"]
  /\ exists first second summary w',
       iss_cmp (Demo.env 0 1 0) Demo.tests "ovpsim,spike" "out" 0 Demo.empty_world
         = (Return tt, w')
       /\ started w' = started Demo.empty_world
            ++ [Popen ("rm -rf " +:+ "out" +:+ "/iss_regr.log")]
            ++ iss_cmp_invocations Demo.tests "out" first second
            ++ [Popen ("grep PASSED " +:+ "out" +:+ "/iss_regr.log | wc -l");
                Popen ("grep FAILED " +:+ "out" +:+ "/iss_regr.log | wc -l");
                Popen ("echo " +:+ summary +:+ " >> " +:+ "out" +:+ "/iss_regr.log")]
       /\ ("spike" = "spike" -> first = "spike" /\ second = "ovpsim")
       /\ ("spike" <> "spike" -> first = "ovpsim" /\ second = "spike").
Proof.
  split; [reflexivity|].
  exact (proj2 (C6_comparison_pair_order (Demo.env 0 1 0) Demo.tests "ovpsim,spike"
                  "out" 0 Demo.empty_world) "ovpsim" "spike" eq_refl
           (fun cmd => eq_refl)).
Defined.

(** The commands of the comparisons at the concrete installation, with the
    log of spike before the log of ovpsim. *)
Example comparisons_spike_first :
  iss_cmp_invocations Demo.tests "out" "spike" "ovpsim"
  = [Popen "echo 'Test binary: out/asm_tests/t0.0.o' >> out/iss_regr.log";
     Popen "./iss_cmp out/spike_sim/t0.0.log out/ovpsim_sim/t0.0.log out/iss_regr.log &>> out/iss_regr.log";
     Popen "echo 'Test binary: out/asm_tests/t0.1.o' >> out/iss_regr.log";
     Popen "./iss_cmp out/spike_sim/t0.1.log out/ovpsim_sim/t0.1.log out/iss_regr.log &>> out/iss_regr.log"].
Proof. reflexivity. Qed.

Lemma C8_witness :
  (parse_iss_yaml (Demo.env 0 1 0) "ovpsim" "iss.yaml" "rv64imc" Demo.empty_world).1
    = Return "/opt/ovp/ovp --variant RV64IMC --program <elf>".
Proof.
  refine (proj1 (C8_variant_case (Demo.env 0 1 0) "ovpsim" "iss.yaml" "rv64imc"
           [ {| Yaml.iss := "spike"; Yaml.path_var := "SPIKE_PATH";
                Yaml.cmd := "<path_var>/spike --isa=<variant> <elf> " |} ]
           {| Yaml.iss := "ovpsim"; Yaml.path_var := "OVPSIM_PATH";
              Yaml.cmd := "<path_var>/ovp --variant <variant> --program <elf>" |}
           [] "/opt/ovp" Demo.empty_world _ _ _ _ _ _ _) eq_refl);
    [reflexivity| by repeat constructor |reflexivity|vm_compute; reflexivity
    |reflexivity|reflexivity|reflexivity].
Defined.

Lemma C9_witness :
  process_regression_list
    (read_testlist (Demo.env 0 1 0)
       (testlist_of (Demo.args "spike" "all") "/cwd"))
    "t9" 0 = []
  /\ exists w',
       main (Demo.env 0 1 0)
         {| Args.o := "out"; Args.testlist := ""; Args.isa := "rv64imc";
            Args.mabi := "lp64"; Args.test := "t9"; Args.seed := -1;
            Args.iterations := 0; Args.simulator := "vcs";
            Args.simulator_yaml := ""; Args.iss := "spike"; Args.iss_yaml := "";
            Args.verbose := 0; Args.co := 0; Args.so := 0; Args.steps := "all";
            Args.lsf_cmd := "" |} "/cwd" Demo.empty_world
       = (SysExit (Message "Cannot find t9 in /cwd/yaml/testlist.yaml"), w')
       /\ started w' = [SubprocessRun ["mkdir"; "-p"; "out"];
                        SubprocessRun ["mkdir"; "-p"; "out/asm_tests"]].
Proof.
  split; [reflexivity|].
  destruct (C9_empty_selection_exits (Demo.env 0 1 0)
              {| Args.o := "out"; Args.testlist := ""; Args.isa := "rv64imc";
                 Args.mabi := "lp64"; Args.test := "t9"; Args.seed := -1;
                 Args.iterations := 0; Args.simulator := "vcs";
                 Args.simulator_yaml := ""; Args.iss := "spike"; Args.iss_yaml := "";
                 Args.verbose := 0; Args.co := 0; Args.so := 0; Args.steps := "all";
                 Args.lsf_cmd := "" |} "/cwd" Demo.empty_world eq_refl)
    as (w' & Hmain & _ & Hst & _).
  exists w'. split; [exact Hmain|exact Hst].
Defined.

Lemma C7_witness :
  exists w',
    iss_cmp_summary (Demo.env 0 1 0) "out/iss_regr.log" Demo.world_after_loops
      = (Return tt, w')
    /\ printed w' = printed Demo.world_after_loops
         ++ ["2 PASSED, 1 FAILED";
             "ISS regression report is saved to out/iss_regr.log"]
    /\ fs w' = <["out/iss_regr.log" := Demo.compared_report ++ ["2 PASSED, 1 FAILED"]]>
                 (fs Demo.world_after_loops).
Proof.
  assert (Hfs : fs Demo.world_after_loops !! "out/iss_regr.log"
                = Some Demo.compared_report) by (vm_compute; reflexivity).
  exact (C7_summary_counts (Demo.env 0 1 0) "out/iss_regr.log"
           Demo.compared_report 2 1 Demo.world_after_loops eq_refl eq_refl Hfs
           eq_refl eq_refl).
Defined.

Lemma C10_witness :
  all_chars safe_char "out" = true
  /\ Py.split "," "ovpsim,spike" = ["ovpsim"; "spike"]
  /\ (exists rest,
        started (iss_cmp (Demo.env 0 1 0) Demo.tests "ovpsim,spike" "out" 0
                   Demo.world_with_report).2
          = started Demo.world_with_report
              ++ Popen ("rm -rf " +:+ report_path "out") :: rest)
  /\ iss_cmp (Demo.env 0 1 0) Demo.tests "ovpsim,spike" "out" 0
       Demo.world_with_report
     = iss_cmp (Demo.env 0 1 0) Demo.tests "ovpsim,spike" "out" 0
         (without_file (report_path "out") Demo.world_with_report).
Proof.
  split; [reflexivity|]. split; [reflexivity|].
  exact (C10_report_starts_afresh (Demo.env 0 1 0) Demo.tests "ovpsim,spike" "out"
           0 Demo.world_with_report "ovpsim" "spike" eq_refl eq_refl).
Defined.

(** * More of the script *)

(** ** The steps that a value of [--steps] selects *)

Lemma startswith_cons a p s :
  Py.startswith (String a p) s = true ->
  exists s', s = String a s' /\ Py.startswith p s' = true.
Proof.
  destruct s as [|b s]; simpl; [done|].
  destruct (Ascii.eqb_spec a b) as [->|]; [|done]. by exists s.
Qed.

Lemma startswith_app p rest : Py.startswith p (p +:+ rest) = true.
Proof.
  induction p as [|a p IH]; [by destruct rest|].
  rewrite append_cons. simpl. by rewrite Ascii.eqb_refl.
Qed.

Lemma startswith_inv p s :
  Py.startswith p s = true -> exists rest, s = p +:+ rest.
Proof.
  revert s. induction p as [|a p IH]; intros s Hs; [by exists s|].
  apply startswith_cons in Hs as (s' & -> & Hs').
  destruct (IH s' Hs') as [rest ->]. by exists rest.
Qed.

Ltac prefix_clash :=
  repeat match goal with
         | H : Py.startswith (String _ _) _ = true |- _ =>
             apply startswith_cons in H as (? & ? & H); simplify_eq
         end.

(** X1: a step runs for every value of [--steps] that begins with its name,
    whatever follows the name; and a value other than ["all"] runs at most
    one of the four steps. *)
Theorem steps_select_at_most_one_step :
  (forall step rest, step_requested step (step +:+ rest) = true)
  /\ (forall steps s1 s2,
        steps <> "all" -> s1 ∈ step_names -> s2 ∈ step_names ->
        step_requested s1 steps = true -> step_requested s2 steps = true ->
        s1 = s2).
Proof.
  split.
  - intros step rest. unfold step_requested.
    by rewrite startswith_app, orb_true_r.
  - intros steps s1 s2 Hall H1 H2. unfold step_requested.
    apply String.eqb_neq in Hall. rewrite Hall. simpl. unfold step_names in *.
    repeat (apply elem_of_cons in H1 as [->|H1]);
      repeat (apply elem_of_cons in H2 as [->|H2]);
      try (by apply elem_of_nil in H1); try (by apply elem_of_nil in H2);
      intros Ha Hb; try reflexivity; exfalso; prefix_clash.
Qed.

(** X2: with a test selection that is not empty and a value of [--steps]
    that is not ["all"] and begins with none of the four names, the script
    runs no step at all and ends with success: the two calls of mkdir are
    the only processes, nothing is printed and no file changes. *)
Theorem main_unknown_steps_run_nothing E a cwd w :
  process_regression_list (read_testlist E (testlist_of a cwd)) (Args.test a)
    (Args.iterations a) <> [] ->
  Args.steps a <> "all" ->
  Forall (fun step => Py.startswith step (Args.steps a) = false) step_names ->
  main E a cwd w
    = (Return tt,
       start (SubprocessRun ["mkdir"; "-p"; Args.o a +:+ "/asm_tests"])
         (start (SubprocessRun ["mkdir"; "-p"; Args.o a]) w)).
Proof.
  intros Hsel Hall Hsteps. unfold main. cbv zeta.
  destruct (process_regression_list _ _ _) as [|t l]; [done|].
  apply String.eqb_neq in Hall. unfold step_requested. rewrite Hall.
  unfold step_names in Hsteps.
  repeat match goal with
         | H : Forall _ (_ :: _) |- _ => apply Forall_cons in H as [-> H]
         end.
  reflexivity.
Qed.

(** ** The commands of the simulators *)

Lemma search_iss_unset_path E iss isa pre entry post w :
  Forall (fun e => Yaml.iss e <> iss) pre ->
  Yaml.iss entry = iss ->
  environ E !! Yaml.path_var entry = None ->
  search_iss E iss isa (pre ++ entry :: post) w
    = (SysExit (Status 1),
       printing ["Found matching ISS: " +:+ iss;
                 "Please set the environment variable " +:+ Yaml.path_var entry]
         w).
Proof.
  intros Hpre Hentry Hpath. induction Hpre as [|e pre Hne _ IH]; simpl.
  - rewrite Hentry, String.eqb_refl.
    rewrite (bind_Return _ _ _ _ _ (print_printing _ _)).
    rewrite (bind_SysExit _ _ _ _ _ (get_env_var_unset _ _ _ Hpath)).
    by rewrite printing_printing.
  - apply String.eqb_neq in Hne. rewrite Hne. exact IH.
Qed.

(** X3: when the entry of the simulator is found and the environment
    variable it names is not set, [parse_iss_yaml] ends the script with
    status 1 after the line that asks for the variable; entries after the
    first one with the name are not looked at. *)
Theorem parse_iss_yaml_unset_path E iss iss_yaml isa pre entry post w :
  read_iss_yaml E iss_yaml = pre ++ entry :: post ->
  Forall (fun e => Yaml.iss e <> iss) pre ->
  Yaml.iss entry = iss ->
  environ E !! Yaml.path_var entry = None ->
  parse_iss_yaml E iss iss_yaml isa w
    = (SysExit (Status 1),
       printing ["Processing ISS setup file : " +:+ iss_yaml;
                 "Found matching ISS: " +:+ iss;
                 "Please set the environment variable " +:+ Yaml.path_var entry]
         w).
Proof.
  intros Hy Hpre Hentry Hpath. unfold parse_iss_yaml.
  rewrite (bind_Return _ _ _ _ _ (print_printing _ _)). rewrite Hy.
  rewrite (search_iss_unset_path E iss isa pre entry post _ Hpre Hentry Hpath).
  by rewrite printing_printing.
Qed.

(** A string in which the pattern does not occur is left as it is. *)
Lemma re_sub_absent pat repl s :
  Py.contains pat s = false -> Py.re_sub pat repl s = s.
Proof.
  unfold Py.re_sub. induction s as [|c s IH]; [done|].
  simpl. intros [Hhere Hrest]%orb_false_elim.
  simpl in Hhere. rewrite Hhere. by rewrite IH.
Qed.

(** A piece without the first character of the pattern is copied. *)
Lemma sub_from_copy a p repl pre s :
  all_chars (fun c => negb (Ascii.eqb a c)) pre = true ->
  Py.sub_from (String a p) repl 0 (pre +:+ s)
    = pre +:+ Py.sub_from (String a p) repl 0 s.
Proof.
  induction pre as [|c pre IH]; [done|].
  intros [Hc Hpre]%andb_prop. apply negb_true_iff in Hc.
  rewrite !append_cons. simpl. rewrite Hc. by rewrite IH.
Qed.

(** X4: a template in which [<elf>] does not occur is run as it is, with
    the redirection to the log after it, for a path of the program without
    a backslash: the missing placeholder is no error, and the program under
    test is not passed to the simulator. *)
Theorem get_iss_cmd_without_placeholder base_cmd elf log :
  no_backslash elf = true ->
  Py.contains "<elf>" base_cmd = false ->
  get_iss_cmd base_cmd elf log = base_cmd +:+ " &> " +:+ log.
Proof. intros _ Habs. unfold get_iss_cmd. by rewrite re_sub_absent. Qed.

(** X5: in a template with one [<elf>], after a piece without [<], the
    placeholder is replaced by the path as it is given, when the path has
    no backslash; the path is not looked through again, even when it holds
    [<elf>] itself. *)
Theorem get_iss_cmd_one_placeholder before after elf log :
  no_backslash elf = true ->
  all_chars (fun c => negb (Ascii.eqb "<" c)) before = true ->
  Py.contains "<elf>" after = false ->
  get_iss_cmd (before +:+ "<elf>" +:+ after) elf log
    = (before +:+ elf +:+ after) +:+ " &> " +:+ log.
Proof.
  intros _ Hb Ha. unfold get_iss_cmd, Py.re_sub.
  rewrite (sub_from_copy "<" "elf>" elf before _ Hb).
  change (Py.sub_from "<elf>" elf 0 ("<elf>" +:+ after))
    with (elf +:+ Py.sub_from "<elf>" elf 0 after).
  fold (Py.re_sub "<elf>" elf after). by rewrite re_sub_absent.
Qed.

(** ** The logs of the simulators *)

Lemma simulation_started test_list output_dir sims iss base test i :
  (iss, base) ∈ sims -> test ∈ test_list -> i ∈ Py.range (Yaml.iterations test) ->
  simulation output_dir iss base test i
    ∈ iss_sim_invocations test_list output_dir sims.
Proof.
  intros Hs Ht Hi. apply list_elem_of_In. unfold iss_sim_invocations.
  apply in_flat_map. exists (iss, base). split; [by apply list_elem_of_In|].
  right. apply in_flat_map. exists test. split; [by apply list_elem_of_In|].
  apply in_map_iff. exists i. split; [done|]. by apply list_elem_of_In.
Qed.

Lemma comparison_started test_list output_dir first second test i inv :
  test ∈ test_list -> i ∈ Py.range (Yaml.iterations test) ->
  inv ∈ comparison output_dir first second test i ->
  inv ∈ iss_cmp_invocations test_list output_dir first second.
Proof.
  intros Ht Hi Hinv. apply list_elem_of_In. unfold iss_cmp_invocations.
  apply in_flat_map. exists test. split; [by apply list_elem_of_In|].
  apply in_flat_map. exists i. split; by apply list_elem_of_In.
Qed.

(** X6: the simulation stage and then the comparison stage, for a list of
    two simulators that are set up, texts without a backslash and output
    that decodes.  Both stages return, and every comparison reads the logs
    that the simulations wrote: for every test and iteration the command
    [./iss_cmp] that the comparison stage has started names two logs, and
    for each of them the simulation stage has started a command that ends
    in the redirection to that log. *)
Theorem compared_logs_are_simulated E test_list output_dir iss iss_yaml isa
    verbose bases w a b test i :
  Py.split "," iss = [a; b] ->
  Forall2 (set_up E iss_yaml isa) [a; b] bases ->
  no_backslash output_dir = true ->
  Forall (fun test => no_backslash (Yaml.test test) = true) test_list ->
  no_backslash isa = true ->
  (forall cmd, decodes (spawn_shell E cmd) = true) ->
  test ∈ test_list ->
  i ∈ Py.range (Yaml.iterations test) ->
  let log name := output_dir +:+ "/" +:+ name +:+ "_sim/" +:+ Yaml.test test
                    +:+ "." +:+ Py.fmt_d i +:+ ".log" in
  let report := output_dir +:+ "/iss_regr.log" in
  exists w1 w2 cmd_first cmd_second,
    iss_sim E test_list output_dir iss iss_yaml isa verbose w = (Return tt, w1)
    /\ iss_cmp E test_list iss output_dir verbose w1 = (Return tt, w2)
    /\ Popen (cmd_first +:+ " &> " +:+ log (operands a b).1) ∈ started w1
    /\ Popen (cmd_second +:+ " &> " +:+ log (operands a b).2) ∈ started w1
    /\ Popen ("./iss_cmp " +:+ log (operands a b).1 +:+ " "
                +:+ log (operands a b).2 +:+ " " +:+ report +:+ " &>> " +:+ report)
         ∈ started w2.
Proof.
  intros Hsplit Hup _ _ _ Hdec Ht Hi log report.
  inversion Hup as [|? base_a ? bases' Ha Hup' ]; subst.
  inversion Hup' as [|? base_b ? bases'' Hb Hup'']; subst.
  inversion Hup''; subst. clear Hup' Hup''.
  destruct (iss_sim_loop_Return E test_list output_dir iss_yaml isa verbose
              [a; b] [base_a; base_b] w
              (Forall2_set_up_base_cmd _ _ _ _ _ Hup) Hdec) as (w1 & Hsim & Hst1).
  destruct (iss_cmp_two_Return E test_list iss output_dir verbose w1 a b Hsplit Hdec)
    as (summary & w2 & Hcmp & Hst2).
  assert (Hlog : forall name base, (name, base) ∈ [(a, base_a); (b, base_b)] ->
            Popen (Py.re_sub "<elf>"
                     (output_dir +:+ "/asm_tests/" +:+ Yaml.test test +:+ "."
                        +:+ Py.fmt_d i +:+ ".o") base
                   +:+ " &> " +:+ log name) ∈ started w1).
  { intros name base Hin. rewrite Hst1. apply elem_of_app. right.
    exact (simulation_started test_list output_dir _ name base test i Hin Ht Hi). }
  assert (Hfirst : exists base, ((operands a b).1, base) ∈ [(a, base_a); (b, base_b)]).
  { unfold operands. destruct (String.eqb b "spike") eqn:Hs; simpl.
    - apply String.eqb_eq in Hs. subst b. exists base_b. by right; left.
    - exists base_a. by left. }
  assert (Hsecond : exists base, ((operands a b).2, base) ∈ [(a, base_a); (b, base_b)]).
  { unfold operands. destruct (String.eqb b "spike"); simpl.
    - exists base_a. by left.
    - exists base_b. by right; left. }
  destruct Hfirst as [base1 H1]. destruct Hsecond as [base2 H2].
  exists w1, w2. eexists _, _.
  split; [by rewrite iss_sim_unfold, Hsplit|]. split; [exact Hcmp|].
  split; [exact (Hlog _ _ H1)|]. split; [exact (Hlog _ _ H2)|].
  rewrite Hst2. apply elem_of_app. right. apply elem_of_app. right.
  apply elem_of_app. left.
  apply (comparison_started test_list output_dir _ _ test i _ Ht Hi).
  unfold comparison, log, report. apply list_elem_of_In. right. left.
  f_equal. by rewrite !append_assoc.
Qed.

(** ** The comparison stage does not look at exit statuses *)

(** X7: whatever the simulator list, the tests, the files and the exit
    statuses of the commands are, the comparison stage returns when the
    output of its commands decodes: it neither exits nor raises. *)
Theorem iss_cmp_always_returns E test_list iss output_dir verbose w :
  (forall cmd, decodes (spawn_shell E cmd) = true) ->
  (iss_cmp E test_list iss output_dir verbose w).1 = Return tt.
Proof.
  intros Hdec.
  destruct (Py.split "," iss) as [|a [|b [|c l]]] eqn:Hsplit;
    try (unfold iss_cmp; by rewrite Hsplit).
  destruct (iss_cmp_two_Return E test_list iss output_dir verbose w a b Hsplit Hdec)
    as (summary & w' & Hrun & _).
  by rewrite Hrun.
Qed.

(** ** A simulator that is not set up *)

Lemma search_iss_None E iss isa yaml_data w :
  match find_iss iss yaml_data with
  | Some entry => environ E !! Yaml.path_var entry = None
  | None => True
  end ->
  exists w', search_iss E iss isa yaml_data w = (SysExit (Status 1), w')
             /\ started w' = started w.
Proof.
  unfold find_iss. induction yaml_data as [|e l IH]; simpl; intros Hnone.
  - by eexists.
  - destruct (String.eqb (Yaml.iss e) iss) eqn:He; [|by apply IH].
    rewrite (bind_Return _ _ _ _ _ (print_printing _ _)).
    rewrite (bind_SysExit _ _ _ _ _ (get_env_var_unset _ _ _ Hnone)).
    by eexists.
Qed.

Lemma parse_iss_yaml_None E iss iss_yaml isa w :
  iss_base_cmd E iss_yaml isa iss = None ->
  exists w', parse_iss_yaml E iss iss_yaml isa w = (SysExit (Status 1), w')
             /\ started w' = started w.
Proof.
  intros Hb. unfold parse_iss_yaml.
  rewrite (bind_Return _ _ _ _ _ (print_printing _ _)).
  destruct (search_iss_None E iss isa (read_iss_yaml E iss_yaml)
              (printing ["Processing ISS setup file : " +:+ iss_yaml] w))
    as (w1 & Hs & Hst); [|by exists w1].
  unfold iss_base_cmd in Hb.
  destruct (find_iss iss (read_iss_yaml E iss_yaml)) as [entry|]; [|done].
  by destruct (environ E !! Yaml.path_var entry).
Qed.

Lemma iss_sim_body_None E test_list output_dir iss_yaml isa verbose iss w :
  iss_base_cmd E iss_yaml isa iss = None ->
  exists w',
    iss_sim_body E test_list output_dir iss_yaml isa verbose iss w
      = (SysExit (Status 1), w')
    /\ started w' = started w.
Proof.
  intros Hb. unfold iss_sim_body. cbv zeta.
  destruct (parse_iss_yaml_None E iss iss_yaml isa w Hb) as (w1 & Hparse & Hst).
  rewrite (bind_SysExit _ _ _ _ _ Hparse). by exists w1.
Qed.

(** X8: when a name of the simulator list is not set up (it is not in
    [iss.yaml], or its path variable is not set) and the names before it
    are, the simulation stage ends the script with status 1 at that name,
    for texts without a backslash and output that decodes: the simulations
    of the names before it have all been started, and for the name itself
    and the names after it nothing is started, not even the mkdir of the
    log directory. *)
Theorem iss_sim_stops_at_unknown_simulator E test_list output_dir iss_list
    iss_yaml isa verbose before bases unknown after w :
  Py.split "," iss_list = before ++ unknown :: after ->
  Forall2 (set_up E iss_yaml isa) before bases ->
  iss_base_cmd E iss_yaml isa unknown = None ->
  no_backslash output_dir = true ->
  Forall (fun test => no_backslash (Yaml.test test) = true) test_list ->
  no_backslash isa = true ->
  (forall cmd, decodes (spawn_shell E cmd) = true) ->
  exists w',
    iss_sim E test_list output_dir iss_list iss_yaml isa verbose w
      = (SysExit (Status 1), w')
    /\ started w' = started w
         ++ iss_sim_invocations test_list output_dir (zip before bases).
Proof.
  intros Hsplit Hbefore Hunknown _ _ _ Hdec.
  rewrite iss_sim_unfold, Hsplit, for_app.
  destruct (iss_sim_loop_Return E test_list output_dir iss_yaml isa verbose
              before bases w (Forall2_set_up_base_cmd _ _ _ _ _ Hbefore) Hdec)
    as (w1 & Hrun & Hst1).
  rewrite (bind_Return _ _ _ _ _ Hrun). simpl.
  destruct (iss_sim_body_None E test_list output_dir iss_yaml isa verbose unknown
              w1 Hunknown) as (w2 & Hbody & Hst2).
  rewrite (bind_SysExit _ _ _ _ _ Hbody). exists w2. split; [done|].
  by rewrite Hst2, Hst1.
Qed.

(** ** The generator stage *)

(** X9: when the RTL simulator is not in [simulator.yaml], [gen] ends the
    script with status 1 before it starts any process, whatever the flags
    [--so] and [--co] are. *)
Theorem gen_unknown_simulator E test_list simulator simulator_yaml output_dir
    sim_only compile_only lsf_cmd seed cwd verbose w :
  Forall (fun e => Yaml.tool e <> simulator) (read_simulator_yaml E simulator_yaml) ->
  gen E test_list simulator simulator_yaml output_dir sim_only compile_only
    lsf_cmd seed cwd verbose w
  = (SysExit (Status 1),
     printing ["Processing simulator setup file : " +:+ simulator_yaml;
               "Cannot find RTL simulator " +:+ simulator] w).
Proof.
  intros Habs. unfold gen.
  assert (Hg : get_generator_cmd E simulator simulator_yaml w
               = (SysExit (Status 1),
                  printing ["Processing simulator setup file : " +:+ simulator_yaml;
                            "Cannot find RTL simulator " +:+ simulator] w)).
  { unfold get_generator_cmd.
    rewrite (bind_Return _ _ _ _ _ (print_printing _ _)).
    rewrite (search_simulator_absent _ _ _ Habs). by rewrite printing_printing. }
  by rewrite (bind_SysExit _ _ _ _ _ Hg).
Qed.

Lemma get_generator_cmd_found E simulator simulator_yaml pre entry post w :
  read_simulator_yaml E simulator_yaml = pre ++ entry :: post ->
  Forall (fun e => Yaml.tool e <> simulator) pre ->
  Yaml.tool entry = simulator ->
  get_generator_cmd E simulator simulator_yaml w
    = (Return (Yaml.compile_cmd entry, Yaml.sim_cmd entry),
       printing ["Processing simulator setup file : " +:+ simulator_yaml;
                 "Found matching simulator: " +:+ simulator] w).
Proof.
  intros Hy Hpre Hentry. unfold get_generator_cmd.
  rewrite (bind_Return _ _ _ _ _ (print_printing _ _)).
  rewrite Hy, (search_simulator_first _ _ _ _ _ Hpre Hentry).
  by rewrite printing_printing.
Qed.

Lemma check_output_succeeds E argv limit text w :
  returncode (spawn E argv) = 0 ->
  seconds (spawn E argv) <= limit ->
  decodes (spawn E argv) = true ->
  check_output E argv (Some limit) text w
    = (Return (captured (spawn E argv)), start (CheckOutput argv (Some limit)) w).
Proof.
  intros Hrc Hsec Hdec. unfold check_output.
  apply Z.ltb_ge in Hsec. rewrite Hsec, Hdec, andb_false_r.
  apply Z.eqb_eq in Hrc. by rewrite Hrc.
Qed.

(** The command line that the stage builds for a run is the command line
    written out. *)
Lemma gen_run_cmd_generator_run lsf_cmd sim_cmd output_dir test rand_seed :
  CheckOutput (Py.split_ws (gen_run_cmd lsf_cmd sim_cmd output_dir test rand_seed))
    (Some 300)
  = generator_run lsf_cmd sim_cmd output_dir test rand_seed.
Proof. unfold gen_run_cmd, generator_run. by rewrite !append_assoc. Qed.

(** One run of the generator that succeeds. *)
Lemma gen_run_body_Return E lsf_cmd sim_cmd output_dir seed verbose output test w :
  (forall argv, returncode (spawn E argv) = 0 /\ seconds (spawn E argv) <= 300
                /\ decodes (spawn E argv) = true) ->
  exists output' w',
    gen_run_body E lsf_cmd sim_cmd output_dir seed verbose output test w
      = (Return output', w')
    /\ started w' = started w
         ++ (if bool_decide (0 < Yaml.iterations test)
             then [generator_run lsf_cmd sim_cmd output_dir test
                     (run_seed E seed (drawn w) 0)]
             else [])
    /\ drawn w' = (if bool_decide (0 < Yaml.iterations test)
                   then if 0 <=? seed then drawn w else S (drawn w)
                   else drawn w).
Proof.
  intros Hok. unfold gen_run_body.
  destruct (Z.ltb_spec 0 (Yaml.iterations test)) as [Hit|Hit].
  - rewrite bool_decide_eq_true_2 by done.
    unfold get_seed, run_seed. rewrite Nat.add_0_r.
    destruct (0 <=? seed).
    + rewrite (bind_Return _ _ w seed w) by done.
      rewrite (bind_Return _ _ _ _ _ (print_printing _ _)).
      rewrite (bind_Return _ _ _ _ _ (when_printing _ _ _)).
      set (argv := Py.split_ws _).
      destruct (Hok argv) as (Hrc & Hsec & Hdec).
      unfold except_CalledProcessError. unfold bind at 1.
      rewrite (check_output_succeeds E argv 300 true _ Hrc Hsec Hdec).
      rewrite (bind_Return _ _ _ _ _ (when_printing _ _ _)).
      eexists _, _. split; [reflexivity|]. simpl. split; [|done].
      unfold argv. by rewrite gen_run_cmd_generator_run.
    + unfold bind at 1, getrandbits.
      rewrite (bind_Return _ _ _ _ _ (print_printing _ _)).
      rewrite (bind_Return _ _ _ _ _ (when_printing _ _ _)).
      set (argv := Py.split_ws _).
      destruct (Hok argv) as (Hrc & Hsec & Hdec).
      unfold except_CalledProcessError. unfold bind at 1.
      rewrite (check_output_succeeds E argv 300 true _ Hrc Hsec Hdec).
      rewrite (bind_Return _ _ _ _ _ (when_printing _ _ _)).
      eexists _, _. split; [reflexivity|]. simpl. split; [|done].
      unfold argv. by rewrite gen_run_cmd_generator_run.
  - rewrite bool_decide_eq_false_2 by lia.
    eexists _, _. split; [reflexivity|]. by rewrite app_nil_r.
Qed.

Lemma gen_runs_cons E lsf_cmd sim_cmd output_dir seed first_draw test test_list :
  gen_runs E lsf_cmd sim_cmd output_dir seed first_draw (test :: test_list)
  = (if bool_decide (0 < Yaml.iterations test)
     then [generator_run lsf_cmd sim_cmd output_dir test
             (run_seed E seed first_draw 0)]
     else [])
    ++ gen_runs E lsf_cmd sim_cmd output_dir seed
         (if bool_decide (0 < Yaml.iterations test)
          then if 0 <=? seed then first_draw else S first_draw
          else first_draw)
         test_list.
Proof.
  unfold gen_runs. rewrite filter_cons.
  destruct (decide (0 < Yaml.iterations test)) as [Hpos|Hpos].
  - rewrite bool_decide_eq_true_2 by done. simpl. f_equal.
    apply imap_ext. intros j t _. simpl. unfold run_seed.
    destruct (0 <=? seed); [done|].
    by replace (S first_draw + j)%nat with (first_draw + S j)%nat by lia.
  - by rewrite bool_decide_eq_false_2 by done.
Qed.

(** The runs of the generator when all of them succeed. *)
Lemma gen_run_loop_Return E lsf_cmd sim_cmd output_dir seed verbose test_list :
  (forall argv, returncode (spawn E argv) = 0 /\ seconds (spawn E argv) <= 300
                /\ decodes (spawn E argv) = true) ->
  forall output w,
    exists output' w',
      for_with test_list (gen_run_body E lsf_cmd sim_cmd output_dir seed verbose)
        output w = (Return output', w')
      /\ started w' = started w
           ++ gen_runs E lsf_cmd sim_cmd output_dir seed (drawn w) test_list.
Proof.
  intros Hok. induction test_list as [|test l IH]; intros output w; simpl.
  - eexists _, _. split; [reflexivity|]. by rewrite app_nil_r.
  - destruct (gen_run_body_Return E lsf_cmd sim_cmd output_dir seed verbose output
                test w Hok) as (o1 & w1 & Hbody & Hst1 & Hd1).
    rewrite (bind_Return _ _ _ _ _ Hbody).
    destruct (IH o1 w1) as (o2 & w2 & Hloop & Hst2).
    exists o2, w2. split; [exact Hloop|].
    rewrite Hst2, Hst1, Hd1, gen_runs_cons, <- app_assoc. reflexivity.
Qed.

(** X10: when the RTL simulator is set up, the output directory and the
    directory of the script have no backslash, the output of every command
    decodes and every run of the generator ends in time with status 0, [gen]
    returns, and the processes it has started are, in this order: the build
    commands in the order of the list unless [--so] is set, whatever they
    exit with, and then, unless [--co] is set, one run with the time limit
    300 for every test with a positive number of iterations.  A seed that is
    not negative is the seed of every run; with a negative seed the runs
    take successive random numbers, one each. *)
Theorem gen_processes E test_list simulator simulator_yaml output_dir sim_only
    compile_only lsf_cmd seed cwd verbose pre entry post w :
  read_simulator_yaml E simulator_yaml = pre ++ entry :: post ->
  Forall (fun e => Yaml.tool e <> simulator) pre ->
  Yaml.tool entry = simulator ->
  no_backslash output_dir = true ->
  no_backslash cwd = true ->
  (forall cmd, decodes (spawn_shell E cmd) = true) ->
  (forall argv, returncode (spawn E argv) = 0 /\ seconds (spawn E argv) <= 300
                /\ decodes (spawn E argv) = true) ->
  let sim_cmd :=
    Py.re_sub "<cwd>" cwd (Py.re_sub "<out>" output_dir (Yaml.sim_cmd entry)) in
  exists w',
    gen E test_list simulator simulator_yaml output_dir sim_only compile_only
      lsf_cmd seed cwd verbose w = (Return tt, w')
    /\ started w' = started w
         ++ (if truthy sim_only then []
             else gen_builds output_dir cwd (Yaml.compile_cmd entry))
         ++ (if truthy compile_only then []
             else gen_runs E lsf_cmd sim_cmd output_dir seed (drawn w) test_list).
Proof.
  intros Hy Hpre Hentry _ _ Hdec Hok sim_cmd. unfold gen.
  rewrite (bind_Return _ _ _ _ _
             (get_generator_cmd_found E _ _ _ _ _ w Hy Hpre Hentry)).
  cbv beta iota zeta.
  set (w0 := printing _ w).
  assert (Hbuild : exists output w1,
            (if truthy sim_only then ret None
             else print "Building RISC-V instruction generator" ;;
                  for_with (Yaml.compile_cmd entry)
                    (gen_compile_body E output_dir cwd verbose) None) w0
            = (Return output, w1)
            /\ started w1 = started w
                 ++ (if truthy sim_only then []
                     else gen_builds output_dir cwd (Yaml.compile_cmd entry))
            /\ drawn w1 = drawn w).
  { destruct (truthy sim_only).
    - exists None, w0. split; [done|]. split; [|done]. simpl. by rewrite app_nil_r.
    - rewrite (bind_Return _ _ _ _ _ (print_printing _ _)).
      destruct (gen_compile_loop_Return E output_dir cwd verbose
                  (Yaml.compile_cmd entry) None
                  (printing ["Building RISC-V instruction generator"] w0) Hdec)
        as (o & w1 & Hloop & Hst & Hd).
      exists o, w1. split; [exact Hloop|]. split; [exact Hst|exact Hd]. }
  destruct Hbuild as (output & w1 & Hbuild & Hst1 & Hd1).
  rewrite (bind_Return _ _ _ _ _ Hbuild).
  destruct (truthy compile_only).
  - exists w1. split; [done|]. by rewrite Hst1, app_nil_r.
  - rewrite (bind_Return _ _ _ _ _ (print_printing _ _)).
    destruct (gen_run_loop_Return E lsf_cmd sim_cmd output_dir seed verbose
                test_list Hok output
                (printing ["Running RISC-V instruction generator"] w1))
      as (o2 & w2 & Hloop & Hst2).
    fold sim_cmd. rewrite (bind_Return _ _ _ _ _ Hloop).
    exists w2. split; [done|]. rewrite Hst2. simpl.
    by rewrite Hst1, Hd1, <- app_assoc.
Qed.

Lemma started_since_refl w P : started_since w P w.
Proof. exists []. by rewrite app_nil_r. Qed.

Lemma started_since_trans w1 w2 w3 P :
  started_since w1 P w2 -> started_since w2 P w3 -> started_since w1 P w3.
Proof.
  intros (n1 & H1 & F1) (n2 & H2 & F2). exists (n1 ++ n2).
  rewrite H2, H1, <- app_assoc. split; [done|]. by apply Forall_app.
Qed.

Lemma started_since_eq w w' P : started w' = started w -> started_since w P w'.
Proof. intros Hst. exists []. by rewrite app_nil_r. Qed.

Lemma search_simulator_started simulator yaml_data w :
  started (search_simulator simulator yaml_data w).2 = started w.
Proof.
  induction yaml_data as [|e l IH]; simpl; [done|].
  by destruct (String.eqb (Yaml.tool e) simulator).
Qed.

(** One run of the generator: when the body returns, the run has succeeded
    in time. *)
Lemma gen_run_body_ends E lsf_cmd sim_cmd output_dir seed verbose output test w :
  ends (gen_run_body E lsf_cmd sim_cmd output_dir seed verbose output test w)
    (fun _ w' => started_since w (gen_process_ok E) w')
    (fun _ _ => True).
Proof.
  unfold gen_run_body. destruct (0 <? Yaml.iterations test); [|apply started_since_refl].
  eapply (ends_bind _ _ _ (fun _ w1 => started w1 = started w)).
  { unfold get_seed, getrandbits. by destruct (0 <=? seed). }
  intros rand_seed w1 Hw1.
  rewrite (bind_Return _ _ _ _ _ (print_printing _ _)).
  rewrite (bind_Return _ _ _ _ _ (when_printing _ _ _)).
  set (argv := Py.split_ws _).
  unfold bind at 1, except_CalledProcessError, check_output.
  destruct (Z.ltb_spec 300 (seconds (spawn E argv))) as [Hsec|Hsec]; [done|].
  destruct (decodes (spawn E argv)); simpl; [|done].
  destruct (Z.eqb_spec (returncode (spawn E argv)) 0) as [Hrc|Hrc].
  - rewrite (bind_Return _ _ _ _ _ (when_printing _ _ _)). simpl.
    exists [CheckOutput argv (Some 300)]. simpl. rewrite Hw1.
    split; [done|]. by repeat constructor.
  - destruct output; [|done].
    by rewrite (bind_Return _ _ _ _ _ (print_printing _ _)).
Qed.

(** One build command: a command of the shell, whatever comes of it. *)
Lemma gen_compile_body_ends E output_dir cwd verbose output cmd w :
  ends (gen_compile_body E output_dir cwd verbose output cmd w)
    (fun _ w' => started_since w (gen_process_ok E) w')
    (fun _ _ => True).
Proof.
  unfold gen_compile_body.
  rewrite (bind_Return _ _ _ _ _ (when_printing _ _ _)).
  unfold bind at 1. rewrite run_cmd_outcome.
  destruct (Sh.run E _ _).2 as [out|]; [|done].
  rewrite (bind_Return _ _ _ _ _ (when_printing _ _ _)). simpl.
  eexists [_]. split; [reflexivity|]. by repeat constructor.
Qed.

(** X11: when [gen] returns, every run of the generator that it has started
    had the time limit 300 and has ended within it with status 0: a run
    that takes longer or exits with another status ends the script. *)
Theorem gen_returns_after_success_only E test_list simulator simulator_yaml
    output_dir sim_only compile_only lsf_cmd seed cwd verbose w w' :
  gen E test_list simulator simulator_yaml output_dir sim_only compile_only
    lsf_cmd seed cwd verbose w = (Return tt, w') ->
  started_since w (gen_process_ok E) w'.
Proof.
  intros Hgen.
  assert (Hends : ends (gen E test_list simulator simulator_yaml output_dir sim_only
                          compile_only lsf_cmd seed cwd verbose w)
                    (fun _ w' => started_since w (gen_process_ok E) w')
                    (fun _ _ => True)); [|by rewrite Hgen in Hends].
  clear Hgen w'. unfold gen.
  eapply (ends_bind _ _ _ (fun _ w1 => started w1 = started w)).
  { unfold get_generator_cmd.
    rewrite (bind_Return _ _ _ _ _ (print_printing _ _)).
    pose proof (search_simulator_started simulator
                  (read_simulator_yaml E simulator_yaml)
                  (printing ["Processing simulator setup file : " +:+ simulator_yaml] w))
      as Hst.
    unfold ends. by destruct (search_simulator _ _ _) as [[[c s]|?|?] w1]. }
  intros [compile_cmd sim_cmd] w1 Hw1. cbv beta iota zeta.
  eapply (ends_bind _ _ _ (fun _ w2 => started_since w (gen_process_ok E) w2)).
  { destruct (truthy sim_only); [by apply started_since_eq|].
    rewrite (bind_Return _ _ _ _ _ (print_printing _ _)).
    apply (for_with_ends compile_cmd _
             (fun _ _ w2 => started_since w (gen_process_ok E) w2));
      [|by apply started_since_eq].
    intros done cmd o w2 _ H2.
    eapply ends_weaken; [apply gen_compile_body_ends| |done].
    intros o3 w3 H3. by apply (started_since_trans _ w2). }
  intros output w2 Hw2.
  destruct (truthy compile_only); [done|].
  rewrite (bind_Return _ _ _ _ _ (print_printing _ _)).
  eapply ends_bind; [|intros o w3 H3; exact H3].
  apply (for_with_ends test_list _
           (fun _ _ w3 => started_since w (gen_process_ok E) w3)); [|done].
  intros done test o w3 _ H3.
  eapply ends_weaken; [apply gen_run_body_ends| |done].
  intros o4 w4 H4. by apply (started_since_trans _ w3).
Qed.

(** ** Argument vectors *)

Lemma no_space_app s t : no_space (s +:+ t) = no_space s && no_space t.
Proof. apply all_chars_app. Qed.

Lemma one_word_app_l s t :
  one_word s = true -> no_space t = true -> one_word (s +:+ t) = true.
Proof.
  unfold one_word. intros [Hne Hs]%andb_prop Ht.
  rewrite no_space_app, Hs, Ht. by destruct s.
Qed.

Lemma one_word_app_r s t :
  no_space s = true -> one_word t = true -> one_word (s +:+ t) = true.
Proof.
  unfold one_word. intros Hs [Hne Ht]%andb_prop.
  rewrite no_space_app, Hs, Ht. destruct s; [|done]. by destruct t.
Qed.

Lemma is_digit_not_space c : is_digit c = true -> negb (Py.isspace c) = true.
Proof. destruct c as [[] [] [] [] [] [] [] []]; vm_compute; by intros. Qed.

Lemma fmt_d_one_word z : one_word (Py.fmt_d z) = true.
Proof.
  assert (Hu : forall d, one_word (NilZero.string_of_uint d) = true).
  { intros d. unfold NilZero.string_of_uint.
    pose proof (all_chars_impl _ _ _ is_digit_not_space (string_of_uint_digits d)) as Hd.
    unfold one_word, no_space. destruct d; simpl in *; try done; by rewrite Hd. }
  unfold Py.fmt_d. destruct (Z.to_int z) as [d|d]; simpl; [apply Hu|].
  pose proof (Hu d) as Hd. unfold one_word, no_space in *. simpl.
  by apply andb_prop in Hd as [_ ->].
Qed.

(** White space between two strings separates their words. *)
Lemma split_from_app_space cur a b :
  Py.split_from cur (a +:+ " " +:+ b) = Py.split_from cur a ++ Py.split_from "" b.
Proof.
  revert cur. induction a as [|c a IH]; intros cur.
  - by destruct cur.
  - rewrite append_cons. simpl. destruct (Py.isspace c).
    + destruct cur; by rewrite IH.
    + by rewrite IH.
Qed.

Lemma split_ws_app_space a b :
  Py.split_ws (a +:+ " " +:+ b) = Py.split_ws a ++ Py.split_ws b.
Proof. apply split_from_app_space. Qed.

Lemma split_from_no_space cur w :
  no_space w = true ->
  Py.split_from cur w = match cur +:+ w with EmptyString => [] | cw => [cw] end.
Proof.
  revert cur. induction w as [|c w IH]; intros cur Hw.
  - simpl. rewrite append_nil_r. by destruct cur.
  - unfold no_space in Hw. simpl in Hw.
    apply andb_prop in Hw as [Hc%negb_true_iff Hw]. simpl. rewrite Hc.
    rewrite (IH _ Hw), append_assoc. reflexivity.
Qed.

Lemma split_ws_one_word w : one_word w = true -> Py.split_ws w = [w].
Proof.
  unfold one_word. intros [Hne Hw]%andb_prop. unfold Py.split_ws.
  rewrite split_from_no_space by done. by destruct w.
Qed.

(** Trailing white space adds no word. *)
Lemma split_from_rstrip cur s : Py.split_from cur (Py.rstrip s) = Py.split_from cur s.
Proof.
  revert cur. induction s as [|c s IH]; intros cur; [done|]. simpl.
  destruct (Py.rstrip s) as [|c' r] eqn:Hr.
  - destruct (Py.isspace c) eqn:Hc; simpl; rewrite ?Hc.
    + destruct cur; by rewrite <- IH.
    + by rewrite <- IH.
  - simpl. destruct (Py.isspace c); [destruct cur|]; by rewrite <- IH.
Qed.

Lemma split_ws_join_sp ws :
  Forall (fun w => one_word w = true) ws -> Py.split_ws (Py.join_sp ws) = ws.
Proof.
  induction 1 as [|w l Hw Hl IH]; [done|]. destruct l as [|w' l].
  - simpl. by apply split_ws_one_word.
  - change (Py.join_sp (w :: w' :: l)) with (w +:+ " " +:+ Py.join_sp (w' :: l)).
    rewrite split_ws_app_space, IH. by rewrite split_ws_one_word.
Qed.

(** X12: the argument vector of a run of the generator, for an output
    directory, a test name and a UVM test name without white space: the
    words of the LSF command, the words of the command of the simulator,
    and then the six arguments that name the test, the number of
    iterations, the assembly file, the seed and the log. *)
Theorem gen_run_argv lsf_cmd sim_cmd output_dir test rand_seed :
  no_space output_dir = true ->
  no_space (Yaml.test test) = true ->
  no_space (Yaml.uvm_test test) = true ->
  Py.split_ws (gen_run_cmd lsf_cmd sim_cmd output_dir test rand_seed)
    = Py.split_ws lsf_cmd ++ Py.split_ws sim_cmd
        ++ gen_run_args output_dir test rand_seed.
Proof.
  intros Ho Ht Hu.
  assert (Hcmd : gen_run_cmd lsf_cmd sim_cmd output_dir test rand_seed
                 = lsf_cmd +:+ " " +:+ Py.rstrip sim_cmd +:+ " "
                     +:+ Py.join_sp (gen_run_args output_dir test rand_seed)).
  { unfold gen_run_cmd, gen_run_args, Py.join_sp. rewrite !append_assoc.
    reflexivity. }
  rewrite Hcmd, !split_ws_app_space. f_equal.
  unfold Py.split_ws at 1. rewrite split_from_rstrip. f_equal.
  apply split_ws_join_sp. unfold gen_run_args.
  pose proof (fmt_d_one_word (Yaml.iterations test)) as Hn.
  pose proof (fmt_d_one_word rand_seed) as Hs.
  assert (Hnn : no_space (Py.fmt_d (Yaml.iterations test)) = true)
    by by apply andb_prop in Hn as [_ ?].
  assert (Hsn : no_space (Py.fmt_d rand_seed) = true)
    by by apply andb_prop in Hs as [_ ?].
  repeat constructor; unfold one_word;
    rewrite ?no_space_app, ?Ho, ?Ht, ?Hu, ?Hnn, ?Hsn; try reflexivity.
  by destruct output_dir.
Qed.

(** ** The compilation stage *)

Lemma asm_prefix_one_word output_dir test i suffix :
  no_space output_dir = true ->
  no_space (Yaml.test test) = true ->
  no_space suffix = true ->
  one_word (asm_prefix output_dir test i +:+ suffix) = true.
Proof.
  intros Ho Ht Hs. pose proof (fmt_d_one_word i) as Hi.
  assert (Hin : no_space (Py.fmt_d i) = true) by by apply andb_prop in Hi as [_ ?].
  unfold asm_prefix, one_word. rewrite !no_space_app, Ho, Ht, Hin, Hs.
  by destruct output_dir.
Qed.

Lemma gcc_cmd_argv gcc isa mabi asm elf :
  no_space isa = true -> no_space mabi = true ->
  one_word asm = true -> one_word elf = true ->
  Py.split_ws (gcc +:+ " -march=" +:+ isa +:+ " -mabi=" +:+ mabi
                 +:+ " -static -mcmodel=medany              -fvisibility=hidden -nostdlib              -nostartfiles              -Tscripts/link.ld "
                 +:+ asm +:+ " -o " +:+ elf)
    = Py.split_ws gcc
        ++ ["-march=" +:+ isa; "-mabi=" +:+ mabi; "-static"; "-mcmodel=medany";
            "-fvisibility=hidden"; "-nostdlib"; "-nostartfiles";
            "-Tscripts/link.ld"; asm; "-o"; elf].
Proof.
  intros Hisa Hmabi Hasm Helf.
  assert (Hcmd : gcc +:+ " -march=" +:+ isa +:+ " -mabi=" +:+ mabi
                   +:+ " -static -mcmodel=medany              -fvisibility=hidden -nostdlib              -nostartfiles              -Tscripts/link.ld "
                   +:+ asm +:+ " -o " +:+ elf
                 = gcc +:+ " " +:+ ("-march=" +:+ isa) +:+ " " +:+ ("-mabi=" +:+ mabi)
                     +:+ " " +:+ "-static -mcmodel=medany              -fvisibility=hidden -nostdlib              -nostartfiles              -Tscripts/link.ld"
                     +:+ " " +:+ asm +:+ " " +:+ "-o" +:+ " " +:+ elf).
  { rewrite !append_assoc. reflexivity. }
  rewrite Hcmd, !split_ws_app_space.
  rewrite (split_ws_one_word ("-march=" +:+ isa))
    by (unfold one_word; by rewrite no_space_app, Hisa).
  rewrite (split_ws_one_word ("-mabi=" +:+ mabi))
    by (unfold one_word; by rewrite no_space_app, Hmabi).
  rewrite (split_ws_one_word asm), (split_ws_one_word elf) by done.
  reflexivity.
Qed.

Lemma objcopy_cmd_argv objcopy elf binary :
  one_word elf = true -> one_word binary = true ->
  Py.split_ws (objcopy +:+ " -O binary " +:+ elf +:+ " " +:+ binary)
    = Py.split_ws objcopy ++ ["-O"; "binary"; elf; binary].
Proof.
  intros Helf Hbin.
  assert (Hcmd : objcopy +:+ " -O binary " +:+ elf +:+ " " +:+ binary
                 = objcopy +:+ " " +:+ "-O" +:+ " " +:+ "binary" +:+ " " +:+ elf
                     +:+ " " +:+ binary) by reflexivity.
  rewrite Hcmd, !split_ws_app_space.
  rewrite (split_ws_one_word elf), (split_ws_one_word binary) by done.
  reflexivity.
Qed.

Lemma gcc_compile_unfold E test_list output_dir isa mabi verbose :
  gcc_compile E test_list output_dir isa mabi verbose
    = for_ test_list (fun test =>
        for_ (Py.range (Yaml.iterations test))
          (gcc_compile_body E output_dir isa mabi verbose test)).
Proof. reflexivity. Qed.

Lemma check_output_unlimited E argv w :
  check_output E argv None false w
    = (if returncode (spawn E argv) =? 0
       then Return (captured (spawn E argv))
       else Raise (CalledProcessError (returncode (spawn E argv)) argv
                     (captured (spawn E argv))),
       start (CheckOutput argv None) w).
Proof. unfold check_output. simpl. by destruct (returncode (spawn E argv) =? 0). Qed.

(** One compilation when the variables are set and both processes
    succeed. *)
Lemma gcc_compile_body_Return E output_dir isa mabi verbose test i gcc objcopy w :
  environ E !! "RISCV_GCC" = Some gcc ->
  environ E !! "RISCV_OBJCOPY" = Some objcopy ->
  (forall argv, returncode (spawn E argv) = 0) ->
  no_space output_dir = true -> no_space isa = true -> no_space mabi = true ->
  no_space (Yaml.test test) = true ->
  exists w',
    gcc_compile_body E output_dir isa mabi verbose test i w = (Return tt, w')
    /\ started w' = started w
         ++ [CheckOutput (gcc_argv gcc isa mabi (asm_prefix output_dir test i)) None;
             CheckOutput (objcopy_argv objcopy (asm_prefix output_dir test i)) None].
Proof.
  intros Hgcc Hobjcopy Hok Ho Hisa Hmabi Ht. unfold gcc_compile_body. cbv zeta.
  assert (Hw : forall suffix, no_space suffix = true ->
                 one_word (asm_prefix output_dir test i +:+ suffix) = true)
    by (intros; by apply asm_prefix_one_word).
  rewrite (bind_Return _ _ _ _ _ (get_env_var_set _ _ _ _ Hgcc)).
  rewrite (bind_Return _ _ _ _ _ (print_printing _ _)).
  rewrite (bind_Return _ _ _ _ _ (when_printing _ _ _)).
  rewrite gcc_cmd_argv by (done || by apply Hw).
  unfold bind at 1. rewrite check_output_unlimited, Hok. simpl.
  rewrite (bind_Return _ _ _ _ _ (when_printing _ _ _)).
  rewrite (bind_Return _ _ _ _ _ (print_printing _ _)).
  rewrite (bind_Return _ _ _ _ _ (get_env_var_set _ _ _ _ Hobjcopy)).
  rewrite objcopy_cmd_argv by by apply Hw.
  unfold bind at 1. rewrite check_output_unlimited, Hok. simpl.
  rewrite when_printing. eexists. split; [reflexivity|]. simpl.
  by rewrite <- app_assoc.
Qed.

(** X13: when the two variables of the tool chain are set, every process
    succeeds, and the ISA, the ABI, the output directory and the test names
    have no white space, [gcc_compile] returns after it has started, for
    every test and every iteration in order, the compiler on the [.S] file
    with the [.o] file as its output, and then objcopy from that [.o] file to
    the [.bin] file, none of them with a time limit. *)
Theorem gcc_compile_processes E test_list output_dir isa mabi verbose gcc objcopy w :
  environ E !! "RISCV_GCC" = Some gcc ->
  environ E !! "RISCV_OBJCOPY" = Some objcopy ->
  (forall argv, returncode (spawn E argv) = 0) ->
  no_space output_dir = true -> no_space isa = true -> no_space mabi = true ->
  Forall (fun test => no_space (Yaml.test test) = true) test_list ->
  exists w',
    gcc_compile E test_list output_dir isa mabi verbose w = (Return tt, w')
    /\ started w' = started w
         ++ gcc_compile_invocations gcc objcopy isa mabi test_list output_dir.
Proof.
  intros Hgcc Hobjcopy Hok Ho Hisa Hmabi Htests. rewrite gcc_compile_unfold.
  apply (for_started test_list _
           (fun test =>
              flat_map (fun i =>
                [CheckOutput (gcc_argv gcc isa mabi (asm_prefix output_dir test i)) None;
                 CheckOutput (objcopy_argv objcopy (asm_prefix output_dir test i)) None])
                (Py.range (Yaml.iterations test)))).
  intros test w0 Hin. rewrite Forall_forall in Htests.
  apply (for_started (Py.range (Yaml.iterations test))
           (gcc_compile_body E output_dir isa mabi verbose test)).
  intros i w1 _.
  by apply (gcc_compile_body_Return E output_dir isa mabi verbose test i gcc objcopy);
    try apply Htests.
Qed.

Lemma gcc_compile_failure_since E w w1 f w' :
  started_since w (gcc_process_ok E) w1 ->
  gcc_compile_failure E w1 f w' ->
  gcc_compile_failure E w f w'.
Proof.
  intros H1. destruct f as [arg|[| status argv out | |]]; simpl; [|done| |done..].
  - intros [-> H2]. split; [done|]. by apply (started_since_trans _ w1).
  - intros (Hs & Hne & new & Hst & Hnew). split; [done|]. split; [done|].
    destruct H1 as (n1 & Hst1 & Hn1). exists (n1 ++ new).
    rewrite Hst, Hst1, <- !app_assoc. split; [done|]. by apply Forall_app.
Qed.

(** One compilation, however it ends. *)
Lemma gcc_compile_body_ends E output_dir isa mabi verbose test i w :
  ends (gcc_compile_body E output_dir isa mabi verbose test i w)
    (fun _ w' => started_since w (gcc_process_ok E) w')
    (gcc_compile_failure E w).
Proof.
  unfold gcc_compile_body. cbv zeta. unfold get_env_var.
  destruct (environ E !! "RISCV_GCC") as [gcc|].
  2:{ unfold bind, print, sys_exit. simpl.
      split; [done|]. by apply started_since_eq. }
  rewrite (bind_Return _ _ w gcc w) by done.
  rewrite (bind_Return _ _ _ _ _ (print_printing _ _)).
  rewrite (bind_Return _ _ _ _ _ (when_printing _ _ _)).
  set (argv1 := Py.split_ws _).
  unfold bind at 1. rewrite check_output_unlimited.
  destruct (Z.eqb_spec (returncode (spawn E argv1)) 0) as [Hrc1|Hrc1].
  2:{ simpl. split; [done|]. split; [done|]. by exists []. }
  rewrite (bind_Return _ _ _ _ _ (when_printing _ _ _)).
  rewrite (bind_Return _ _ _ _ _ (print_printing _ _)).
  destruct (environ E !! "RISCV_OBJCOPY") as [objcopy|].
  2:{ unfold bind, print, sys_exit. simpl.
      split; [done|]. exists [CheckOutput argv1 None]. split; [done|].
      by repeat constructor. }
  match goal with |- context [bind (ret objcopy) ?k ?w0] =>
    rewrite (bind_Return (ret objcopy) k w0 objcopy w0) by done
  end.
  set (argv2 := Py.split_ws _).
  unfold bind at 1. rewrite check_output_unlimited.
  destruct (Z.eqb_spec (returncode (spawn E argv2)) 0) as [Hrc2|Hrc2].
  2:{ simpl. split; [done|]. split; [done|]. exists [CheckOutput argv1 None].
      split; [by rewrite <- app_assoc|]. by repeat constructor. }
  rewrite when_printing. simpl.
  exists [CheckOutput argv1 None; CheckOutput argv2 None]. split; [|by repeat constructor].
  simpl. by rewrite <- app_assoc.
Qed.

(** X14: however [gcc_compile] ends, every process it has started was
    waited for without a time limit, and all of them except possibly the
    last have ended with status 0.  When it returns, the last has too.
    Otherwise either a variable of the tool chain is not set and the script
    ends with status 1, or the process started last has ended with another
    status and its exception ends the script: nothing is started after a
    failure. *)
Theorem gcc_compile_stops_at_first_failure E test_list output_dir isa mabi verbose w :
  ends (gcc_compile E test_list output_dir isa mabi verbose w)
    (fun _ w' => started_since w (gcc_process_ok E) w')
    (gcc_compile_failure E w).
Proof.
  rewrite gcc_compile_unfold.
  apply (for_ends test_list _ (fun _ w' => started_since w (gcc_process_ok E) w'));
    [|apply started_since_refl].
  intros pre test w1 _ H1.
  apply (for_ends (Py.range (Yaml.iterations test)) _
           (fun _ w' => started_since w (gcc_process_ok E) w')); [|done].
  intros pre' i w2 _ H2.
  eapply ends_weaken; [apply gcc_compile_body_ends| |].
  - intros [] w3 H3. by apply (started_since_trans _ w2).
  - intros f w3 H3. by apply (gcc_compile_failure_since E w w2).
Qed.

(** ** The summary of a run *)

Lemma count_matching_app pat l1 l2 :
  Sh.count_matching pat (l1 ++ l2)
    = Sh.count_matching pat l1 + Sh.count_matching pat l2.
Proof.
  unfold Sh.count_matching. rewrite filter_app, length_app. lia.
Qed.

Lemma count_matching_flat_map {A} pat1 pat2 (f : A -> list string) l :
  (forall x, x ∈ l ->
     Sh.count_matching pat1 (f x) + Sh.count_matching pat2 (f x) = 1) ->
  Sh.count_matching pat1 (flat_map f l) + Sh.count_matching pat2 (flat_map f l)
    = Z.of_nat (length l).
Proof.
  induction l as [|x l IH]; intros Hone; [done|].
  change (flat_map f (x :: l)) with (f x ++ flat_map f l).
  rewrite !count_matching_app. simpl length. rewrite Nat2Z.inj_succ.
  pose proof (Hone x ltac:(by left)) as H1.
  pose proof (IH (fun y Hy => Hone y ltac:(by right))) as H2. lia.
Qed.

(** When every comparison counts as one passed or as one failed, the two
    counts add up to the number of comparisons. *)
Lemma report_entries_counts E test_list output_dir first second :
  (forall test i, test ∈ test_list -> i ∈ Py.range (Yaml.iterations test) ->
     Sh.count_matching "PASSED" (report_entry E output_dir first second test i)
       + Sh.count_matching "FAILED" (report_entry E output_dir first second test i)
     = 1) ->
  Sh.count_matching "PASSED" (report_entries E test_list output_dir first second)
    + Sh.count_matching "FAILED" (report_entries E test_list output_dir first second)
  = comparisons test_list.
Proof.
  unfold report_entries, comparisons.
  induction test_list as [|test l IH]; intros Hone; [done|].
  match goal with |- context [flat_map ?f (test :: l)] =>
    change (flat_map f (test :: l)) with (f test ++ flat_map f l) end.
  match goal with |- context [length (flat_map ?g (test :: l))] =>
    change (flat_map g (test :: l)) with (g test ++ flat_map g l) end.
  rewrite !count_matching_app, length_app, Nat2Z.inj_add.
  rewrite <- IH by (intros t i Ht; apply Hone; by right).
  pose proof (count_matching_flat_map "PASSED" "FAILED"
                (report_entry E output_dir first second test)
                (Py.range (Yaml.iterations test))
                (fun i Hi => Hone test i ltac:(by left) Hi)) as H1.
  lia.
Qed.

(** X16: in bash, for plain names and at least one comparison: when every
    comparison leaves exactly one line with a marker in the report, PASSED
    or FAILED, the summary that the stage prints and appends to the report
    is [P PASSED, F FAILED] with [P + F] the number of comparisons, one for
    every test and iteration. *)
Theorem iss_cmp_summary_adds_up E test_list iss output_dir verbose w a b :
  sh E = Bash ->
  all_chars safe_char output_dir = true ->
  Py.startswith "-" output_dir = false ->
  Forall (fun test => all_chars safe_char (Yaml.test test) = true) test_list ->
  safe_pair (a, b) ->
  Py.split "," iss = [a; b] ->
  0 < comparisons test_list ->
  (forall test i, test ∈ test_list -> i ∈ Py.range (Yaml.iterations test) ->
     let entry := report_entry E output_dir (operands a b).1 (operands a b).2
                    test i in
     Sh.count_matching "PASSED" entry + Sh.count_matching "FAILED" entry = 1) ->
  exists P F w' report_before printed_before,
    P + F = comparisons test_list
    /\ iss_cmp E test_list iss output_dir verbose w = (Return tt, w')
    /\ fs w' !! (output_dir +:+ "/iss_regr.log")
         = Some (report_before
                   ++ [Py.fmt_d P +:+ " PASSED, " +:+ Py.fmt_d F +:+ " FAILED"])
    /\ printed w' = printed_before
         ++ [Py.fmt_d P +:+ " PASSED, " +:+ Py.fmt_d F +:+ " FAILED";
             "ISS regression report is saved to " +:+ output_dir
               +:+ "/iss_regr.log"].
Proof.
  intros Hsh Ho Hd Htests Hpair Hsplit Hsome Hone.
  set (entries := report_entries E test_list output_dir (operands a b).1
                    (operands a b).2).
  pose proof (report_entries_counts E test_list output_dir (operands a b).1
                (operands a b).2 Hone) as Hcounts.
  fold entries in Hcounts.
  assert (Hne : entries <> []).
  { intros Hnil. rewrite Hnil in Hcounts.
    change (Sh.count_matching "PASSED" []) with 0 in Hcounts.
    change (Sh.count_matching "FAILED" []) with 0 in Hcounts. lia. }
  destruct (iss_cmp_report_and_summary E test_list iss output_dir verbose w a b
              Hsh Ho Hd Htests Hpair Hsplit Hne) as (w' & Hrun & Hfs & pb & Hprinted).
  exists (Sh.count_matching "PASSED" entries), (Sh.count_matching "FAILED" entries),
    w', entries, pb.
  split; [exact Hcounts|]. split; [exact Hrun|]. split; [exact Hfs|exact Hprinted].
Qed.

(** ** The properties on the concrete installation *)

Lemma main_unknown_steps_witness :
  main (Demo.env 0 1 0) (Demo.args "spike" "compile") "/cwd" Demo.empty_world
  = (Return tt,
     start (SubprocessRun ["mkdir"; "-p"; "out/asm_tests"])
       (start (SubprocessRun ["mkdir"; "-p"; "out"]) Demo.empty_world)).
Proof.
  refine (main_unknown_steps_run_nothing (Demo.env 0 1 0)
            (Demo.args "spike" "compile") "/cwd" Demo.empty_world _ _ _).
  - discriminate.
  - discriminate.
  - by repeat constructor.
Defined.

Lemma parse_iss_yaml_unset_path_witness :
  parse_iss_yaml Demo.env_without_variables "ovpsim" "iss.yaml" "rv64imc"
    Demo.empty_world
  = (SysExit (Status 1),
     printing ["Processing ISS setup file : iss.yaml";
               "Found matching ISS: ovpsim";
               "Please set the environment variable OVPSIM_PATH"]
       Demo.empty_world).
Proof.
  refine (parse_iss_yaml_unset_path Demo.env_without_variables "ovpsim" "iss.yaml"
            "rv64imc"
            [ {| Yaml.iss := "spike"; Yaml.path_var := "SPIKE_PATH";
                 Yaml.cmd := "<path_var>/spike --isa=<variant> <elf> " |} ]
            {| Yaml.iss := "ovpsim"; Yaml.path_var := "OVPSIM_PATH";
               Yaml.cmd := "<path_var>/ovp --variant <variant> --program <elf>" |}
            [] Demo.empty_world _ _ _ _);
    [reflexivity| by repeat constructor |reflexivity|vm_compute; reflexivity].
Defined.

Lemma get_iss_cmd_without_placeholder_witness :
  get_iss_cmd "spike -l prog" "out/asm_tests/t0.0.o" "out/spike_sim/t0.0.log"
    = "spike -l prog &> out/spike_sim/t0.0.log".
Proof.
  exact (get_iss_cmd_without_placeholder "spike -l prog" "out/asm_tests/t0.0.o"
           "out/spike_sim/t0.0.log" eq_refl eq_refl).
Defined.

Lemma get_iss_cmd_one_placeholder_witness :
  get_iss_cmd "spike --isa=RV64IMC <elf> -l" "a<elf>.o" "t.log"
    = "spike --isa=RV64IMC a<elf>.o -l &> t.log".
Proof.
  exact (get_iss_cmd_one_placeholder "spike --isa=RV64IMC " " -l" "a<elf>.o" "t.log"
           eq_refl eq_refl eq_refl).
Defined.

Lemma compared_logs_are_simulated_witness :
  exists w1 w2 cmd_first cmd_second,
    iss_sim (Demo.env 0 1 0) Demo.tests "out" "ovpsim,spike" "iss.yaml" "rv64imc" 0
      Demo.empty_world = (Return tt, w1)
    /\ iss_cmp (Demo.env 0 1 0) Demo.tests "ovpsim,spike" "out" 0 w1 = (Return tt, w2)
    /\ Popen (cmd_first +:+ " &> " +:+ "out/spike_sim/t0.1.log") ∈ started w1
    /\ Popen (cmd_second +:+ " &> " +:+ "out/ovpsim_sim/t0.1.log") ∈ started w1
    /\ Popen "./iss_cmp out/spike_sim/t0.1.log out/ovpsim_sim/t0.1.log out/iss_regr.log &>> out/iss_regr.log"
         ∈ started w2.
Proof.
  refine (compared_logs_are_simulated (Demo.env 0 1 0) Demo.tests "out"
            "ovpsim,spike" "iss.yaml" "rv64imc" 0
            ["/opt/ovp/ovp --variant RV64IMC --program <elf>";
             "/opt/spike/spike --isa=rv64imc <elf>"]
            Demo.empty_world "ovpsim" "spike"
            {| Yaml.test := "t0"; Yaml.uvm_test := "u0"; Yaml.iterations := 2 |}
            1 _ _ _ _ _ _ _ _).
  - reflexivity.
  - constructor; [|constructor; [|constructor]].
    + exists {| Yaml.iss := "ovpsim"; Yaml.path_var := "OVPSIM_PATH";
                Yaml.cmd := "<path_var>/ovp --variant <variant> --program <elf>" |},
        "/opt/ovp".
      repeat split; vm_compute; reflexivity.
    + exists {| Yaml.iss := "spike"; Yaml.path_var := "SPIKE_PATH";
                Yaml.cmd := "<path_var>/spike --isa=<variant> <elf> " |},
        "/opt/spike".
      repeat split; vm_compute; reflexivity.
  - reflexivity.
  - by repeat constructor.
  - reflexivity.
  - intros cmd. reflexivity.
  - by left.
  - vm_compute. by repeat constructor.
Defined.

Lemma iss_cmp_always_returns_witness :
  (iss_cmp (Demo.env 0 1 3) Demo.tests "ovpsim,spike" "out dir" 0
     Demo.world_with_report).1 = Return tt.
Proof.
  exact (iss_cmp_always_returns (Demo.env 0 1 3) Demo.tests "ovpsim,spike" "out dir"
           0 Demo.world_with_report (fun cmd => eq_refl)).
Defined.

Lemma iss_sim_stops_at_unknown_simulator_witness :
  exists w',
    iss_sim (Demo.env 0 1 1) Demo.tests "out" "spike,nosim,ovpsim" "iss.yaml"
      "rv64imc" 0 Demo.empty_world = (SysExit (Status 1), w')
    /\ started w'
       = [SubprocessRun ["mkdir"; "-p"; "out/spike_sim"];
          Popen "/opt/spike/spike --isa=rv64imc out/asm_tests/t0.0.o &> out/spike_sim/t0.0.log";
          Popen "/opt/spike/spike --isa=rv64imc out/asm_tests/t0.1.o &> out/spike_sim/t0.1.log"].
Proof.
  refine (iss_sim_stops_at_unknown_simulator (Demo.env 0 1 1) Demo.tests "out"
            "spike,nosim,ovpsim" "iss.yaml" "rv64imc" 0 ["spike"]
            ["/opt/spike/spike --isa=rv64imc <elf>"] "nosim" ["ovpsim"]
            Demo.empty_world _ _ _ _ _ _ _).
  - reflexivity.
  - constructor; [|constructor].
    exists {| Yaml.iss := "spike"; Yaml.path_var := "SPIKE_PATH";
              Yaml.cmd := "<path_var>/spike --isa=<variant> <elf> " |},
      "/opt/spike".
    repeat split; vm_compute; reflexivity.
  - vm_compute; reflexivity.
  - reflexivity.
  - by repeat constructor.
  - reflexivity.
  - intros cmd. reflexivity.
Defined.

Lemma gen_unknown_simulator_witness :
  gen (Demo.env 0 1 0) Demo.tests "questa" "simulator.yaml" "out" 1 1 "" (-1)
    "/cwd" 0 Demo.empty_world
  = (SysExit (Status 1),
     printing ["Processing simulator setup file : simulator.yaml";
               "Cannot find RTL simulator questa"] Demo.empty_world).
Proof.
  refine (gen_unknown_simulator (Demo.env 0 1 0) Demo.tests "questa"
            "simulator.yaml" "out" 1 1 "" (-1) "/cwd" 0 Demo.empty_world _).
  by repeat constructor.
Defined.

Lemma gen_processes_witness :
  exists w',
    gen (Demo.env 0 1 7) Demo.tests "vcs" "simulator.yaml" "out" 0 0 "" (-1)
      "/cwd" 0 Demo.empty_world = (Return tt, w')
    /\ started w'
       = [Popen "vcs -o out/simv"; Popen "vcs_post /cwd";
          CheckOutput ["out/simv"; "+x"; "+UVM_TESTNAME=u0"; "+num_of_tests=2";
                       "+asm_file_name=out/asm_tests/t0";
                       "+ntb_random_seed=100"; "-l"; "out/sim_t0.log"]
            (Some 300)].
Proof.
  refine (gen_processes (Demo.env 0 1 7) Demo.tests "vcs" "simulator.yaml" "out"
            0 0 "" (-1) "/cwd" 0 []
            {| Yaml.tool := "vcs";
               Yaml.compile_cmd := ["vcs -o <out>/simv"; "vcs_post <cwd>"];
               Yaml.sim_cmd := "<out>/simv +x " |} [] Demo.empty_world
            _ _ _ _ _ _ _).
  - reflexivity.
  - constructor.
  - reflexivity.
  - reflexivity.
  - reflexivity.
  - intros cmd. reflexivity.
  - intros argv. simpl.
    destruct (bool_decide _); simpl; (split; [reflexivity|split; [lia|reflexivity]]).
Defined.

Lemma gen_returns_after_success_only_witness :
  started_since Demo.empty_world (gen_process_ok (Demo.env 0 1 7))
    (gen (Demo.env 0 1 7) Demo.tests "vcs" "simulator.yaml" "out" 0 0 "" (-1)
       "/cwd" 0 Demo.empty_world).2.
Proof.
  refine (gen_returns_after_success_only (Demo.env 0 1 7) Demo.tests "vcs"
            "simulator.yaml" "out" 0 0 "" (-1) "/cwd" 0 Demo.empty_world _ _).
  vm_compute; reflexivity.
Defined.

Lemma gen_run_argv_witness :
  Py.split_ws
    (gen_run_cmd "bsub -Is" "out/simv +x " "out"
       {| Yaml.test := "t0"; Yaml.uvm_test := "u0"; Yaml.iterations := 2 |} 7)
    = ["bsub"; "-Is"; "out/simv"; "+x"; "+UVM_TESTNAME=u0"; "+num_of_tests=2";
       "+asm_file_name=out/asm_tests/t0"; "+ntb_random_seed=7"; "-l";
       "out/sim_t0.log"].
Proof.
  exact (gen_run_argv "bsub -Is" "out/simv +x " "out"
           {| Yaml.test := "t0"; Yaml.uvm_test := "u0"; Yaml.iterations := 2 |} 7
           eq_refl eq_refl eq_refl).
Defined.

Lemma gcc_compile_processes_witness :
  exists w',
    gcc_compile (Demo.env 0 1 0) Demo.tests "out" "rv64imc" "lp64" 0
      Demo.empty_world = (Return tt, w')
    /\ started w' = started Demo.empty_world
         ++ gcc_compile_invocations "gcc" "objcopy" "rv64imc" "lp64" Demo.tests "out".
Proof.
  refine (gcc_compile_processes (Demo.env 0 1 0) Demo.tests "out" "rv64imc" "lp64"
            0 "gcc" "objcopy" Demo.empty_world _ _ _ _ _ _ _).
  - vm_compute; reflexivity.
  - vm_compute; reflexivity.
  - intros argv. simpl. by destruct (bool_decide _).
  - reflexivity.
  - reflexivity.
  - reflexivity.
  - by repeat constructor.
Defined.

Lemma iss_cmp_report_contents_witness :
  exists w',
    iss_cmp (Demo.env 0 1 0) Demo.tests "ovpsim,spike" "out" 0
      Demo.world_with_report = (Return tt, w')
    /\ fs w' !! "out/iss_regr.log"
       = Some ["Test binary: out/asm_tests/t0.0.o";
               "compare out/spike_sim/t0.0.log out/ovpsim_sim/t0.0.log out/iss_regr.log";
               "[PASSED]: 10 matched";
               "Test binary: out/asm_tests/t0.1.o";
               "compare out/spike_sim/t0.1.log out/ovpsim_sim/t0.1.log out/iss_regr.log";
               "[PASSED]: 10 matched";
               "2 PASSED, 0 FAILED"].
Proof.
  refine (iss_cmp_report_contents (Demo.env 0 1 0) Demo.tests "ovpsim,spike" "out"
            0 Demo.world_with_report "ovpsim" "spike" _ _ _ _ _ _ _).
  - reflexivity.
  - reflexivity.
  - reflexivity.
  - by repeat constructor.
  - by split.
  - reflexivity.
  - discriminate.
Defined.

Lemma iss_cmp_summary_adds_up_witness :
  exists P F w' report_before printed_before,
    P + F = 2
    /\ iss_cmp (Demo.env 0 1 0) Demo.tests "ovpsim,spike" "out" 0
         Demo.world_with_report = (Return tt, w')
    /\ fs w' !! "out/iss_regr.log"
         = Some (report_before
                   ++ [Py.fmt_d P +:+ " PASSED, " +:+ Py.fmt_d F +:+ " FAILED"])
    /\ printed w' = printed_before
         ++ [Py.fmt_d P +:+ " PASSED, " +:+ Py.fmt_d F +:+ " FAILED";
             "ISS regression report is saved to out/iss_regr.log"].
Proof.
  refine (iss_cmp_summary_adds_up (Demo.env 0 1 0) Demo.tests "ovpsim,spike" "out"
            0 Demo.world_with_report "ovpsim" "spike" _ _ _ _ _ _ _ _).
  - reflexivity.
  - reflexivity.
  - reflexivity.
  - by repeat constructor.
  - by split.
  - reflexivity.
  - reflexivity.
  - intros test i Ht Hi.
    apply list_elem_of_In in Ht. destruct Ht as [<-|[]].
    apply list_elem_of_In in Hi. vm_compute in Hi.
    destruct Hi as [<-|[<-|[]]]; vm_compute; reflexivity.
Defined.
